(** * Lonitor: the sampling loop, its rolling histories and the privileged
      actions of [app.py], embedded in Rocq.

    The program is a PyQt6 widget.  What is modelled here is the part of it
    that carries behaviour: the helper functions at the top of the file
    ([get_cpu_temp], [clear_ram_cache], [clear_storage_cache],
    [set_power_mode], [kill_process], [get_battery_info], [get_disk_info],
    [get_network_info], [get_top_processes]), the colour choice of
    [StyledProgressBar.update_color], the shades of [StyledButton]
    ([darken_color], [update_style]), and the methods of
    [EnhancedSysMonitor] that run after construction ([update_stats],
    [update_process_table], the four action handlers and [log_message]).

    Conventions.
    - A finite Python [float] is the rational [Q] it denotes; Python [int]
      is [Z].  Where the arithmetic of the program rounds, the result is
      rounded to binary64 by [Float.nearest]: the division by 1000 in
      [get_cpu_temp], the product with the factor in [darken_color], and
      the literals 0.85 and 0.8.  The other operations are exact on the
      values that occur: the division of a byte count below 2^53 by a
      power of two, and the differences of such quotients and of time
      stamps.
    - A call that may raise returns a [result]; the calls into [psutil],
      [os], [subprocess] and the file system are read from a record of
      what the operating system answers.
    - The widget object is a record that is threaded through the methods;
      a raised exception leaves the mutations made so far in place, as an
      in-place update of a Python object does. *)

From Stdlib Require Import ZArith QArith Qpower Qround Qabs List String Ascii
  Bool.
From Stdlib Require Import Lia Lqa.
From Stdlib Require Import DecimalString.
From Stdlib Require HexadecimalString HexadecimalPos DecimalPos DecimalZ.
From Stdlib Require Import Sorted Permutation.
From Stdlib Require PrimFloat FloatOps SpecFloat Uint63.
Import ListNotations.

Local Open Scope Z_scope.
Local Open Scope string_scope.

(** ** Python values and exceptions *)

Module Py.

(** The exception classes the modelled calls can raise, with the part of
    the built-in hierarchy that the [except] clauses of the program
    distinguish.  All of them are below [Exception]: [KeyboardInterrupt]
    and [SystemExit], which none of the modelled calls raises, are not
    modelled. *)
Inductive exc_class : Type :=
| Exception
| OSError
| ProcessLookupError
| PermissionError
| FileNotFoundError
| SubprocessError
| CalledProcessError
| ValueError
| TypeError
| AttributeError
| ArithmeticError
| OverflowError.

Definition exc_class_eqb (a b : exc_class) : bool :=
  match a, b with
  | Exception, Exception | OSError, OSError
  | ProcessLookupError, ProcessLookupError
  | PermissionError, PermissionError
  | FileNotFoundError, FileNotFoundError
  | SubprocessError, SubprocessError
  | CalledProcessError, CalledProcessError
  | ValueError, ValueError | TypeError, TypeError
  | AttributeError, AttributeError
  | ArithmeticError, ArithmeticError
  | OverflowError, OverflowError => true
  | _, _ => false
  end.

(** The direct base class; [Exception] is the root of what is modelled. *)
Definition base (c : exc_class) : option exc_class :=
  match c with
  | Exception => None
  | OSError | SubprocessError | ValueError | TypeError | AttributeError
  | ArithmeticError => Some Exception
  | ProcessLookupError | PermissionError | FileNotFoundError => Some OSError
  | CalledProcessError => Some SubprocessError
  | OverflowError => Some ArithmeticError
  end.

Fixpoint issubclass_fuel (fuel : nat) (c d : exc_class) : bool :=
  exc_class_eqb c d ||
  match fuel with
  | O => false
  | S fuel' =>
      match base c with
      | Some b => issubclass_fuel fuel' b d
      | None => false
      end
  end.

(** The hierarchy above has depth two. *)
Definition issubclass : exc_class -> exc_class -> bool := issubclass_fuel 2.

(** An exception object: its class and what [str(e)] gives. *)
Record exn : Type := mk_exn { exn_class : exc_class; str : string }.

Definition isinstance (e : exn) (c : exc_class) : bool :=
  issubclass (exn_class e) c.

(** The outcome of a call: it returns a value or raises. *)
Inductive result (A : Type) : Type :=
| Return (a : A)
| Raise (e : exn).
Arguments Return {A} a.
Arguments Raise {A} e.

Definition bind {A B} (r : result A) (k : A -> result B) : result B :=
  match r with
  | Return a => k a
  | Raise e => Raise e
  end.

(** [try: body / except: handler], the bare clause that catches
    everything. *)
Definition try_except {A} (body : result A) (handler : A) : A :=
  match body with
  | Return a => a
  | Raise _ => handler
  end.

(** [try: body / except C1 as e: h1 e / except C2 as e: h2 e / ...]: the
    first clause whose class the exception is an instance of handles it;
    with no such clause the exception goes on to the caller. *)
Fixpoint handle {A} (e : exn)
    (clauses : list (exc_class * (exn -> result A))) : result A :=
  match clauses with
  | [] => Raise e
  | (c, handler) :: rest =>
      if isinstance e c then handler e else handle e rest
  end.

Definition try_excepts {A} (body : result A)
    (clauses : list (exc_class * (exn -> result A))) : result A :=
  match body with
  | Return a => Return a
  | Raise e => handle e clauses
  end.

Definition is_return {A} (r : result A) : bool :=
  match r with Return _ => true | Raise _ => false end.

(** [str(n)] and [f"{n}"] for an [int]. *)
Definition str_int (n : Z) : string := NilZero.string_of_int (Z.to_int n).

(** [str.strip()] removes the ASCII white space of [str.isspace]. *)
Definition isspace (c : ascii) : bool :=
  let n := nat_of_ascii c in
  ((9 <=? n) && (n <=? 13) || (28 <=? n) && (n <=? 32))%nat.

Fixpoint lstrip (s : string) : string :=
  match s with
  | String c s' => if isspace c then lstrip s' else s
  | EmptyString => EmptyString
  end.

Fixpoint rev_string (acc s : string) : string :=
  match s with
  | String c s' => rev_string (String c acc) s'
  | EmptyString => acc
  end.

Definition strip (s : string) : string :=
  rev_string "" (lstrip (rev_string "" (lstrip s))).

(** [int(s)] in base ten: white space around, an optional sign, then
    digits, where single underscores may separate digits; anything else
    raises [ValueError]. *)
Definition digit_of (c : ascii) : option Z :=
  let n := nat_of_ascii c in
  if ((48 <=? n) && (n <=? 57))%nat then Some (Z.of_nat n - 48) else None.

Definition is_underscore (c : ascii) : bool := (nat_of_ascii c =? 95)%nat.

(** [digits acc after_digit s]: [after_digit] says that the previous
    character was a digit, the only place where an underscore or the end
    of the text is accepted. *)
Fixpoint digits (acc : Z) (after_digit : bool) (s : string) : option Z :=
  match s with
  | EmptyString => if after_digit then Some acc else None
  | String c s' =>
      match digit_of c with
      | Some d => digits (10 * acc + d) true s'
      | None =>
          if is_underscore c && after_digit then digits acc false s'
          else None
      end
  end.

Definition int_of_str (s : string) : result Z :=
  let t := strip s in
  let parsed :=
    match t with
    | String "-" t' => option_map Z.opp (digits 0 false t')
    | String "+" t' => digits 0 false t'
    | _ => digits 0 false t
    end in
  match parsed with
  | Some n => Return n
  | None =>
      Raise (mk_exn ValueError
               ("invalid literal for int() with base 10: '" ++ s ++ "'"))
  end.

(** [int(x)] for a float: truncation towards zero. *)
Definition int_of_float (q : Q) : Z := Z.quot (Qnum q) (QDen q).

Definition Qltb (x y : Q) : bool := negb (Qle_bool y x).

(** Round to the nearest integer, ties to even: the rounding of
    [format(x, ".Nf")]. *)
Definition round_half_even (q : Q) : Z :=
  let f := Qfloor q in
  match Qcompare (q - inject_Z f) (1 # 2) with
  | Lt => f
  | Gt => f + 1
  | Eq => if Z.even f then f else f + 1
  end.

Fixpoint zfill (width : nat) (s : string) : string :=
  match (width - String.length s)%nat with
  | O => s
  | S _ =>
      match width with
      | O => s
      | S w => String "0" (zfill w s)
      end
  end.

(** [f"{q:.Nf}"]: fixed point with [prec] digits after the point. *)
Definition format_f (prec : nat) (q : Q) : string :=
  let scale := 10 ^ Z.of_nat prec in
  let n := round_half_even (Qabs q * inject_Z scale) in
  let sign := if Qltb q 0 then "-" else "" in
  let frac :=
    match prec with
    | O => ""
    | S _ => "." ++ zfill prec (str_int (n mod scale))
    end in
  sign ++ str_int (n / scale) ++ frac.

End Py.

Import Py.

(** ** Binary64 arithmetic *)

Module Float.

(** A finite [float] is kept as the rational it denotes.  An operation
    that can round is rounded as IEEE 754 rounds it: to the nearest
    binary64 number, ties to the one with an even significand. *)

(** [floor_log2 q] is the integer [k] with [2^k <= |q| < 2^(k+1)], for [q]
    other than 0. *)
Definition floor_log2 (q : Q) : Z :=
  let d := (Z.log2 (Z.abs (Qnum q)) - Z.log2 (Zpos (Qden q)))%Z in
  if Qle_bool (2 ^ d) (Qabs q) then d else (d - 1)%Z.

(** The exponent of the unit in the last place of the binary64 numbers
    around [q]: 53 significant bits, and no exponent below that of the
    subnormal numbers. *)
Definition ulp_exponent (q : Q) : Z := Z.max (-1074) (floor_log2 q - 52).

(** The multiple of [2 ^ ulp_exponent q] nearest to [q], ties to the even
    multiple: the binary64 number that [q] rounds to, when there is one. *)
Definition nearest (q : Q) : Q :=
  if Qeq_bool q 0 then 0%Q
  else
    let ulp := (2 ^ ulp_exponent q)%Q in
    (inject_Z (round_half_even (q / ulp)) * ulp)%Q.

(** The result of an operation whose exact value is [q]: from [2^1024] on
    the rounded value is an infinity, [None]. *)
Definition round (q : Q) : option Q :=
  let v := nearest q in
  if Qle_bool (2 ^ 1024) (Qabs v) then None else Some v.

(** A literal such as [0.85]: the binary64 number nearest to the decimal
    written. *)
Definition literal (q : Q) : Q := nearest q.

(** [a / b] for two [int]s, [b] positive: the quotient, correctly
    rounded. *)
Definition truediv (a : Z) (b : positive) : result Q :=
  match round (a # b) with
  | Some v => Return v
  | None =>
      Raise (mk_exn OverflowError
               "integer division result too large for a float")
  end.

(** The conversion of an [int] operand of a float operation. *)
Definition of_int (n : Z) : result Q :=
  match round (inject_Z n) with
  | Some v => Return v
  | None => Raise (mk_exn OverflowError "int too large to convert to float")
  end.

(** [n * x] for an [int] and a [float]. *)
Definition mul_int (n : Z) (x : Q) : result (option Q) :=
  bind (of_int n) (fun v => Return (round (v * x))).

(** [int(x)]: truncation, and an error for an infinity. *)
Definition to_int (x : option Q) : result Z :=
  match x with
  | Some q => Return (int_of_float q)
  | None =>
      Raise (mk_exn OverflowError "cannot convert float infinity to integer")
  end.

End Float.

(** ** What the operating system and the libraries answer

    The program owns no data of its own: every figure comes from [psutil],
    every action goes through [os], [shutil] or [subprocess].  A [host] is
    the set of answers these calls give at one moment. *)

Module Host.

(** [psutil.virtual_memory()]: the fields the program reads. *)
Record svmem : Type := mk_svmem {
  vm_total : Z;
  vm_used : Z;
  vm_percent : Q
}.

(** [psutil.disk_usage(path)]. *)
Record sdiskusage : Type := mk_sdiskusage {
  du_total : Z;
  du_used : Z;
  du_free : Z;
  du_percent : Q
}.

(** [psutil.net_io_counters()]: cumulative byte counts. *)
Record snetio : Type := mk_snetio {
  bytes_sent : Z;
  bytes_recv : Z
}.

(** [psutil.sensors_battery()]; [power_plugged] is [None] when the state
    of the cable cannot be told. *)
Record sbattery : Type := mk_sbattery {
  bat_percent : Q;
  secsleft : Z;
  power_plugged : option bool
}.

(** The [info] dictionary of one process of [psutil.process_iter]. *)
Record pinfo : Type := mk_pinfo {
  pid : Z;
  name : string;
  cpu_percent : Q;
  memory_percent : Q
}.

(** How a command started by [subprocess.run] ends: it ran and exited
    with a return code, or it could not be started. *)
Inductive run_outcome : Type :=
| Exited (returncode : Z)
| NotStarted (e : exn).

Record host : Type := mk_host {
  (* open("/sys/class/thermal/thermal_zone0/temp") and f.read() *)
  read_file : string -> result string;
  psutil_cpu_percent : result Q;
  psutil_virtual_memory : result svmem;
  psutil_sensors_battery : result (option sbattery);
  psutil_disk_usage : string -> result sdiskusage;
  psutil_net_io_counters : result snetio;
  psutil_process_iter : result (list pinfo);
  psutil_boot_time : result Q;
  (* datetime.now(): the POSIX time stamp and the time of day *)
  now_timestamp : Q;
  now_hms : nat * nat * nat;
  (* os.kill(pid, sig) *)
  os_kill : Z -> Z -> result unit;
  (* the command line, and whether it goes through the shell *)
  run_command : list string -> bool -> run_outcome;
  expanduser : string -> string;
  path_exists : string -> bool;
  path_isdir : string -> bool;
  os_listdir : string -> result (list string);
  shutil_rmtree : string -> result unit;
  os_remove : string -> result unit
}.

(** [psutil.POWER_TIME_UNKNOWN] and [psutil.POWER_TIME_UNLIMITED]. *)
Definition POWER_TIME_UNKNOWN : Z := -1.
Definition POWER_TIME_UNLIMITED : Z := -2.

(** [signal.SIGTERM]. *)
Definition SIGTERM : Z := 15.

(** [repr] of a list of plain strings, as it appears in the text of a
    [CalledProcessError]. *)
Definition repr_str (s : string) : string := "'" ++ s ++ "'".

Fixpoint join_with (sep : string) (l : list string) : string :=
  match l with
  | [] => ""
  | [s] => s
  | s :: l' => s ++ sep ++ join_with sep l'
  end.

Definition repr_list (l : list string) : string :=
  "[" ++ join_with ", " (map repr_str l) ++ "]".

(** [str] of the [CalledProcessError] for a command and its return code.
    For a negative return code Python names the signal; the number is
    kept here. *)
Definition called_process_error_str (cmd : list string) (rc : Z) : string :=
  if (rc <? 0)%Z then
    "Command '" ++ repr_list cmd ++ "' died with signal " ++
    str_int (- rc) ++ "."
  else
    "Command '" ++ repr_list cmd ++ "' returned non-zero exit status " ++
    str_int rc ++ ".".

(** [subprocess.run(args, shell=shell, check=check)]; the value returned
    is the return code of the completed process. *)
Definition subprocess_run (h : host) (args : list string)
    (shell check : bool) : result Z :=
  match run_command h args shell with
  | NotStarted e => Raise e
  | Exited rc =>
      if check && negb (rc =? 0)%Z then
        Raise (mk_exn CalledProcessError (called_process_error_str args rc))
      else Return rc
  end.

(** [os.path.join(a, b)] on a POSIX host. *)
Definition path_join (a b : string) : string :=
  match b with
  | String "/" _ => b
  | _ =>
      match rev_string "" a with
      | EmptyString => b
      | String "/" _ => a ++ b
      | _ => a ++ "/" ++ b
      end
  end.

End Host.

Import Host.

(** ** The helper functions of [app.py] *)

Module BatteryInfo.
(** The dictionary that [get_battery_info] returns. *)
Record t : Type := mk {
  status : string;
  percent : Q;
  time : string;
  plugged : option bool
}.
End BatteryInfo.

Module DiskInfo.
(** The dictionary that [get_disk_info] returns, in GiB. *)
Record t : Type := mk {
  total : Q;
  used : Q;
  free : Q;
  percent : Q
}.
End DiskInfo.

Module NetworkInfo.
(** The dictionary that [get_network_info] returns, in MiB. *)
Record t : Type := mk {
  sent : Q;
  recv : Q
}.
End NetworkInfo.

Module Helpers.

Definition thermal_zone : string := "/sys/class/thermal/thermal_zone0/temp".

(** The truth value Python gives to [power_plugged]: [None] is false. *)
Definition truthy (b : option bool) : bool :=
  match b with
  | Some true => true
  | _ => false
  end.

Definition get_cpu_temp (h : host) : Q :=
  try_except
    (bind (read_file h thermal_zone) (fun text =>
     bind (int_of_str (strip text)) (fun n =>
     Float.truediv n 1000)))
    0%Q.

Definition clear_ram_cache (h : host) : result (bool * string) :=
  try_excepts
    (bind (subprocess_run h
             ["sudo"; "sh"; "-c"; "sync; echo 3 > /proc/sys/vm/drop_caches"]
             false true) (fun _ =>
     Return (true, "RAM cache cleared successfully!")))
    [(Exception, fun e =>
        Return (false, "Failed to clear RAM cache: " ++ str e))].

(** One turn of the loop over the cache directory: whatever the removal
    raises is dropped. *)
Definition remove_item (h : host) (item_path : string) : unit :=
  try_except
    (if path_isdir h item_path then shutil_rmtree h item_path
     else os_remove h item_path)
    tt.

Definition clear_storage_cache (h : host) : result (bool * string) :=
  try_excepts
    (bind (subprocess_run h ["sudo"; "rm"; "-rf"; "/tmp/*"] true false)
       (fun _ =>
     let home_cache := expanduser h "~/.cache" in
     bind (if path_exists h home_cache then
             bind (os_listdir h home_cache) (fun items =>
             Return (fold_left
                       (fun _ item =>
                          remove_item h (path_join home_cache item))
                       items tt))
           else Return tt) (fun _ =>
     Return (true, "Storage caches cleared successfully!"))))
    [(Exception, fun e =>
        Return (false, "Failed to clear storage cache: " ++ str e))].

Definition set_power_mode (h : host) (mode : string)
    : result (bool * string) :=
  try_excepts
    (bind (subprocess_run h ["sudo"; "powerprofilesctl"; "set"; mode]
             false true) (fun _ =>
     Return (true, "Power mode set to " ++ mode)))
    [(Exception, fun e =>
        Return (false, "Failed to set power mode: " ++ str e))].

Definition kill_process (h : host) (pid : Z) : result (bool * string) :=
  try_excepts
    (bind (os_kill h pid SIGTERM) (fun _ =>
     Return (true, "Process " ++ str_int pid ++ " terminated successfully")))
    [(ProcessLookupError, fun _ =>
        Return (false, "Process " ++ str_int pid ++ " not found"));
     (PermissionError, fun _ =>
        Return (false,
                "Permission denied to kill process " ++ str_int pid));
     (Exception, fun e =>
        Return (false, "Failed to kill process: " ++ str e))].

Definition get_battery_info (h : host) : result (option BatteryInfo.t) :=
  bind (psutil_sensors_battery h) (fun battery =>
  match battery with
  | Some battery =>
      let charging :=
        if truthy (power_plugged battery) then "Charging"
        else "Discharging" in
      let percent := bat_percent battery in
      let secs_left := secsleft battery in
      let time_str :=
        if (secs_left =? POWER_TIME_UNLIMITED)%Z then "Plugged In"
        else if (secs_left =? POWER_TIME_UNKNOWN)%Z then "Calculating..."
        else
          let hrs := (secs_left / 3600)%Z in
          let mins := ((secs_left mod 3600) / 60)%Z in
          str_int hrs ++ "h " ++ str_int mins ++ "m" in
      Return (Some (BatteryInfo.mk charging percent time_str
                      (power_plugged battery)))
  | None => Return None
  end).

Definition GiB : Q := inject_Z (1024 ^ 3).
Definition MiB : Q := inject_Z (1024 ^ 2).

Definition get_disk_info (h : host) : result DiskInfo.t :=
  bind (psutil_disk_usage h "/") (fun usage =>
  Return (DiskInfo.mk (inject_Z (du_total usage) / GiB)
                      (inject_Z (du_used usage) / GiB)
                      (inject_Z (du_free usage) / GiB)
                      (du_percent usage))%Q).

Definition get_network_info (h : host) : result NetworkInfo.t :=
  bind (psutil_net_io_counters h) (fun net =>
  Return (NetworkInfo.mk (inject_Z (bytes_sent net) / MiB)
                         (inject_Z (bytes_recv net) / MiB))%Q).

(** [sorted(l, key=..., reverse=True)]: descending by key, and entries
    with equal keys stay in the order they had. *)
Fixpoint insert_desc (x : pinfo) (l : list pinfo) : list pinfo :=
  match l with
  | [] => [x]
  | y :: l' =>
      if Qltb (cpu_percent x) (cpu_percent y) then y :: insert_desc x l'
      else x :: l
  end.

Definition sorted_desc (l : list pinfo) : list pinfo :=
  fold_right insert_desc [] l.

Definition get_top_processes (h : host) (limit : nat)
    : result (list pinfo) :=
  bind (psutil_process_iter h) (fun procs =>
  let processes := fold_left (fun acc proc => (acc ++ [proc])%list) procs [] in
  Return (firstn limit (sorted_desc processes))).

End Helpers.

Import Helpers.

(** ** The widgets the monitor owns *)

Module Widgets.

(** [StyledProgressBar]: a [QProgressBar] with its default range, and the
    colour of the chunk, the one part of the style sheet that
    [update_color] changes. *)
Record StyledProgressBar : Type := mk_bar {
  value : Z;
  chunk_color : string
}.

Definition bar_minimum : Z := 0.
Definition bar_maximum : Z := 100.

(** [StyledProgressBar()]: no value yet, the green chunk. *)
Definition new_bar : StyledProgressBar := mk_bar (-1) "#4CAF50".

(** [QProgressBar.setValue]: a value outside the range is ignored. *)
Definition setValue (v : Z) (b : StyledProgressBar) : StyledProgressBar :=
  if ((v <? bar_minimum) || (bar_maximum <? v))%Z then b
  else mk_bar v (chunk_color b).

(** The colour that [update_color] picks. *)
Definition select_color (v : Q) : string :=
  if Qltb v 60 then "#4CAF50"
  else if Qltb v 85 then "#FF9800"
  else "#F44336".

Definition update_color (v : Q) (b : StyledProgressBar)
    : StyledProgressBar :=
  mk_bar (value b) (select_color v).

(** [QLineSeries] with the x axis [create_chart_view] attaches to it: the
    points in order, each a tick index and a sample. *)
Record QLineSeries : Type := mk_series {
  points : list (Z * Q);
  axis_x : Z * Z
}.

Definition new_series : QLineSeries := mk_series [] (0, 60).

Definition append (px : Z) (py : Q) (s : QLineSeries) : QLineSeries :=
  mk_series (points s ++ [(px, py)])%list (axis_x s).

Definition count (s : QLineSeries) : Z := Z.of_nat (List.length (points s)).

Fixpoint remove_at {A} (i : nat) (l : list A) : list A :=
  match l, i with
  | [], _ => []
  | _ :: l', O => l'
  | a :: l', S i' => a :: remove_at i' l'
  end.

Definition remove (index : nat) (s : QLineSeries) : QLineSeries :=
  mk_series (remove_at index (points s)) (axis_x s).

Definition setRange (lo hi : Z) (s : QLineSeries) : QLineSeries :=
  mk_series (points s) (lo, hi).

(** A message box that was shown. *)
Inductive box_kind : Type := Information | Warning | Question.

Record QMessageBox : Type := mk_box {
  box : box_kind;
  box_title : string;
  box_text : string
}.

End Widgets.

Import Widgets.

(** ** [EnhancedSysMonitor] *)

Module Monitor.

(** A row of the process table: the texts of its four cells. *)
Record table_row : Type := mk_row {
  cell_pid : string;
  cell_name : string;
  cell_cpu : string;
  cell_memory : string
}.

(** The attributes of the window that the methods read or write.
    [selected_row] and [power_combo] are what the user has selected in the
    process table and in the power profile box; [message_boxes] lists the
    message boxes shown so far. *)
Record monitor : Type := mk_monitor {
  x : Z;
  network_baseline : NetworkInfo.t;
  cpu_label : string;
  cpu_bar : StyledProgressBar;
  cpu_temp_label : string;
  cpu_series : QLineSeries;
  ram_label : string;
  ram_bar : StyledProgressBar;
  ram_details : string;
  ram_series : QLineSeries;
  disk_label : string;
  disk_bar : StyledProgressBar;
  network_sent_label : string;
  network_recv_label : string;
  battery_label : string;
  battery_bar : StyledProgressBar;
  uptime_label : string;
  process_table : list table_row;
  selected_row : option nat;
  power_combo : string;
  log_output : list string;
  message_boxes : list QMessageBox
}.

(** Assignment to one attribute.  There is none for [network_baseline]:
    no statement after construction assigns it. *)
Definition set_x (v : Z) (m : monitor) : monitor :=
  mk_monitor v (network_baseline m) (cpu_label m) (cpu_bar m)
    (cpu_temp_label m) (cpu_series m) (ram_label m) (ram_bar m)
    (ram_details m) (ram_series m) (disk_label m) (disk_bar m)
    (network_sent_label m) (network_recv_label m) (battery_label m)
    (battery_bar m) (uptime_label m) (process_table m) (selected_row m)
    (power_combo m) (log_output m) (message_boxes m).

Definition set_cpu_label (v : string) (m : monitor) : monitor :=
  mk_monitor (x m) (network_baseline m) v (cpu_bar m) (cpu_temp_label m)
    (cpu_series m) (ram_label m) (ram_bar m) (ram_details m)
    (ram_series m) (disk_label m) (disk_bar m) (network_sent_label m)
    (network_recv_label m) (battery_label m) (battery_bar m)
    (uptime_label m) (process_table m) (selected_row m) (power_combo m)
    (log_output m) (message_boxes m).

Definition set_cpu_bar (v : StyledProgressBar) (m : monitor) : monitor :=
  mk_monitor (x m) (network_baseline m) (cpu_label m) v (cpu_temp_label m)
    (cpu_series m) (ram_label m) (ram_bar m) (ram_details m)
    (ram_series m) (disk_label m) (disk_bar m) (network_sent_label m)
    (network_recv_label m) (battery_label m) (battery_bar m)
    (uptime_label m) (process_table m) (selected_row m) (power_combo m)
    (log_output m) (message_boxes m).

Definition set_cpu_temp_label (v : string) (m : monitor) : monitor :=
  mk_monitor (x m) (network_baseline m) (cpu_label m) (cpu_bar m) v
    (cpu_series m) (ram_label m) (ram_bar m) (ram_details m)
    (ram_series m) (disk_label m) (disk_bar m) (network_sent_label m)
    (network_recv_label m) (battery_label m) (battery_bar m)
    (uptime_label m) (process_table m) (selected_row m) (power_combo m)
    (log_output m) (message_boxes m).

Definition set_cpu_series (v : QLineSeries) (m : monitor) : monitor :=
  mk_monitor (x m) (network_baseline m) (cpu_label m) (cpu_bar m)
    (cpu_temp_label m) v (ram_label m) (ram_bar m) (ram_details m)
    (ram_series m) (disk_label m) (disk_bar m) (network_sent_label m)
    (network_recv_label m) (battery_label m) (battery_bar m)
    (uptime_label m) (process_table m) (selected_row m) (power_combo m)
    (log_output m) (message_boxes m).

Definition set_ram_label (v : string) (m : monitor) : monitor :=
  mk_monitor (x m) (network_baseline m) (cpu_label m) (cpu_bar m)
    (cpu_temp_label m) (cpu_series m) v (ram_bar m) (ram_details m)
    (ram_series m) (disk_label m) (disk_bar m) (network_sent_label m)
    (network_recv_label m) (battery_label m) (battery_bar m)
    (uptime_label m) (process_table m) (selected_row m) (power_combo m)
    (log_output m) (message_boxes m).

Definition set_ram_bar (v : StyledProgressBar) (m : monitor) : monitor :=
  mk_monitor (x m) (network_baseline m) (cpu_label m) (cpu_bar m)
    (cpu_temp_label m) (cpu_series m) (ram_label m) v (ram_details m)
    (ram_series m) (disk_label m) (disk_bar m) (network_sent_label m)
    (network_recv_label m) (battery_label m) (battery_bar m)
    (uptime_label m) (process_table m) (selected_row m) (power_combo m)
    (log_output m) (message_boxes m).

Definition set_ram_details (v : string) (m : monitor) : monitor :=
  mk_monitor (x m) (network_baseline m) (cpu_label m) (cpu_bar m)
    (cpu_temp_label m) (cpu_series m) (ram_label m) (ram_bar m) v
    (ram_series m) (disk_label m) (disk_bar m) (network_sent_label m)
    (network_recv_label m) (battery_label m) (battery_bar m)
    (uptime_label m) (process_table m) (selected_row m) (power_combo m)
    (log_output m) (message_boxes m).

Definition set_ram_series (v : QLineSeries) (m : monitor) : monitor :=
  mk_monitor (x m) (network_baseline m) (cpu_label m) (cpu_bar m)
    (cpu_temp_label m) (cpu_series m) (ram_label m) (ram_bar m)
    (ram_details m) v (disk_label m) (disk_bar m) (network_sent_label m)
    (network_recv_label m) (battery_label m) (battery_bar m)
    (uptime_label m) (process_table m) (selected_row m) (power_combo m)
    (log_output m) (message_boxes m).

Definition set_disk_label (v : string) (m : monitor) : monitor :=
  mk_monitor (x m) (network_baseline m) (cpu_label m) (cpu_bar m)
    (cpu_temp_label m) (cpu_series m) (ram_label m) (ram_bar m)
    (ram_details m) (ram_series m) v (disk_bar m) (network_sent_label m)
    (network_recv_label m) (battery_label m) (battery_bar m)
    (uptime_label m) (process_table m) (selected_row m) (power_combo m)
    (log_output m) (message_boxes m).

Definition set_disk_bar (v : StyledProgressBar) (m : monitor) : monitor :=
  mk_monitor (x m) (network_baseline m) (cpu_label m) (cpu_bar m)
    (cpu_temp_label m) (cpu_series m) (ram_label m) (ram_bar m)
    (ram_details m) (ram_series m) (disk_label m) v (network_sent_label m)
    (network_recv_label m) (battery_label m) (battery_bar m)
    (uptime_label m) (process_table m) (selected_row m) (power_combo m)
    (log_output m) (message_boxes m).

Definition set_network_sent_label (v : string) (m : monitor) : monitor :=
  mk_monitor (x m) (network_baseline m) (cpu_label m) (cpu_bar m)
    (cpu_temp_label m) (cpu_series m) (ram_label m) (ram_bar m)
    (ram_details m) (ram_series m) (disk_label m) (disk_bar m) v
    (network_recv_label m) (battery_label m) (battery_bar m)
    (uptime_label m) (process_table m) (selected_row m) (power_combo m)
    (log_output m) (message_boxes m).

Definition set_network_recv_label (v : string) (m : monitor) : monitor :=
  mk_monitor (x m) (network_baseline m) (cpu_label m) (cpu_bar m)
    (cpu_temp_label m) (cpu_series m) (ram_label m) (ram_bar m)
    (ram_details m) (ram_series m) (disk_label m) (disk_bar m)
    (network_sent_label m) v (battery_label m) (battery_bar m)
    (uptime_label m) (process_table m) (selected_row m) (power_combo m)
    (log_output m) (message_boxes m).

Definition set_battery_label (v : string) (m : monitor) : monitor :=
  mk_monitor (x m) (network_baseline m) (cpu_label m) (cpu_bar m)
    (cpu_temp_label m) (cpu_series m) (ram_label m) (ram_bar m)
    (ram_details m) (ram_series m) (disk_label m) (disk_bar m)
    (network_sent_label m) (network_recv_label m) v (battery_bar m)
    (uptime_label m) (process_table m) (selected_row m) (power_combo m)
    (log_output m) (message_boxes m).

Definition set_battery_bar (v : StyledProgressBar) (m : monitor) : monitor :=
  mk_monitor (x m) (network_baseline m) (cpu_label m) (cpu_bar m)
    (cpu_temp_label m) (cpu_series m) (ram_label m) (ram_bar m)
    (ram_details m) (ram_series m) (disk_label m) (disk_bar m)
    (network_sent_label m) (network_recv_label m) (battery_label m) v
    (uptime_label m) (process_table m) (selected_row m) (power_combo m)
    (log_output m) (message_boxes m).

Definition set_uptime_label (v : string) (m : monitor) : monitor :=
  mk_monitor (x m) (network_baseline m) (cpu_label m) (cpu_bar m)
    (cpu_temp_label m) (cpu_series m) (ram_label m) (ram_bar m)
    (ram_details m) (ram_series m) (disk_label m) (disk_bar m)
    (network_sent_label m) (network_recv_label m) (battery_label m)
    (battery_bar m) v (process_table m) (selected_row m) (power_combo m)
    (log_output m) (message_boxes m).

Definition set_process_table (v : list table_row) (m : monitor) : monitor :=
  mk_monitor (x m) (network_baseline m) (cpu_label m) (cpu_bar m)
    (cpu_temp_label m) (cpu_series m) (ram_label m) (ram_bar m)
    (ram_details m) (ram_series m) (disk_label m) (disk_bar m)
    (network_sent_label m) (network_recv_label m) (battery_label m)
    (battery_bar m) (uptime_label m) v (selected_row m) (power_combo m)
    (log_output m) (message_boxes m).

Definition set_log_output (v : list string) (m : monitor) : monitor :=
  mk_monitor (x m) (network_baseline m) (cpu_label m) (cpu_bar m)
    (cpu_temp_label m) (cpu_series m) (ram_label m) (ram_bar m)
    (ram_details m) (ram_series m) (disk_label m) (disk_bar m)
    (network_sent_label m) (network_recv_label m) (battery_label m)
    (battery_bar m) (uptime_label m) (process_table m) (selected_row m)
    (power_combo m) v (message_boxes m).

Definition set_message_boxes (v : list QMessageBox) (m : monitor) : monitor :=
  mk_monitor (x m) (network_baseline m) (cpu_label m) (cpu_bar m)
    (cpu_temp_label m) (cpu_series m) (ram_label m) (ram_bar m)
    (ram_details m) (ram_series m) (disk_label m) (disk_bar m)
    (network_sent_label m) (network_recv_label m) (battery_label m)
    (battery_bar m) (uptime_label m) (process_table m) (selected_row m)
    (power_combo m) (log_output m) v.

(** The two attributes that only the user changes, by selecting a row of
    the table or an entry of the power profile box. *)
Definition set_selected_row (v : option nat) (m : monitor) : monitor :=
  mk_monitor (x m) (network_baseline m) (cpu_label m) (cpu_bar m)
    (cpu_temp_label m) (cpu_series m) (ram_label m) (ram_bar m)
    (ram_details m) (ram_series m) (disk_label m) (disk_bar m)
    (network_sent_label m) (network_recv_label m) (battery_label m)
    (battery_bar m) (uptime_label m) (process_table m) v (power_combo m)
    (log_output m) (message_boxes m).

Definition set_power_combo (v : string) (m : monitor) : monitor :=
  mk_monitor (x m) (network_baseline m) (cpu_label m) (cpu_bar m)
    (cpu_temp_label m) (cpu_series m) (ram_label m) (ram_bar m)
    (ram_details m) (ram_series m) (disk_label m) (disk_bar m)
    (network_sent_label m) (network_recv_label m) (battery_label m)
    (battery_bar m) (uptime_label m) (process_table m) (selected_row m) v
    (log_output m) (message_boxes m).

(** A method: it starts from the object, may change it, and returns or
    raises.  What was changed before an exception stays changed. *)
Definition method (A : Type) : Type := monitor -> monitor * result A.

Definition ret {A} (a : A) : method A := fun m => (m, Return a).

Definition mbind {A B} (c : method A) (k : A -> method B) : method B :=
  fun m =>
    match c m with
    | (m', Return a) => k a m'
    | (m', Raise e) => (m', Raise e)
    end.

(** A call that does not touch the object. *)
Definition call {A} (r : result A) : method A := fun m => (m, r).

(** A statement that changes the object and cannot raise. *)
Definition assign (f : monitor -> monitor) : method unit :=
  fun m => (f m, Return tt).

(** Reading an attribute. *)
Definition self {A} (f : monitor -> A) : method A :=
  fun m => (m, Return (f m)).

Definition when (b : bool) (c : method unit) : method unit :=
  if b then c else ret tt.

Declare Scope method_scope.
Delimit Scope method_scope with method.
Notation "v <- c ;; k" := (mbind c (fun v => k))
  (at level 61, c at next level, right associativity) : method_scope.
Notation "c ;; k" := (mbind c (fun _ => k))
  (at level 61, right associativity) : method_scope.
Local Open Scope method_scope.

(** The icons in front of four of the labels, as the bytes of the source
    text. *)
Definition icon_temperature : string := "ðŸŒ¡ï¸".
Definition icon_sent : string := "â¬†ï¸".
Definition icon_received : string := "â¬‡ï¸".
Definition icon_uptime : string := "â±ï¸".
Definition degree : string := "Â°".

(** The window as [__init__] leaves it.  The texts and widgets are those
    of [setup_ui]; the base line of the network counters is read here and
    assigned nowhere else. *)
Definition __init__ (h : host) : result monitor :=
  bind (get_network_info h) (fun baseline =>
  Return {|
    x := 0;
    network_baseline := baseline;
    cpu_label := "Usage: 0%";
    cpu_bar := new_bar;
    cpu_temp_label := icon_temperature ++ " Temperature: 0" ++ degree ++ "C";
    cpu_series := new_series;
    ram_label := "Usage: 0%";
    ram_bar := new_bar;
    ram_details := "0 GB / 0 GB";
    ram_series := new_series;
    disk_label := "Loading...";
    disk_bar := new_bar;
    network_sent_label := icon_sent ++ " Sent: 0 MB";
    network_recv_label := icon_received ++ " Received: 0 MB";
    battery_label := "Status: N/A";
    battery_bar := new_bar;
    uptime_label := icon_uptime ++ " System Uptime: Calculating...";
    process_table := [];
    selected_row := None;
    power_combo := "balanced";
    log_output := [];
    message_boxes := []
  |}).

Definition on_cpu_bar (f : StyledProgressBar -> StyledProgressBar)
    : method unit :=
  assign (fun m => set_cpu_bar (f (cpu_bar m)) m).

Definition on_ram_bar (f : StyledProgressBar -> StyledProgressBar)
    : method unit :=
  assign (fun m => set_ram_bar (f (ram_bar m)) m).

Definition on_disk_bar (f : StyledProgressBar -> StyledProgressBar)
    : method unit :=
  assign (fun m => set_disk_bar (f (disk_bar m)) m).

Definition on_battery_bar (f : StyledProgressBar -> StyledProgressBar)
    : method unit :=
  assign (fun m => set_battery_bar (f (battery_bar m)) m).

Definition on_cpu_series (f : QLineSeries -> QLineSeries) : method unit :=
  assign (fun m => set_cpu_series (f (cpu_series m)) m).

Definition on_ram_series (f : QLineSeries -> QLineSeries) : method unit :=
  assign (fun m => set_ram_series (f (ram_series m)) m).

(** The value handed to the colour choice of the battery bar. *)
Definition battery_monitored (battery_info : BatteryInfo.t) : Q :=
  if negb (truthy (BatteryInfo.plugged battery_info))
  then (100 - BatteryInfo.percent battery_info)%Q
  else 0%Q.

Definition row_of (proc : pinfo) : table_row :=
  mk_row (str_int (pid proc)) (name proc)
         (format_f 1 (cpu_percent proc))
         (format_f 1 (memory_percent proc)).

(** [setRowCount(len(processes))] and then the four cells of every row:
    the table holds exactly one row per process. *)
Definition update_process_table (h : host) : method unit :=
  processes <- call (get_top_processes h 10) ;;
  assign (set_process_table (map row_of processes)).

Definition update_stats (h : host) : method unit :=
  cpu <- call (psutil_cpu_percent h) ;;
  ram_info <- call (psutil_virtual_memory h) ;;
  let temp := get_cpu_temp h in
  battery_info <- call (get_battery_info h) ;;
  disk_info <- call (get_disk_info h) ;;
  network_info <- call (get_network_info h) ;;
  (* Update CPU *)
  assign (set_cpu_label ("Usage: " ++ format_f 1 cpu ++ "%")) ;;
  assign (set_cpu_temp_label
            (icon_temperature ++ " Temperature: " ++ format_f 1 temp ++
             degree ++ "C")) ;;
  on_cpu_bar (setValue (int_of_float cpu)) ;;
  on_cpu_bar (update_color cpu) ;;
  (* Update RAM *)
  let ram_percent := vm_percent ram_info in
  let ram_used := (inject_Z (vm_used ram_info) / GiB)%Q in
  let ram_total := (inject_Z (vm_total ram_info) / GiB)%Q in
  assign (set_ram_label ("Usage: " ++ format_f 1 ram_percent ++ "%")) ;;
  assign (set_ram_details
            (format_f 1 ram_used ++ " GB / " ++ format_f 1 ram_total ++
             " GB")) ;;
  on_ram_bar (setValue (int_of_float ram_percent)) ;;
  on_ram_bar (update_color ram_percent) ;;
  (* Update Disk *)
  assign (set_disk_label
            (format_f 1 (DiskInfo.used disk_info) ++ " GB / " ++
             format_f 1 (DiskInfo.total disk_info) ++ " GB")) ;;
  on_disk_bar (setValue (int_of_float (DiskInfo.percent disk_info))) ;;
  on_disk_bar (update_color (DiskInfo.percent disk_info)) ;;
  (* Update Network *)
  baseline <- self network_baseline ;;
  let net_sent :=
    (NetworkInfo.sent network_info - NetworkInfo.sent baseline)%Q in
  let net_recv :=
    (NetworkInfo.recv network_info - NetworkInfo.recv baseline)%Q in
  assign (set_network_sent_label
            (icon_sent ++ " Sent: " ++ format_f 1 net_sent ++ " MB")) ;;
  assign (set_network_recv_label
            (icon_received ++ " Received: " ++ format_f 1 net_recv ++
             " MB")) ;;
  (* Update Battery *)
  match battery_info with
  | Some battery_info =>
      assign (set_battery_label
                (BatteryInfo.status battery_info ++ " - " ++
                 format_f 0 (BatteryInfo.percent battery_info) ++ "%")) ;;
      on_battery_bar
        (setValue (int_of_float (BatteryInfo.percent battery_info))) ;;
      on_battery_bar (update_color (battery_monitored battery_info))
  | None =>
      assign (set_battery_label "No battery detected") ;;
      on_battery_bar (setValue 0)
  end ;;
  (* Update Uptime *)
  boot_time <- call (psutil_boot_time h) ;;
  let uptime_seconds := int_of_float (now_timestamp h - boot_time)%Q in
  let uptime_hours := (uptime_seconds / 3600)%Z in
  let uptime_minutes := ((uptime_seconds mod 3600) / 60)%Z in
  assign (set_uptime_label
            (icon_uptime ++ " System Uptime: " ++ str_int uptime_hours ++
             "h " ++ str_int uptime_minutes ++ "m")) ;;
  (* Update Charts *)
  tick <- self x ;;
  on_cpu_series (append tick cpu) ;;
  on_ram_series (append tick ram_percent) ;;
  assign (fun m => set_x (x m + 1)%Z m) ;;
  n_cpu <- self (fun m => count (cpu_series m)) ;;
  when (60 <? n_cpu)%Z (on_cpu_series (remove 0)) ;;
  n_ram <- self (fun m => count (ram_series m)) ;;
  when (60 <? n_ram)%Z (on_ram_series (remove 0)) ;;
  now_x <- self x ;;
  on_cpu_series (setRange (Z.max 0 (now_x - 60)) now_x) ;;
  on_ram_series (setRange (Z.max 0 (now_x - 60)) now_x) ;;
  (* Update process table *)
  update_process_table h.

(** [datetime.now().strftime("%H:%M:%S")]. *)
Definition two_digits (n : nat) : string := zfill 2 (str_int (Z.of_nat n)).

Definition strftime_HMS (t : nat * nat * nat) : string :=
  let '(hh, mm, ss) := t in
  two_digits hh ++ ":" ++ two_digits mm ++ ":" ++ two_digits ss.

Definition log_message (h : host) (message : string) : method unit :=
  let timestamp := strftime_HMS (now_hms h) in
  let line := "[" ++ timestamp ++ "] " ++ message in
  assign (fun m => set_log_output (log_output m ++ [line])%list m).

Definition show (kind : box_kind) (title text : string) : method unit :=
  assign (fun m =>
    set_message_boxes (message_boxes m ++ [mk_box kind title text])%list m).

Definition QMessageBox_information := show Information.
Definition QMessageBox_warning := show Warning.

(** [QMessageBox.question]: the box is shown and the user answers; [yes]
    is that answer. *)
Definition QMessageBox_question (title text : string) (yes : bool)
    : method bool :=
  show Question title text ;; ret yes.

Definition newline : string := String (ascii_of_nat 10) "".

(** [self.process_table.item(row, column)]: no item outside the table. *)
Definition item (row : nat) : method table_row :=
  table <- self process_table ;;
  match nth_error table row with
  | Some r => ret r
  | None =>
      call (Raise (mk_exn AttributeError
                     "'NoneType' object has no attribute 'text'"))
  end.

Definition kill_selected_process (h : host) (yes : bool) : method unit :=
  selected_items <- self selected_row ;;
  match selected_items with
  | None =>
      QMessageBox_warning "No Selection"
        "Please select a process to terminate."
  | Some row =>
      pid_item <- item row ;;
      pid <- call (int_of_str (cell_pid pid_item)) ;;
      name_item <- item row ;;
      let process_name := cell_name name_item in
      reply <- QMessageBox_question "Confirm Termination"
                 ("Are you sure you want to terminate process:" ++
                  newline ++ newline ++ process_name ++ " (PID: " ++
                  str_int pid ++ ")?") yes ;;
      when reply
        (outcome <- call (kill_process h pid) ;;
         let '(success, message) := outcome in
         log_message h message ;;
         if success then QMessageBox_information "Success" message
         else QMessageBox_warning "Error" message)
  end.

Definition apply_power_mode (h : host) : method unit :=
  mode <- self power_combo ;;
  outcome <- call (set_power_mode h mode) ;;
  let '(success, message) := outcome in
  log_message h message ;;
  if success then QMessageBox_information "Success" message
  else QMessageBox_warning "Error" message.

Definition clear_ram_cache_action (h : host) : method unit :=
  outcome <- call (clear_ram_cache h) ;;
  let '(success, message) := outcome in
  log_message h message ;;
  if success then QMessageBox_information "Success" message
  else QMessageBox_warning "Error" message.

Definition clear_storage_cache_action (h : host) : method unit :=
  outcome <- call (clear_storage_cache h) ;;
  let '(success, message) := outcome in
  log_message h message ;;
  if success then QMessageBox_information "Success" message
  else QMessageBox_warning "Error" message.

(** The timer: one call of [update_stats] per second, each with what the
    host answers at that second.  An exception that leaves the slot ends
    the run. *)
Fixpoint run_ticks (hs : list host) : method unit :=
  match hs with
  | [] => ret tt
  | h :: hs' => update_stats h ;; run_ticks hs'
  end.

(** What the event loop delivers to the window: the timer, the four
    buttons, and the user selecting a row or a power profile.  Each comes
    with what the host answers at that moment; [yes] is the answer to the
    confirmation box. *)
Inductive event : Type :=
| Timeout (h : host)
| EndProcessClicked (h : host) (yes : bool)
| ApplyClicked (h : host)
| ClearRamClicked (h : host)
| ClearStorageClicked (h : host)
| RowSelected (row : option nat)
| PowerChosen (mode : string).

Definition dispatch (ev : event) : method unit :=
  match ev with
  | Timeout h => update_stats h
  | EndProcessClicked h yes => kill_selected_process h yes
  | ApplyClicked h => apply_power_mode h
  | ClearRamClicked h => clear_ram_cache_action h
  | ClearStorageClicked h => clear_storage_cache_action h
  | RowSelected row => assign (set_selected_row row)
  | PowerChosen mode => assign (set_power_combo mode)
  end.

Fixpoint run_events (evs : list event) : method unit :=
  match evs with
  | [] => ret tt
  | ev :: evs' => dispatch ev ;; run_events evs'
  end.

End Monitor.

Import Monitor.

(** ** Notions used to state the properties *)

Module Spec.

(** The three bands of the colour policy and the chunk colour that shows
    each. *)
Inductive band : Type := nominal | elevated | critical.

Definition band_color (b : band) : string :=
  match b with
  | nominal => "#4CAF50"
  | elevated => "#FF9800"
  | critical => "#F44336"
  end.

(** The sample that a tick on host [h] appends to the two histories, when
    the tick gets as far as the charts: every source read before them has
    to answer. *)
Definition sample (h : host) : option (Q * Q) :=
  match psutil_cpu_percent h, psutil_virtual_memory h,
        psutil_sensors_battery h, psutil_disk_usage h "/",
        psutil_net_io_counters h, psutil_boot_time h with
  | Return cpu, Return ram_info, Return _, Return _, Return _, Return _ =>
      Some (cpu, vm_percent ram_info)
  | _, _, _, _, _, _ => None
  end.

(** The sources that [update_stats] reads before it displays anything,
    in the order of the calls; the temperature is read among them, but
    [get_cpu_temp] cannot raise. *)
Definition readings (h : host)
    : result (Q * svmem * option sbattery * sdiskusage * snetio) :=
  bind (psutil_cpu_percent h) (fun cpu =>
  bind (psutil_virtual_memory h) (fun ram_info =>
  bind (psutil_sensors_battery h) (fun battery =>
  bind (psutil_disk_usage h "/") (fun usage =>
  bind (psutil_net_io_counters h) (fun net =>
  Return (cpu, ram_info, battery, usage, net)))))).

(** Each of the five answers. *)
Definition sources_answer (h : host) : bool :=
  is_return (psutil_cpu_percent h) &&
  is_return (psutil_virtual_memory h) &&
  is_return (psutil_sensors_battery h) &&
  is_return (psutil_disk_usage h "/") &&
  is_return (psutil_net_io_counters h).

(** The thermal zone file can be opened and read, and its text is a
    number. *)
Definition temperature_readable (h : host) : bool :=
  match read_file h thermal_zone with
  | Return text => is_return (int_of_str (strip text))
  | Raise _ => false
  end.

(** The CPU, memory, disk and network cards of [m'] show the figures read
    in a tick that started from [m]. *)
Definition cards_populated (m m' : monitor) (cpu : Q) (ram_info : svmem)
    (usage : sdiskusage) (net : snetio) : Prop :=
  cpu_label m' = "Usage: " ++ format_f 1 cpu ++ "%" /\
  cpu_bar m' = update_color cpu (setValue (int_of_float cpu) (cpu_bar m)) /\
  ram_label m' = "Usage: " ++ format_f 1 (vm_percent ram_info) ++ "%" /\
  ram_details m' =
    format_f 1 (inject_Z (vm_used ram_info) / GiB) ++ " GB / " ++
    format_f 1 (inject_Z (vm_total ram_info) / GiB) ++ " GB" /\
  ram_bar m' =
    update_color (vm_percent ram_info)
      (setValue (int_of_float (vm_percent ram_info)) (ram_bar m)) /\
  disk_label m' =
    format_f 1 (inject_Z (du_used usage) / GiB) ++ " GB / " ++
    format_f 1 (inject_Z (du_total usage) / GiB) ++ " GB" /\
  disk_bar m' =
    update_color (du_percent usage)
      (setValue (int_of_float (du_percent usage)) (disk_bar m)) /\
  network_sent_label m' =
    icon_sent ++ " Sent: " ++
    format_f 1 (inject_Z (bytes_sent net) / MiB -
                NetworkInfo.sent (network_baseline m)) ++ " MB" /\
  network_recv_label m' =
    icon_received ++ " Received: " ++
    format_f 1 (inject_Z (bytes_recv net) / MiB -
                NetworkInfo.recv (network_baseline m)) ++ " MB".

(** The battery card of [m'] shows [info], or that there is no battery. *)
Definition battery_card_populated (m m' : monitor)
    (info : option BatteryInfo.t) : Prop :=
  match info with
  | Some battery_info =>
      battery_label m' =
        BatteryInfo.status battery_info ++ " - " ++
        format_f 0 (BatteryInfo.percent battery_info) ++ "%" /\
      battery_bar m' =
        update_color (battery_monitored battery_info)
          (setValue (int_of_float (BatteryInfo.percent battery_info))
             (battery_bar m))
  | None =>
      battery_label m' = "No battery detected" /\
      battery_bar m' = setValue 0 (battery_bar m)
  end.

(** The command lines of the three actions that start a command. *)
Definition ram_cache_command : list string :=
  ["sudo"; "sh"; "-c"; "sync; echo 3 > /proc/sys/vm/drop_caches"].

Definition storage_cache_command : list string :=
  ["sudo"; "rm"; "-rf"; "/tmp/*"].

Definition power_mode_command (mode : string) : list string :=
  ["sudo"; "powerprofilesctl"; "set"; mode].

(** The command fails: it cannot be started, or it exits with a status
    other than 0. *)
Definition command_fails (h : host) (args : list string) (shell : bool)
    : bool :=
  match run_command h args shell with
  | Exited rc => negb (rc =? 0)%Z
  | NotStarted _ => true
  end.

(** The tick runs to its end. *)
Definition completes (h : host) : bool :=
  match sample h with
  | Some _ => is_return (psutil_process_iter h)
  | None => false
  end.

Definition cpu_samples (hs : list host) : list Q :=
  flat_map (fun h => match sample h with
                     | Some (cpu, _) => [cpu]
                     | None => []
                     end) hs.

Definition ram_samples (hs : list host) : list Q :=
  flat_map (fun h => match sample h with
                     | Some (_, ram) => [ram]
                     | None => []
                     end) hs.

(** Samples paired with their tick indices, counted from [start]. *)
Fixpoint enumerate_from {A} (start : Z) (l : list A) : list (Z * A) :=
  match l with
  | [] => []
  | a :: l' => (start, a) :: enumerate_from (start + 1) l'
  end.

(** The last [k] entries of a list. *)
Definition lastn {A} (k : nat) (l : list A) : list A :=
  skipn (List.length l - k) l.

(** What one tick does to the points of a history. *)
Definition push_sample (tick : Z) (v : Q) (pts : list (Z * Q))
    : list (Z * Q) :=
  let pts' := (pts ++ [(tick, v)])%list in
  if (60 <? Z.of_nat (List.length pts'))%Z then remove_at 0 pts' else pts'.

(** The state of the charts once the samples [cpus] and [rams] have been
    recorded, one of each per tick. *)
Definition charts_hold (m : monitor) (cpus rams : list Q) : Prop :=
  x m = Z.of_nat (List.length cpus) /\
  List.length rams = List.length cpus /\
  points (cpu_series m) = lastn 60 (enumerate_from 0 cpus) /\
  points (ram_series m) = lastn 60 (enumerate_from 0 rams).

(** The text of the uptime label for a whole number of seconds. *)
Definition uptime_text (seconds : Z) : string :=
  icon_uptime ++ " System Uptime: " ++ str_int (seconds / 3600) ++ "h " ++
  str_int (seconds mod 3600 / 60) ++ "m".

(** The tick that started from [m] recorded the sample [(cpu, ram)]: one
    point more in each history at the tick index of [m], the oldest point
    gone when that makes 61, the counter advanced and both x axes set to
    the last 60 ticks. *)
Definition sample_recorded (m m' : monitor) (cpu ram : Q) : Prop :=
  x m' = x m + 1 /\
  points (cpu_series m') = push_sample (x m) cpu (points (cpu_series m)) /\
  points (ram_series m') = push_sample (x m) ram (points (ram_series m)) /\
  axis_x (cpu_series m') = (Z.max 0 (x m + 1 - 60), x m + 1) /\
  axis_x (ram_series m') = (Z.max 0 (x m + 1 - 60), x m + 1).

(** The tick that started from [m] left the uptime, the histories and the
    process table as they were. *)
Definition tick_stopped_early (m m' : monitor) : Prop :=
  uptime_label m' = uptime_label m /\
  x m' = x m /\
  cpu_series m' = cpu_series m /\
  ram_series m' = ram_series m /\
  process_table m' = process_table m.

(** The network figures of a tick: the current counter, in MiB, less the
    base line. *)
Definition delta_sent (baseline : NetworkInfo.t) (net : snetio) : Q :=
  (inject_Z (bytes_sent net) / MiB - NetworkInfo.sent baseline)%Q.

Definition delta_recv (baseline : NetworkInfo.t) (net : snetio) : Q :=
  (inject_Z (bytes_recv net) / MiB - NetworkInfo.recv baseline)%Q.

(** The base line that [get_network_info] makes of the counters [net]. *)
Definition baseline_of (net : snetio) : NetworkInfo.t :=
  NetworkInfo.mk (inject_Z (bytes_sent net) / MiB)
                 (inject_Z (bytes_recv net) / MiB).

(** The texts of the two network labels for given figures. *)
Definition sent_text (d : Q) : string :=
  icon_sent ++ " Sent: " ++ format_f 1 d ++ " MB".

Definition recv_text (d : Q) : string :=
  icon_received ++ " Received: " ++ format_f 1 d ++ " MB".

(** The figure that [format_f 1] prints, in tenths, and how it is
    printed. *)
Definition tenths (q : Q) : Z :=
  round_half_even (Qabs q * inject_Z (10 ^ Z.of_nat 1)).

Definition show_tenths (t : Z) : string :=
  str_int (t / 10) ++ "." ++ zfill 1 (str_int (t mod 10)).

(** The method [c] leaves the attribute [f] of the window as it was, however
    it ends. *)
Definition preserves {A B : Type} (f : monitor -> B) (c : method A) : Prop :=
  forall m : monitor, f (fst (c m)) = f m.

(** The event is a tick of the timer. *)
Definition is_timeout (ev : event) : bool :=
  match ev with
  | Timeout _ => true
  | _ => false
  end.

End Spec.

Import Spec.

(** ** Hosts to run the model on *)

Module Sample.

Definition LF : string := String (ascii_of_nat 10) "".

(** A laptop: every source answers. *)
Definition laptop : host := {|
  read_file := fun _ => Return ("45000" ++ LF);
  psutil_cpu_percent := Return (125 # 10);
  psutil_virtual_memory :=
    Return (mk_svmem 17179869184 4294967296 (25 # 1));
  psutil_sensors_battery :=
    Return (Some (mk_sbattery (30 # 1) 5400 (Some false)));
  psutil_disk_usage := fun _ =>
    Return (mk_sdiskusage 107374182400 53687091200 53687091200 (50 # 1));
  psutil_net_io_counters := Return (mk_snetio 3145728 5242880);
  psutil_process_iter :=
    Return [mk_pinfo 1 "systemd" (0 # 1) (1 # 10);
            mk_pinfo 4242 "python3" (73 # 10) (21 # 10);
            mk_pinfo 977 "Xorg" (31 # 10) (15 # 10)];
  psutil_boot_time := Return (1000 # 1);
  now_timestamp := 8830 # 1;
  now_hms := (9, 5, 7)%nat;
  os_kill := fun _ _ => Return tt;
  run_command := fun _ _ => Exited 0;
  expanduser := fun _ => "/home/user/.cache";
  path_exists := fun _ => true;
  path_isdir := fun _ => false;
  os_listdir := fun _ => Return ["thumbnails"; "pip"];
  shutil_rmtree := fun _ => Return tt;
  os_remove := fun _ => Return tt
|}.

(** The laptop with some of its answers replaced. *)
Definition with_sources (cpu : result Q) (temp : result string)
    (battery : result (option sbattery)) (disk : result sdiskusage)
    (net : result snetio) (procs : result (list pinfo)) : host := {|
  read_file := fun _ => temp;
  psutil_cpu_percent := cpu;
  psutil_virtual_memory := psutil_virtual_memory laptop;
  psutil_sensors_battery := battery;
  psutil_disk_usage := fun _ => disk;
  psutil_net_io_counters := net;
  psutil_process_iter := procs;
  psutil_boot_time := psutil_boot_time laptop;
  now_timestamp := now_timestamp laptop;
  now_hms := now_hms laptop;
  os_kill := os_kill laptop;
  run_command := run_command laptop;
  expanduser := expanduser laptop;
  path_exists := path_exists laptop;
  path_isdir := path_isdir laptop;
  os_listdir := os_listdir laptop;
  shutil_rmtree := shutil_rmtree laptop;
  os_remove := os_remove laptop
|}.

Definition with_actions (kill : Z -> Z -> result unit)
    (run : list string -> bool -> run_outcome) : host := {|
  read_file := read_file laptop;
  psutil_cpu_percent := psutil_cpu_percent laptop;
  psutil_virtual_memory := psutil_virtual_memory laptop;
  psutil_sensors_battery := psutil_sensors_battery laptop;
  psutil_disk_usage := psutil_disk_usage laptop;
  psutil_net_io_counters := psutil_net_io_counters laptop;
  psutil_process_iter := psutil_process_iter laptop;
  psutil_boot_time := psutil_boot_time laptop;
  now_timestamp := now_timestamp laptop;
  now_hms := now_hms laptop;
  os_kill := kill;
  run_command := run;
  expanduser := expanduser laptop;
  path_exists := path_exists laptop;
  path_isdir := path_isdir laptop;
  os_listdir := os_listdir laptop;
  shutil_rmtree := shutil_rmtree laptop;
  os_remove := os_remove laptop
|}.

(** What [get_battery_info] makes of the battery of the laptop. *)
Definition discharging_30 : BatteryInfo.t :=
  BatteryInfo.mk "Discharging" (30 # 1) "1h 30m" (Some false).

Definition io_error : exn := mk_exn OSError "[Errno 5] Input/output error".

(** The laptop at a moment when the disk cannot be queried. *)
Definition disk_fails : host :=
  with_sources (psutil_cpu_percent laptop) (Return ("45000" ++ LF))
    (psutil_sensors_battery laptop) (Raise io_error)
    (psutil_net_io_counters laptop) (psutil_process_iter laptop).

(** The laptop with a command that exits with status 1. *)
Definition command_exits_1 : host :=
  with_actions (os_kill laptop) (fun _ _ => Exited 1).

Definition no_such_file : exn :=
  mk_exn FileNotFoundError
    "[Errno 2] No such file or directory: '/sys/class/thermal/thermal_zone0/temp'".

(** A desktop: no thermal zone file and no battery. *)
Definition desktop : host :=
  with_sources (psutil_cpu_percent laptop) (Raise no_such_file) (Return None)
    (psutil_disk_usage laptop "/") (psutil_net_io_counters laptop)
    (psutil_process_iter laptop).

(** The laptop when the process to end has already gone, and when it
    belongs to somebody else. *)
Definition no_such_process : exn :=
  mk_exn ProcessLookupError "[Errno 3] No such process".

Definition not_permitted : exn :=
  mk_exn PermissionError "[Errno 1] Operation not permitted".

Definition process_gone : host :=
  with_actions (fun _ _ => Raise no_such_process) (run_command laptop).

Definition process_of_root : host :=
  with_actions (fun _ _ => Raise not_permitted) (run_command laptop).

(** The laptop when the thermal zone file reads 45150. *)
Definition warm : host :=
  with_sources (psutil_cpu_percent laptop) (Return ("45150" ++ LF))
    (psutil_sensors_battery laptop) (psutil_disk_usage laptop "/")
    (psutil_net_io_counters laptop) (psutil_process_iter laptop).

(** The laptop when the process list cannot be read, and when the boot
    time cannot. *)
Definition access_denied : exn :=
  mk_exn PermissionError "[Errno 13] Permission denied".

Definition processes_fail : host :=
  with_sources (psutil_cpu_percent laptop) (read_file laptop thermal_zone)
    (psutil_sensors_battery laptop) (psutil_disk_usage laptop "/")
    (psutil_net_io_counters laptop) (Raise access_denied).

(** The laptop after its network counters were reset. *)
Definition laptop_reset : host :=
  with_sources (psutil_cpu_percent laptop) (read_file laptop thermal_zone)
    (psutil_sensors_battery laptop) (psutil_disk_usage laptop "/")
    (Return (mk_snetio 1048576 1048576)) (psutil_process_iter laptop).

(** The laptop a second later, with more traffic counted. *)
Definition laptop_later : host :=
  with_sources (psutil_cpu_percent laptop) (read_file laptop thermal_zone)
    (psutil_sensors_battery laptop) (psutil_disk_usage laptop "/")
    (Return (mk_snetio 4194304 7340032)) (psutil_process_iter laptop).

End Sample.

(** ** Text helpers and [StyledButton] *)

Module Text.

(** Every character of [s] passes [p]. *)
Fixpoint all_chars (p : ascii -> bool) (s : string) : bool :=
  match s with
  | EmptyString => true
  | String c s' => p c && all_chars p s'
  end.

(** [s.lstrip(c)] for a set of one character. *)
Fixpoint lstrip_char (c : ascii) (s : string) : string :=
  match s with
  | String a s' => if Ascii.eqb a c then lstrip_char c s' else s
  | EmptyString => EmptyString
  end.

(** A digit of base 16, in either case. *)
Definition hex_digit_of (c : ascii) : option Z :=
  let n := nat_of_ascii c in
  if ((48 <=? n) && (n <=? 57))%nat then Some (Z.of_nat n - 48)
  else if ((97 <=? n) && (n <=? 102))%nat then Some (Z.of_nat n - 87)
  else if ((65 <=? n) && (n <=? 70))%nat then Some (Z.of_nat n - 55)
  else None.

Fixpoint hex_digits (acc : Z) (after_digit : bool) (s : string) : option Z :=
  match s with
  | EmptyString => if after_digit then Some acc else None
  | String c s' =>
      match hex_digit_of c with
      | Some d => hex_digits (16 * acc + d) true s'
      | None =>
          if is_underscore c && after_digit then hex_digits acc false s'
          else None
      end
  end.

(** The prefix [0x] or [0X] that base 16 admits, with the one underscore
    that may follow it. *)
Definition skip_prefix_16 (t : string) : string :=
  match t with
  | String "0" (String p rest) =>
      if (Ascii.eqb p "x" || Ascii.eqb p "X")%bool then
        match rest with
        | String "_" rest' => rest'
        | _ => rest
        end
      else t
  | _ => t
  end.

(** [int(s, 16)]. *)
Definition int_of_str_16 (s : string) : result Z :=
  let t := strip s in
  let parsed :=
    match t with
    | String "-" t' => option_map Z.opp (hex_digits 0 false (skip_prefix_16 t'))
    | String "+" t' => hex_digits 0 false (skip_prefix_16 t')
    | _ => hex_digits 0 false (skip_prefix_16 t)
    end in
  match parsed with
  | Some n => Return n
  | None =>
      Raise (mk_exn ValueError
               ("invalid literal for int() with base 16: '" ++ s ++ "'"))
  end.

(** The digits of [n >= 0] in base 16, lower case. *)
Definition hex_str (n : Z) : string :=
  HexadecimalString.NilZero.string_of_uint (N.to_hex_uint (Z.to_N n)).

(** [f"{n:02x}"]: at least two characters, the sign counted, zeros put
    after the sign. *)
Definition format_02x (n : Z) : string :=
  if (n <? 0)%Z then "-" ++ zfill 1 (hex_str (- n)) else zfill 2 (hex_str n).

End Text.

Import Text.

Module Buttons.

(** [int(c * factor)]: the product is rounded to binary64, then
    truncated. *)
Definition scale (c : Z) (factor : Q) : result Z :=
  bind (Float.mul_int c factor) Float.to_int.

Definition darken_color (hex_color : string) (factor : Q) : result string :=
  let hex_color := lstrip_char "#" hex_color in
  bind (int_of_str_16 (substring 0 2 hex_color)) (fun r =>
  bind (int_of_str_16 (substring 2 2 hex_color)) (fun g =>
  bind (int_of_str_16 (substring 4 2 hex_color)) (fun b =>
  bind (scale r factor) (fun r =>
  bind (scale g factor) (fun g =>
  bind (scale b factor) (fun b =>
  Return ("#" ++ format_02x r ++ format_02x g ++ format_02x b))))))).

(** The default of the parameter [factor], and the factor of the pressed
    state, as they are written; the floats are their [Float.literal]. *)
Definition default_factor : Q := 85 # 100.
Definition pressed_factor : Q := 8 # 10.

(** The three colours that [update_style] puts into the style sheet: the
    button at rest, under the pointer and pressed. *)
Record button_colors : Type := mk_colors {
  at_rest : string;
  hover : string;
  pressed : string
}.

Definition update_style (color : string) : result button_colors :=
  bind (darken_color color (Float.literal default_factor))
    (fun hover_color =>
  bind (darken_color color (Float.literal pressed_factor))
    (fun pressed_color =>
  Return (mk_colors color hover_color pressed_color))).

(** The colours of the buttons the window creates: Apply has the default,
    End Process and the two cache buttons name theirs. *)
Definition default_color : string := "#1976D2".

(** The same arithmetic in binary64, to compare with the exact one.
    [float_of_int] is the conversion of an [int] operand of [*], exact for
    0 <= n < 2^53; a literal [n/d] denotes the binary64 nearest to it, which
    is what the correctly rounded division of [n] by [d] gives; [int(f)]
    truncates and raises on an infinity or a NaN. *)
Definition float_of_int (n : Z) : PrimFloat.float :=
  PrimFloat.of_uint63 (Uint63.of_Z n).

Definition float_literal (q : Q) : PrimFloat.float :=
  PrimFloat.div (float_of_int (Qnum q)) (float_of_int (Zpos (Qden q))).

Definition int_of_binary64 (f : PrimFloat.float) : option Z :=
  match FloatOps.Prim2SF f with
  | SpecFloat.S754_zero _ => Some 0
  | SpecFloat.S754_finite s m e =>
      let v := if (0 <=? e)%Z then Zpos m * 2 ^ e
               else Z.quot (Zpos m) (2 ^ (- e)) in
      Some (if s then - v else v)
  | SpecFloat.S754_infinity _ | SpecFloat.S754_nan => None
  end.

(** [int(c * factor)] for a channel and a factor written as a literal. *)
Definition binary64_scaled (c : Z) (factor : Q) : option Z :=
  int_of_binary64 (PrimFloat.mul (float_of_int c) (float_literal factor)).

End Buttons.

Import Buttons.

(** ** Further notions used to state properties *)

Module More.

(** The order of the process table: no less CPU than what follows. *)
Definition by_cpu (a b : pinfo) : Prop := (cpu_percent b <= cpu_percent a)%Q.

(** The processes a tick shows for what [process_iter] yields. *)
Definition top_ten (procs : list pinfo) : list pinfo :=
  firstn 10 (sorted_desc procs).

(** The event is a click on one of the four action buttons. *)
Definition is_action (ev : event) : bool :=
  match ev with
  | EndProcessClicked _ _ | ApplyClicked _ | ClearRamClicked _
  | ClearStorageClicked _ => true
  | _ => false
  end.

(** The line that [log_message] writes at the time of host [h]. *)
Definition log_line (h : host) (message : string) : string :=
  "[" ++ strftime_HMS (now_hms h) ++ "] " ++ message.

(** The box that reports the outcome of an action. *)
Definition outcome_box (ok : bool) (message : string) : QMessageBox :=
  if ok then mk_box Information "Success" message
  else mk_box Warning "Error" message.

(** The window after an action that reported [(ok, message)]. *)
Definition reported (h : host) (ok : bool) (message : string) (m : monitor)
    : monitor :=
  set_message_boxes (message_boxes m ++ [outcome_box ok message])%list
    (set_log_output (log_output m ++ [log_line h message])%list m).

(** Only white space, and no white space at all. *)
Definition blank (s : string) : bool := all_chars isspace s.

Definition solid (c : ascii) : bool := negb (isspace c).

(** A colour channel, and a colour written with two lower-case digits per
    channel. *)
Definition channel (c : Z) : Prop := 0 <= c <= 255.

Definition hex_color (r g b : Z) : string :=
  "#" ++ format_02x r ++ format_02x g ++ format_02x b.

(** The exact product of a channel and a factor, rounded down. *)
Definition scaled (c : Z) (factor : Q) : Z :=
  int_of_float (inject_Z c * factor)%Q.

(** [c'] is a darker shade of the channel [c] for [factor]: the exact
    product rounded down, or the next integer when the product is less
    than [2^-46] below it, and never more than [c]. *)
Definition darkened (c : Z) (factor : Q) (c' : Z) : Prop :=
  scaled c factor <= c' <= scaled c factor + 1 /\
  0 <= c' <= c /\
  (inject_Z c' <= inject_Z c * factor + 2 ^ (-46))%Q.

(** For the factor written [factor], what [darken_color] makes of the
    channel [c] is the exact product rounded down. *)
Definition shade_agrees (factor : Q) (c : Z) : bool :=
  match scale c (Float.literal factor) with
  | Return k => (k =? scaled c factor)%Z
  | Raise _ => false
  end.

(** The rational that a primitive float denotes; [None] for an infinity
    and for a NaN. *)
Definition Q_of_binary64 (f : PrimFloat.float) : option Q :=
  match FloatOps.Prim2SF f with
  | SpecFloat.S754_zero _ => Some 0%Q
  | SpecFloat.S754_finite s m e =>
      let v := (inject_Z (Zpos m) * 2 ^ e)%Q in
      Some (if s then - v else v)%Q
  | SpecFloat.S754_infinity _ | SpecFloat.S754_nan => None
  end.

Definition same_float (a b : option Q) : bool :=
  match a, b with
  | Some x, Some y => Qeq_bool x y
  | None, None => true
  | _, _ => false
  end.

(** The processor and [Float] agree on [n / 1000] and on
    [c * factor]. *)
Definition division_agrees (n : Z) : bool :=
  same_float
    (Q_of_binary64 (PrimFloat.div (float_of_int n) (float_of_int 1000)))
    (Float.round (n # 1000)).

Definition product_agrees (factor : Q) (c : Z) : bool :=
  same_float
    (Q_of_binary64 (PrimFloat.mul (float_of_int c) (float_literal factor)))
    (Float.round (inject_Z c * Float.literal factor)).

(** The result is the number [n]. *)
Definition returns (r : result Z) (n : Z) : bool :=
  match r with
  | Return k => (k =? n)%Z
  | Raise _ => false
  end.

(** ASCII upper case. *)
Definition upper_char (c : ascii) : ascii :=
  let n := nat_of_ascii c in
  if ((97 <=? n) && (n <=? 122))%nat then ascii_of_nat (n - 32) else c.

Fixpoint upper (s : string) : string :=
  match s with
  | EmptyString => EmptyString
  | String c s' => String (upper_char c) (upper s')
  end.

(** What [f"{c:02x}"] writes for [c] is two characters, none of them the
    number sign, and [int(_, 16)] reads them back as [c], in lower case and
    in upper case. *)
Definition channel_text_ok (c : Z) : bool :=
  match format_02x c with
  | String a (String b EmptyString) =>
      negb (Ascii.eqb a "#") && negb (Ascii.eqb (upper_char a) "#") &&
      returns (int_of_str_16 (String a (String b ""))) c &&
      returns (int_of_str_16 (upper (String a (String b "")))) c
  | _ => false
  end.

(** In binary64 the channel [c] scaled by the literal [factor] is what the
    exact arithmetic gives. *)
Definition binary64_agrees (factor : Q) (c : Z) : bool :=
  match binary64_scaled c factor with
  | Some k => (k =? scaled c factor)%Z
  | None => false
  end.

(** The x axis of a chart for tick counter [x]: as constructed before the
    first sample, the last 60 ticks afterwards. *)
Definition axis_for (x : Z) : Z * Z :=
  if (x =? 0)%Z then (0, 60) else (Z.max 0 (x - 60), x).

(** The charts are consistent: the two histories carry the same tick
    indices, the axes are those of the tick counter, and every point lies
    on the axis. *)
Definition window_ok (m : monitor) : Prop :=
  0 <= x m /\
  map fst (points (cpu_series m)) = map fst (points (ram_series m)) /\
  axis_x (cpu_series m) = axis_for (x m) /\
  axis_x (ram_series m) = axis_for (x m) /\
  (forall i : Z, In i (map fst (points (cpu_series m))) ->
     fst (axis_for (x m)) <= i < snd (axis_for (x m))).

End More.

Import More.

(** * Properties *)

(** ** One tick, source by source *)

Lemma get_battery_info_returns (h : host) (battery : option sbattery) :
  psutil_sensors_battery h = Return battery ->
  exists info, get_battery_info h = Return info /\
               (battery = None <-> info = None).
Proof.
  intros Hb. unfold get_battery_info. rewrite Hb. cbn [bind].
  destruct battery as [b|]; eexists; split; try reflexivity;
    split; intros E; try discriminate E; reflexivity.
Qed.

(** Unfold one tick and split on what each source answered. *)
Ltac tick_cases_tail h :=
  destruct (psutil_disk_usage h "/") as [?usage|?];
  [ destruct (psutil_net_io_counters h) as [?net|?];
    [ destruct (psutil_boot_time h) as [?boot|?];
      [ destruct (psutil_process_iter h) as [?procs|?] | ]
    | ]
  | ].

Ltac tick_cases h :=
  unfold update_stats, update_process_table, get_top_processes,
    get_network_info, get_disk_info, get_battery_info, completes, sample;
  destruct (psutil_cpu_percent h) as [?cpu|?];
  [ destruct (psutil_virtual_memory h) as [?ram_info|?];
    [ destruct (psutil_sensors_battery h) as [[?battery|]|?];
      [ tick_cases_tail h | tick_cases_tail h | ]
    | ]
  | ].

(** Run the statements of a tick that cannot raise, splitting on the tests
    of the two evictions. *)
Ltac tick_run :=
  cbn -[format_f str_int Z.ltb Z.of_nat Qdiv Qminus firstn sorted_desc
        fold_left get_cpu_temp];
  repeat match goal with
         | |- context [when ?b _] =>
             destruct b eqn:?;
             cbn -[format_f str_int Z.ltb Z.of_nat Qdiv Qminus firstn
                   sorted_desc fold_left get_cpu_temp]
         end.

Lemma update_stats_charts (h : host) (m : monitor) :
  let m' := fst (update_stats h m) in
  match sample h with
  | Some (cpu, ram) =>
      x m' = x m + 1 /\
      points (cpu_series m') = push_sample (x m) cpu (points (cpu_series m)) /\
      points (ram_series m') = push_sample (x m) ram (points (ram_series m)) /\
      axis_x (cpu_series m') = (Z.max 0 (x m + 1 - 60), x m + 1) /\
      axis_x (ram_series m') = (Z.max 0 (x m + 1 - 60), x m + 1)
  | None =>
      x m' = x m /\ cpu_series m' = cpu_series m /\
      ram_series m' = ram_series m
  end.
Proof.
  tick_cases h; try (cbn; tauto);
    tick_run; unfold push_sample, count, append in *;
    cbn [points] in *;
    repeat match goal with H : (_ <? _)%Z = _ |- _ => rewrite H end;
    repeat split; reflexivity.
Qed.

Lemma update_stats_outcome (h : host) (m : monitor) :
  snd (update_stats h m) = Return tt <-> completes h = true.
Proof.
  tick_cases h; try (cbn; split; intros E; discriminate E);
    tick_run; split; intros E;
    try reflexivity; try discriminate E.
Qed.

(** What a tick leaves alone. *)
Lemma update_stats_frame (h : host) (m : monitor) :
  let m' := fst (update_stats h m) in
  network_baseline m' = network_baseline m /\
  log_output m' = log_output m /\
  message_boxes m' = message_boxes m /\
  selected_row m' = selected_row m /\
  power_combo m' = power_combo m.
Proof.
  tick_cases h; try (cbn; tauto);
    tick_run; repeat split; reflexivity.
Qed.

(** A source read at the head of [update_stats] raises: the method is left
    at once, with the object as it was. *)
Lemma update_stats_aborts (h : host) (m : monitor) (e : exn) :
  readings h = Raise e -> update_stats h m = (m, Raise e).
Proof.
  unfold readings. tick_cases h; cbn; intros E;
    try discriminate E; injection E as <-; reflexivity.
Qed.

(** The five sources answer: the cards show their figures, whatever the
    boot time and the process list do afterwards. *)
Lemma update_stats_cards (h : host) (m : monitor) (cpu : Q)
    (ram_info : svmem) (battery : option sbattery) (usage : sdiskusage)
    (net : snetio) :
  readings h = Return (cpu, ram_info, battery, usage, net) ->
  cards_populated m (fst (update_stats h m)) cpu ram_info usage net /\
  cpu_temp_label (fst (update_stats h m)) =
    icon_temperature ++ " Temperature: " ++ format_f 1 (get_cpu_temp h) ++
    degree ++ "C".
Proof.
  unfold readings, cards_populated. tick_cases h; cbn [bind]; intros E;
    try discriminate E; injection E as <- <- <- <- <-;
    tick_run; repeat split; reflexivity.
Qed.

Lemma update_stats_battery_card (h : host) (m : monitor) (cpu : Q)
    (ram_info : svmem) (battery : option sbattery) (usage : sdiskusage)
    (net : snetio) (info : option BatteryInfo.t) :
  readings h = Return (cpu, ram_info, battery, usage, net) ->
  get_battery_info h = Return info ->
  battery_card_populated m (fst (update_stats h m)) info.
Proof.
  unfold readings, battery_card_populated. intros E B; revert B E.
  tick_cases h; cbn [bind]; intros B E;
    try discriminate E; injection E as <- <- <- <- <-;
    injection B as <-; tick_run; split; reflexivity.
Qed.

(** ** What the methods leave alone *)

Section Frame.

Context {B : Type} (f : monitor -> B).

Lemma preserves_ret {A : Type} (a : A) : preserves f (ret a).
Proof. intros m; reflexivity. Qed.

Lemma preserves_call {A : Type} (r : result A) : preserves f (call r).
Proof. intros m; reflexivity. Qed.

Lemma preserves_self {A : Type} (g : monitor -> A) : preserves f (self g).
Proof. intros m; reflexivity. Qed.

Lemma preserves_assign (g : monitor -> monitor) :
  (forall m, f (g m) = f m) -> preserves f (assign g).
Proof. intros Hg m; apply Hg. Qed.

Lemma preserves_mbind {A C : Type} (c : method A) (k : A -> method C) :
  preserves f c -> (forall a, preserves f (k a)) -> preserves f (mbind c k).
Proof.
  intros Hc Hk m. unfold mbind. specialize (Hc m).
  destruct (c m) as [m' [a|e]]; cbn [fst] in *; [| exact Hc].
  now rewrite Hk.
Qed.

Lemma preserves_when (b : bool) (c : method unit) :
  preserves f c -> preserves f (when b c).
Proof. intros Hc. destruct b; [exact Hc | apply preserves_ret]. Qed.

End Frame.

Create HintDb frame.

#[local] Hint Resolve preserves_ret preserves_call preserves_self
  preserves_when : frame.
#[local] Hint Extern 2 (preserves _ (mbind _ _)) =>
  apply preserves_mbind; [| intros ?] : frame.
#[local] Hint Extern 2 (preserves _ (assign _)) =>
  apply preserves_assign; intros ?; reflexivity : frame.
#[local] Hint Extern 3 (preserves _ (match ?t with _ => _ end)) =>
  destruct t : frame.

(** The event handlers other than the timer leave the base line, the tick
    counter and the two histories alone; the timer leaves the base line
    alone. *)
Ltac handler_frame ev :=
  destruct ev as [h|h yes|h|h|h|row|mode]; cbn [dispatch is_timeout];
  [ intros Hev; discriminate Hev
  | unfold kill_selected_process, item, QMessageBox_question
  | unfold apply_power_mode
  | unfold clear_ram_cache_action
  | unfold clear_storage_cache_action
  | | ];
  intros _;
  unfold QMessageBox_warning, QMessageBox_information, log_message, show;
  auto 20 with frame.

Lemma dispatch_keeps_baseline (ev : event) :
  preserves network_baseline (dispatch ev).
Proof.
  destruct (is_timeout ev) eqn:Hev.
  - destruct ev; try discriminate Hev. intros m. apply update_stats_frame.
  - revert Hev. handler_frame ev.
Qed.

Lemma dispatch_keeps_x (ev : event) :
  is_timeout ev = false -> preserves x (dispatch ev).
Proof. handler_frame ev. Qed.

Lemma dispatch_keeps_cpu_series (ev : event) :
  is_timeout ev = false -> preserves cpu_series (dispatch ev).
Proof. handler_frame ev. Qed.

Lemma dispatch_keeps_ram_series (ev : event) :
  is_timeout ev = false -> preserves ram_series (dispatch ev).
Proof. handler_frame ev. Qed.

Lemma run_events_keeps_baseline (evs : list event) :
  preserves network_baseline (run_events evs).
Proof.
  induction evs as [|ev evs IH]; cbn [run_events].
  - apply preserves_ret.
  - apply preserves_mbind; [apply dispatch_keeps_baseline | intros _; exact IH].
Qed.

(** ** The rolling histories *)

Section Histories.

Context {A : Type}.

Lemma enumerate_from_length (l : list A) (start : Z) :
  List.length (enumerate_from start l) = List.length l.
Proof.
  revert start; induction l as [|a l IH]; intros start; cbn;
    [reflexivity | now rewrite IH].
Qed.

Lemma enumerate_from_snoc (l : list A) (start : Z) (a : A) :
  enumerate_from start (l ++ [a]) =
  (enumerate_from start l ++ [(start + Z.of_nat (List.length l), a)])%list.
Proof.
  revert start; induction l as [|b l IH]; intros start;
    cbn [enumerate_from app List.length].
  - now rewrite Z.add_0_r.
  - rewrite IH.
    replace (start + 1 + Z.of_nat (List.length l))
      with (start + Z.of_nat (S (List.length l))) by lia.
    reflexivity.
Qed.

Lemma enumerate_from_indices (l : list A) (start : Z) :
  map fst (enumerate_from start l) =
  map (fun i => start + Z.of_nat i) (seq 0 (List.length l)).
Proof.
  revert start; induction l as [|a l IH]; intros start;
    cbn [enumerate_from map List.length seq fst].
  - reflexivity.
  - rewrite IH, <- seq_shift, map_map. rewrite Z.add_0_r. f_equal.
    apply map_ext; intros i. lia.
Qed.

Lemma lastn_length (k : nat) (l : list A) :
  List.length (lastn k l) = Nat.min (List.length l) k.
Proof. unfold lastn. rewrite length_skipn. lia. Qed.

Lemma remove_at_head (l : list A) : remove_at 0 l = skipn 1 l.
Proof. destruct l; reflexivity. Qed.

End Histories.

Lemma push_sample_lastn (samples : list Q) (v : Q) :
  push_sample (Z.of_nat (List.length samples)) v
    (lastn 60 (enumerate_from 0 samples)) =
  lastn 60 (enumerate_from 0 (samples ++ [v])).
Proof.
  unfold push_sample, lastn.
  rewrite enumerate_from_snoc, Z.add_0_l.
  rewrite !length_app, length_skipn, !enumerate_from_length.
  cbn [List.length].
  set (n := List.length samples).
  set (E := enumerate_from 0 samples).
  assert (HE : List.length E = n) by apply enumerate_from_length.
  destruct (60 <? Z.of_nat (n - (n - 60) + 1))%Z eqn:Hfull.
  - apply Z.ltb_lt in Hfull.
    rewrite remove_at_head, !skipn_app, skipn_skipn, length_skipn, HE.
    replace (1 + (n - 60))%nat with (n + 1 - 60)%nat by lia.
    replace (1 - (n - (n - 60)))%nat with 0%nat by lia.
    replace (n + 1 - 60 - n)%nat with 0%nat by lia.
    reflexivity.
  - apply Z.ltb_ge in Hfull.
    replace (n - 60)%nat with 0%nat by lia.
    replace (n + 1 - 60)%nat with 0%nat by lia.
    reflexivity.
Qed.

Lemma charts_hold_init (h : host) (m : monitor) :
  __init__ h = Return m -> charts_hold m [] [].
Proof.
  unfold __init__. destruct (get_network_info h); cbn; intros E;
    [injection E as <- | discriminate E].
  repeat split.
Qed.

Lemma charts_hold_step (h : host) (m : monitor) (cpus rams : list Q) :
  charts_hold m cpus rams ->
  charts_hold (fst (update_stats h m))
    (cpus ++ cpu_samples [h]) (rams ++ ram_samples [h]).
Proof.
  intros (Hx & Hlen & Hcpu & Hram).
  pose proof (update_stats_charts h m) as Hstep. cbv zeta in Hstep.
  unfold charts_hold, cpu_samples, ram_samples. cbn [flat_map].
  destruct (sample h) as [[cpu ram]|].
  - destruct Hstep as (Hx' & Hcpu' & Hram' & _).
    cbn [app]. repeat split.
    + rewrite Hx', Hx, length_app. cbn [List.length]. lia.
    + rewrite !length_app. cbn [List.length]. lia.
    + rewrite Hcpu', Hcpu, Hx. apply push_sample_lastn.
    + rewrite Hram', Hram, Hx, <- Hlen. apply push_sample_lastn.
  - destruct Hstep as (Hx' & Hcpu' & Hram').
    rewrite Hx', Hcpu', Hram'. cbn [app]. rewrite !app_nil_r.
    repeat split; assumption.
Qed.

Lemma run_ticks_cons (h : host) (hs : list host) (m : monitor) :
  run_ticks (h :: hs) m =
  match snd (update_stats h m) with
  | Return _ => run_ticks hs (fst (update_stats h m))
  | Raise e => (fst (update_stats h m), Raise e)
  end.
Proof.
  cbn [run_ticks]. unfold mbind at 1.
  destruct (update_stats h m) as [m' [u|e]]; reflexivity.
Qed.

(** When every tick runs to its end, the samples are those of the hosts. *)
Lemma run_ticks_charts_complete (hs : list host) :
  forall (m : monitor) (cpus rams : list Q),
    forallb completes hs = true ->
    charts_hold m cpus rams ->
    snd (run_ticks hs m) = Return tt /\
    charts_hold (fst (run_ticks hs m))
      (cpus ++ cpu_samples hs) (rams ++ ram_samples hs).
Proof.
  induction hs as [|h hs IH]; intros m cpus rams Hall Hm.
  - cbn. rewrite !app_nil_r. split; [reflexivity | exact Hm].
  - cbn [forallb] in Hall. apply andb_prop in Hall as [Hh Hall].
    rewrite run_ticks_cons.
    pose proof (charts_hold_step h m cpus rams Hm) as Hstep.
    rewrite (proj2 (update_stats_outcome h m) Hh).
    destruct (IH _ _ _ Hall Hstep) as [Hret Hinv].
    split; [exact Hret |].
    unfold cpu_samples, ram_samples in *. cbn [flat_map] in *.
    rewrite !app_nil_r in Hinv. rewrite !app_assoc. exact Hinv.
Qed.

Lemma samples_length (hs : list host) :
  forallb completes hs = true ->
  List.length (cpu_samples hs) = List.length hs /\
  List.length (ram_samples hs) = List.length hs.
Proof.
  induction hs as [|h hs IH]; intros Hall; [split; reflexivity |].
  cbn [forallb] in Hall. apply andb_prop in Hall as [Hh Hall].
  destruct (IH Hall) as [IHc IHr].
  unfold cpu_samples, ram_samples, completes in *. cbn [flat_map].
  destruct (sample h) as [[cpu ram]|]; [| discriminate Hh].
  cbn [app List.length]. split; congruence.
Qed.

Lemma skipn_enumerate_from {A : Type} (k : nat) :
  forall (l : list A) (start : Z),
    skipn k (enumerate_from start l) =
    enumerate_from (start + Z.of_nat k) (skipn k l).
Proof.
  induction k as [|k IH]; intros l start.
  - cbn [skipn]. now rewrite Z.add_0_r.
  - destruct l as [|a l]; cbn [skipn enumerate_from]; [reflexivity |].
    rewrite IH. f_equal. lia.
Qed.

Lemma lastn_enumerate_from {A : Type} (k : nat) (l : list A) :
  lastn k (enumerate_from 0 l) =
  enumerate_from (Z.of_nat (List.length l - k)) (lastn k l).
Proof.
  unfold lastn. now rewrite enumerate_from_length, skipn_enumerate_from.
Qed.

Lemma oldest_of_lastn {A : Type} (l : list A) :
  (60 <= List.length l)%nat ->
  option_map fst (hd_error (lastn 60 (enumerate_from 0 l))) =
  Some (Z.of_nat (List.length l) - 1 - 59).
Proof.
  intros Hlen. rewrite lastn_enumerate_from.
  assert (Hl : List.length (lastn 60 l) = 60%nat)
    by (rewrite lastn_length; lia).
  destruct (lastn 60 l) as [|a rest]; [discriminate Hl |].
  cbn. f_equal. lia.
Qed.

Lemma run_events_cons (ev : event) (evs : list event) (m : monitor) :
  run_events (ev :: evs) m =
  match snd (dispatch ev m) with
  | Return _ => run_events evs (fst (dispatch ev m))
  | Raise e => (fst (dispatch ev m), Raise e)
  end.
Proof.
  cbn [run_events]. unfold mbind at 1.
  destruct (dispatch ev m) as [m' [u|e]]; reflexivity.
Qed.

Lemma charts_hold_dispatch (ev : event) (m : monitor) (cpus rams : list Q) :
  charts_hold m cpus rams ->
  exists cpus' rams', charts_hold (fst (dispatch ev m)) cpus' rams'.
Proof.
  intros Hm. destruct (is_timeout ev) eqn:Hev.
  - destruct ev as [h| | | | | |]; try discriminate Hev.
    eexists; eexists. exact (charts_hold_step h m cpus rams Hm).
  - exists cpus, rams. unfold charts_hold.
    rewrite (dispatch_keeps_x ev Hev m), (dispatch_keeps_cpu_series ev Hev m),
      (dispatch_keeps_ram_series ev Hev m).
    exact Hm.
Qed.

(** Whatever happens to the window, the charts hold some recorded
    samples. *)
Lemma run_events_charts_any (evs : list event) :
  forall (m : monitor) (cpus rams : list Q),
    charts_hold m cpus rams ->
    exists cpus' rams', charts_hold (fst (run_events evs m)) cpus' rams'.
Proof.
  induction evs as [|ev evs IH]; intros m cpus rams Hm.
  - exists cpus, rams. exact Hm.
  - rewrite run_events_cons.
    destruct (charts_hold_dispatch ev m cpus rams Hm)
      as (cpus' & rams' & Hstep).
    destruct (snd (dispatch ev m)).
    + eapply IH; exact Hstep.
    + eexists; eexists; exact Hstep.
Qed.

(** C1.  After T+1 ticks, each of which recorded a sample, the CPU history
    and the RAM history have length min(T+1, 60).  And whatever the hosts
    answer and whatever the user does, after any sequence of events the
    length of each history is the smaller of the number of samples recorded
    and 60, so it never exceeds 60. *)
Theorem history_length_is_min (h0 : host) (m0 : monitor) :
  __init__ h0 = Return m0 ->
  (forall (hs : list host) (T : nat),
      forallb completes hs = true ->
      List.length hs = (T + 1)%nat ->
      let m := fst (run_ticks hs m0) in
      snd (run_ticks hs m0) = Return tt /\
      x m = Z.of_nat (T + 1) /\
      List.length (points (cpu_series m)) = Nat.min (T + 1) 60 /\
      List.length (points (ram_series m)) = Nat.min (T + 1) 60) /\
  (forall evs : list event,
      let m := fst (run_events evs m0) in
      List.length (points (cpu_series m)) = Nat.min (Z.to_nat (x m)) 60 /\
      List.length (points (ram_series m)) = Nat.min (Z.to_nat (x m)) 60 /\
      (List.length (points (cpu_series m)) <= 60)%nat /\
      (List.length (points (ram_series m)) <= 60)%nat).
Proof.
  intros Hinit. apply charts_hold_init in Hinit. split.
  - intros hs T Hall Hlen m.
    destruct (run_ticks_charts_complete hs m0 [] [] Hall Hinit)
      as (Hret & Hx & Hrams & Hcpu & Hram).
    destruct (samples_length hs Hall) as [Hc Hr].
    cbn [app] in *. subst m.
    rewrite Hx, Hcpu, Hram, !lastn_length, !enumerate_from_length, Hc, Hr, Hlen.
    repeat split; assumption.
  - intros evs m.
    destruct (run_events_charts_any evs m0 [] [] Hinit)
      as (cpus & rams & Hx & Hrams & Hcpu & Hram).
    subst m.
    rewrite Hx, Hcpu, Hram, !lastn_length, !enumerate_from_length, Hrams,
      Nat2Z.id.
    repeat split; lia.
Qed.

Lemma history_length_is_min_witness :
  exists m0,
    __init__ Sample.laptop = Return m0 /\
    forallb completes (repeat Sample.laptop 61) = true /\
    List.length
      (points (cpu_series (fst (run_ticks (repeat Sample.laptop 61) m0)))) =
    Nat.min (60 + 1) 60.
Proof.
  eexists. split; [reflexivity |].
  assert (Hall : forallb completes (repeat Sample.laptop 61) = true)
    by (vm_compute; reflexivity).
  split; [exact Hall |].
  pose proof (proj1 (history_length_is_min Sample.laptop _ eq_refl)
                (repeat Sample.laptop 61) 60%nat Hall eq_refl) as H.
  cbv zeta in H. exact (proj1 (proj2 (proj2 H))).
Defined.

(** C2.  Eviction removes the head: when every tick recorded its sample,
    each history holds the last 60 samples in order, each with the index of
    its tick; once more than 60 were recorded the oldest one kept has index
    current_tick - 59; after 61 ticks (indices 0..60) the histories hold the
    samples of ticks 1..60 and the sample of tick 0 is gone. *)
Theorem eviction_removes_oldest (h0 : host) (m0 : monitor) (hs : list host) :
  __init__ h0 = Return m0 ->
  forallb completes hs = true ->
  let m := fst (run_ticks hs m0) in
  let current_tick := Z.of_nat (List.length hs) - 1 in
  points (cpu_series m) = lastn 60 (enumerate_from 0 (cpu_samples hs)) /\
  points (ram_series m) = lastn 60 (enumerate_from 0 (ram_samples hs)) /\
  ((60 < List.length hs)%nat ->
   option_map fst (hd_error (points (cpu_series m))) =
     Some (current_tick - 59) /\
   option_map fst (hd_error (points (ram_series m))) =
     Some (current_tick - 59)) /\
  (List.length hs = 61%nat ->
   points (cpu_series m) = enumerate_from 1 (tl (cpu_samples hs)) /\
   points (ram_series m) = enumerate_from 1 (tl (ram_samples hs)) /\
   map fst (points (cpu_series m)) = map Z.of_nat (seq 1 60) /\
   map fst (points (ram_series m)) = map Z.of_nat (seq 1 60)).
Proof.
  intros Hinit Hall m current_tick.
  apply charts_hold_init in Hinit.
  destruct (run_ticks_charts_complete hs m0 [] [] Hall Hinit)
    as (_ & _ & _ & Hcpu & Hram).
  destruct (samples_length hs Hall) as [Hc Hr].
  cbn [app] in *. subst m current_tick. rewrite Hcpu, Hram.
  split; [reflexivity |]. split; [reflexivity |]. split.
  - intros Hmore. rewrite <- Hc at 1. rewrite <- Hr.
    split; apply oldest_of_lastn; lia.
  - intros H61.
    assert (Hcpu61 : lastn 60 (enumerate_from 0 (cpu_samples hs)) =
                     enumerate_from 1 (tl (cpu_samples hs))).
    { rewrite lastn_enumerate_from. unfold lastn. rewrite Hc, H61.
      destruct (cpu_samples hs); reflexivity. }
    assert (Hram61 : lastn 60 (enumerate_from 0 (ram_samples hs)) =
                     enumerate_from 1 (tl (ram_samples hs))).
    { rewrite lastn_enumerate_from. unfold lastn. rewrite Hr, H61.
      destruct (ram_samples hs); reflexivity. }
    rewrite Hcpu61, Hram61, !enumerate_from_indices.
    assert (Hct : List.length (tl (cpu_samples hs)) = 60%nat)
      by (destruct (cpu_samples hs); cbn in *; lia).
    assert (Hrt : List.length (tl (ram_samples hs)) = 60%nat)
      by (destruct (ram_samples hs); cbn in *; lia).
    rewrite Hct, Hrt. repeat split; reflexivity.
Qed.

Lemma eviction_removes_oldest_witness :
  exists m0,
    __init__ Sample.laptop = Return m0 /\
    forallb completes (repeat Sample.laptop 75) = true /\
    (60 < List.length (repeat Sample.laptop 75))%nat /\
    option_map fst
      (hd_error
         (points (cpu_series (fst (run_ticks (repeat Sample.laptop 75) m0))))) =
    Some (Z.of_nat (List.length (repeat Sample.laptop 75)) - 1 - 59).
Proof.
  eexists. split; [reflexivity |].
  assert (Hall : forallb completes (repeat Sample.laptop 75) = true)
    by (vm_compute; reflexivity).
  assert (Hmore : (60 < List.length (repeat Sample.laptop 75))%nat)
    by (rewrite repeat_length; lia).
  split; [exact Hall |]. split; [exact Hmore |].
  pose proof (eviction_removes_oldest Sample.laptop _
                (repeat Sample.laptop 75) eq_refl Hall) as H.
  cbv zeta in H. exact (proj1 (proj1 (proj2 (proj2 H)) Hmore)).
Defined.

(** ** The colour bands *)

Lemma Qltb_lt (a b : Q) : Qltb a b = true <-> (a < b)%Q.
Proof.
  unfold Qltb. rewrite negb_true_iff, <- not_true_iff_false, Qle_bool_iff.
  split; [apply Qnot_le_lt | apply Qlt_not_le].
Qed.

Lemma Qltb_ge (a b : Q) : Qltb a b = false <-> (b <= a)%Q.
Proof.
  unfold Qltb. rewrite negb_false_iff. apply Qle_bool_iff.
Qed.

Lemma select_color_nominal (v : Q) :
  (v < 60)%Q -> select_color v = band_color nominal.
Proof.
  intros Hlt. unfold select_color.
  now rewrite (proj2 (Qltb_lt v 60) Hlt).
Qed.

Lemma select_color_elevated (v : Q) :
  (60 <= v)%Q -> (v < 85)%Q -> select_color v = band_color elevated.
Proof.
  intros Hge Hlt. unfold select_color.
  now rewrite (proj2 (Qltb_ge v 60) Hge), (proj2 (Qltb_lt v 85) Hlt).
Qed.

Lemma select_color_critical (v : Q) :
  (85 <= v)%Q -> select_color v = band_color critical.
Proof.
  intros Hge. unfold select_color.
  assert (H60 : (60 <= v)%Q)
    by (apply Qle_trans with (y := 85%Q); [discriminate | exact Hge]).
  now rewrite (proj2 (Qltb_ge v 60) H60), (proj2 (Qltb_ge v 85) Hge).
Qed.

(** The doubles that the literals 59.9 and 84.9 denote lie a little below
    and a little above them; they fall in the same bands. *)
Lemma select_color_of_doubles :
  select_color (8430175552484147 # 140737488355328) = band_color nominal /\
  select_color (2987153190341837 # 35184372088832) = band_color elevated.
Proof. split; vm_compute; reflexivity. Qed.

(** C3.  The band is a function of the value alone: below 60 the chunk is
    green (nominal), from 60 and below 85 orange (elevated), from 85 red
    (critical); so 59.9 is nominal, 60.0 and 84.9 elevated, 85.0 critical.
    [update_color] forgets the colour the bar had, and a tick applies the
    same choice to the CPU, RAM, disk and battery bars. *)
Theorem color_band_of_value :
  (forall v : Q, (v < 60)%Q -> select_color v = band_color nominal) /\
  (forall v : Q,
      (60 <= v)%Q -> (v < 85)%Q -> select_color v = band_color elevated) /\
  (forall v : Q, (85 <= v)%Q -> select_color v = band_color critical) /\
  select_color (599 # 10) = band_color nominal /\
  select_color (60 # 1) = band_color elevated /\
  select_color (849 # 10) = band_color elevated /\
  select_color (85 # 1) = band_color critical /\
  (forall (v : Q) (b : StyledProgressBar),
      chunk_color (update_color v b) = select_color v) /\
  (forall (h : host) (m : monitor) (cpu : Q) (ram_info : svmem)
          (battery : option sbattery) (usage : sdiskusage) (net : snetio),
      readings h = Return (cpu, ram_info, battery, usage, net) ->
      let m' := fst (update_stats h m) in
      chunk_color (cpu_bar m') = select_color cpu /\
      chunk_color (ram_bar m') = select_color (vm_percent ram_info) /\
      chunk_color (disk_bar m') = select_color (du_percent usage) /\
      (forall info : BatteryInfo.t,
          get_battery_info h = Return (Some info) ->
          chunk_color (battery_bar m') =
          select_color (battery_monitored info))).
Proof.
  split; [exact select_color_nominal |].
  split; [exact select_color_elevated |].
  split; [exact select_color_critical |].
  do 4 (split; [reflexivity |]).
  split; [reflexivity |].
  intros h m cpu ram_info battery usage net Hread m'.
  destruct (update_stats_cards h m _ _ _ _ _ Hread)
    as ((_ & Hcpu & _ & _ & Hram & _ & Hdisk & _) & _).
  subst m'. rewrite Hcpu, Hram, Hdisk.
  repeat split.
  intros info Hinfo.
  destruct (update_stats_battery_card h m _ _ _ _ _ _ Hread Hinfo)
    as [_ Hbar].
  now rewrite Hbar.
Qed.

Lemma color_band_of_value_witness :
  ((599 # 10) < 60)%Q /\
  select_color (599 # 10) = band_color nominal /\
  (60 <= 70)%Q /\ (70 < 85)%Q /\
  select_color 70 = band_color elevated /\
  (85 <= 999 # 10)%Q /\
  select_color (999 # 10) = band_color critical.
Proof.
  assert (H1 : ((599 # 10) < 60)%Q) by reflexivity.
  assert (H2 : (60 <= 70)%Q) by discriminate.
  assert (H3 : (70 < 85)%Q) by reflexivity.
  assert (H4 : (85 <= 999 # 10)%Q) by discriminate.
  split; [exact H1 |].
  split; [exact (proj1 color_band_of_value _ H1) |].
  split; [exact H2 |]. split; [exact H3 |].
  split; [exact (proj1 (proj2 color_band_of_value) _ H2 H3) |].
  split; [exact H4 |].
  exact (proj1 (proj2 (proj2 color_band_of_value)) _ H4).
Defined.

(** ** The battery bar *)

Lemma battery_status_of_info (h : host) (info : BatteryInfo.t) :
  get_battery_info h = Return (Some info) ->
  BatteryInfo.status info =
  (if truthy (BatteryInfo.plugged info) then "Charging" else "Discharging").
Proof.
  unfold get_battery_info.
  destruct (psutil_sensors_battery h) as [[b|]|e]; cbn [bind]; intros E;
    try discriminate E.
  injection E as <-. reflexivity.
Qed.

(** C7, as the specification states it, fails: the value for percent 30 on
    battery is 70, and 70 is shown in the elevated band, not in the critical
    one. *)
Lemma battery_30_discharging_is_not_critical :
  battery_monitored Sample.discharging_30 = (70 # 1) /\
  select_color (battery_monitored Sample.discharging_30) <>
    band_color critical /\
  exists m0,
    __init__ Sample.laptop = Return m0 /\
    get_battery_info Sample.laptop = Return (Some Sample.discharging_30) /\
    chunk_color (battery_bar (fst (update_stats Sample.laptop m0))) <>
    band_color critical.
Proof.
  split; [reflexivity |]. split; [discriminate |].
  eexists. split; [reflexivity |]. split; [reflexivity |].
  vm_compute. discriminate.
Qed.

(** C7, amended.  The value handed to the colour choice of the battery bar
    is 100 - percent when the battery is discharging and 0 when it is
    plugged in.  For percent 30 on battery it is 70, in the elevated band;
    for percent 30 plugged in it is 0, in the nominal band. *)
Theorem battery_monitored_value :
  (forall (h : host) (m : monitor) (cpu : Q) (ram_info : svmem)
          (battery : option sbattery) (usage : sdiskusage) (net : snetio)
          (info : BatteryInfo.t),
      readings h = Return (cpu, ram_info, battery, usage, net) ->
      get_battery_info h = Return (Some info) ->
      chunk_color (battery_bar (fst (update_stats h m))) =
        select_color (battery_monitored info) /\
      (BatteryInfo.status info = "Discharging" ->
       battery_monitored info = (100 - BatteryInfo.percent info)%Q) /\
      (BatteryInfo.status info = "Charging" ->
       battery_monitored info = 0%Q)) /\
  (forall (status time : string) (percent : Q),
      battery_monitored (BatteryInfo.mk status percent time (Some false)) =
        (100 - percent)%Q /\
      battery_monitored (BatteryInfo.mk status percent time (Some true)) =
        0%Q) /\
  (forall status time : string,
      let on_battery := BatteryInfo.mk status (30 # 1) time (Some false) in
      let plugged_in := BatteryInfo.mk status (30 # 1) time (Some true) in
      battery_monitored on_battery = (70 # 1) /\
      select_color (battery_monitored on_battery) = band_color elevated /\
      battery_monitored plugged_in = 0%Q /\
      select_color (battery_monitored plugged_in) = band_color nominal).
Proof.
  split; [| split].
  - intros h m cpu ram_info battery usage net info Hread Hinfo.
    destruct (update_stats_battery_card h m _ _ _ _ _ _ Hread Hinfo)
      as [_ Hbar].
    pose proof (battery_status_of_info h info Hinfo) as Hstatus.
    split; [now rewrite Hbar |].
    unfold battery_monitored.
    destruct (truthy (BatteryInfo.plugged info)); rewrite Hstatus;
      split; intros E; try discriminate E; reflexivity.
  - intros status time percent. split; reflexivity.
  - intros status time. cbv zeta. repeat split.
Qed.

Lemma battery_monitored_value_witness :
  exists m0 info,
    __init__ Sample.laptop = Return m0 /\
    get_battery_info Sample.laptop = Return (Some info) /\
    BatteryInfo.status info = "Discharging" /\
    battery_monitored info = (100 - BatteryInfo.percent info)%Q /\
    chunk_color (battery_bar (fst (update_stats Sample.laptop m0))) =
      select_color (battery_monitored info).
Proof.
  eexists. eexists. split; [reflexivity |].
  assert (Hread : readings Sample.laptop =
                  Return (125 # 10,
                          mk_svmem 17179869184 4294967296 (25 # 1),
                          Some (mk_sbattery (30 # 1) 5400 (Some false)),
                          mk_sdiskusage 107374182400 53687091200
                            53687091200 (50 # 1),
                          mk_snetio 3145728 5242880)) by reflexivity.
  match goal with
  | |- context [update_stats _ ?m] =>
      pose proof (proj1 battery_monitored_value Sample.laptop m
                    _ _ _ _ _ _ Hread eq_refl) as H
  end.
  split; [reflexivity |]. split; [reflexivity |].
  split; [exact (proj1 (proj2 H) eq_refl) | exact (proj1 H)].
Defined.

(** ** The temperature *)

Lemma get_cpu_temp_unreadable (h : host) :
  temperature_readable h = false -> get_cpu_temp h = 0%Q.
Proof.
  unfold temperature_readable, get_cpu_temp.
  destruct (read_file h thermal_zone) as [text|e]; cbn [bind try_except];
    [| reflexivity].
  destruct (int_of_str (strip text)) as [n|e]; cbn [bind try_except is_return];
    [intros E; discriminate E | reflexivity].
Qed.

Lemma get_cpu_temp_readable (h : host) (text : string) (n : Z) :
  read_file h thermal_zone = Return text ->
  int_of_str (strip text) = Return n ->
  get_cpu_temp h = try_except (Float.truediv n 1000) 0%Q.
Proof.
  intros Hread Hint. unfold get_cpu_temp.
  rewrite Hread. cbn [bind]. rewrite Hint. reflexivity.
Qed.

(** ** Ending a process *)

Lemma isinstance_Exception (e : exn) : isinstance e Exception = true.
Proof. destruct e as [[] s]; reflexivity. Qed.

Lemma isinstance_disjoint (e : exn) :
  isinstance e PermissionError = true ->
  isinstance e ProcessLookupError = false.
Proof.
  destruct e as [[] s]; cbn; intros E; (reflexivity || discriminate E).
Qed.

Lemma kill_process_not_found (h : host) (pid : Z) (e : exn) :
  os_kill h pid SIGTERM = Raise e ->
  isinstance e ProcessLookupError = true ->
  kill_process h pid =
  Return (false, "Process " ++ str_int pid ++ " not found").
Proof.
  intros Hkill Hcls. unfold kill_process. rewrite Hkill.
  cbn [bind try_excepts handle]. now rewrite Hcls.
Qed.

Lemma kill_process_raised (h : host) (pid : Z) (e : exn) :
  os_kill h pid SIGTERM = Raise e ->
  kill_process h pid =
  Return (false,
          if isinstance e ProcessLookupError
          then "Process " ++ str_int pid ++ " not found"
          else if isinstance e PermissionError
          then "Permission denied to kill process " ++ str_int pid
          else "Failed to kill process: " ++ str e).
Proof.
  intros Hkill. unfold kill_process. rewrite Hkill.
  cbn [bind try_excepts handle].
  destruct (isinstance e ProcessLookupError); [reflexivity |].
  destruct (isinstance e PermissionError); [reflexivity |].
  now rewrite isinstance_Exception.
Qed.

(** How a method runs, step by step. *)
Lemma mbind_run {A B : Type} (c : method A) (k : A -> method B)
    (m m' : monitor) (a : A) :
  c m = (m', Return a) -> mbind c k m = k a m'.
Proof. intros Hc. unfold mbind. now rewrite Hc. Qed.

Lemma item_found (m : monitor) (row : nat) (r : table_row) :
  nth_error (process_table m) row = Some r -> item row m = (m, Return r).
Proof.
  intros Hrow. unfold item.
  rewrite (mbind_run _ _ m m (process_table m) eq_refl). now rewrite Hrow.
Qed.

(** C9.  For a pid that names no process, that is, for which [os.kill]
    raises [ProcessLookupError], [kill_process] returns
    (False, "Process <pid> not found") instead of raising; and when the
    user ends the selected process of that pid and confirms, the handler
    appends the message, with its time stamp, to the action log and shows
    it in a warning box. *)
Theorem kill_missing_process_is_reported (h : host) (pid : Z) (e : exn) :
  os_kill h pid SIGTERM = Raise e ->
  isinstance e ProcessLookupError = true ->
  kill_process h pid =
    Return (false, "Process " ++ str_int pid ++ " not found") /\
  forall (m : monitor) (row : nat) (r : table_row),
    selected_row m = Some row ->
    nth_error (process_table m) row = Some r ->
    int_of_str (cell_pid r) = Return pid ->
    snd (kill_selected_process h true m) = Return tt /\
    log_output (fst (kill_selected_process h true m)) =
      List.app (log_output m)
        ["[" ++ strftime_HMS (now_hms h) ++ "] " ++
         "Process " ++ str_int pid ++ " not found"] /\
    last (message_boxes (fst (kill_selected_process h true m)))
         (mk_box Information "" "") =
      mk_box Warning "Error" ("Process " ++ str_int pid ++ " not found").
Proof.
  intros Hkill Hcls.
  pose proof (kill_process_not_found h pid e Hkill Hcls) as Hres.
  split; [exact Hres |].
  intros m row r Hsel Hrow Hpid.
  pose proof (item_found m row r Hrow) as Hitem.
  unfold kill_selected_process.
  rewrite (mbind_run _ _ m m (Some row)) by (unfold self; now rewrite Hsel).
  rewrite (mbind_run _ _ m m r Hitem).
  rewrite (mbind_run _ _ m m pid) by (unfold call; now rewrite Hpid).
  rewrite (mbind_run _ _ m m r Hitem).
  rewrite (mbind_run _ _ m _ true eq_refl).
  cbn [when].
  rewrite (mbind_run _ _ _ _ _ (f_equal (pair _) Hres)).
  rewrite (mbind_run _ _ _ _ tt eq_refl).
  cbn [QMessageBox_warning show assign fst snd log_output message_boxes
       set_message_boxes set_log_output].
  repeat split. now rewrite last_last.
Qed.

Lemma kill_missing_process_is_reported_witness :
  os_kill Sample.process_gone 4242 SIGTERM = Raise Sample.no_such_process /\
  isinstance Sample.no_such_process ProcessLookupError = true /\
  kill_process Sample.process_gone 4242 =
    Return (false, "Process " ++ str_int 4242 ++ " not found").
Proof.
  split; [reflexivity |]. split; [reflexivity |].
  exact (proj1 (kill_missing_process_is_reported Sample.process_gone 4242
                  Sample.no_such_process eq_refl eq_refl)).
Defined.

(** C10.  [kill_process] returns a pair for every pid and every answer of
    [os.kill]: no exception leaves it.  When the signal is delivered the
    pair is (True, "Process <pid> terminated successfully"); when the
    caller may not signal the process it is
    (False, "Permission denied to kill process <pid>"); every other failure
    gives False with a message as well. *)
Theorem kill_process_is_total (h : host) (pid : Z) :
  (exists (ok : bool) (message : string),
      kill_process h pid = Return (ok, message)) /\
  (os_kill h pid SIGTERM = Return tt ->
   kill_process h pid =
     Return (true, "Process " ++ str_int pid ++ " terminated successfully")) /\
  (forall e : exn,
      os_kill h pid SIGTERM = Raise e ->
      isinstance e PermissionError = true ->
      kill_process h pid =
        Return (false, "Permission denied to kill process " ++ str_int pid)) /\
  (forall e : exn,
      os_kill h pid SIGTERM = Raise e ->
      exists message : string,
        kill_process h pid = Return (false, message) /\ message <> "").
Proof.
  split; [| split; [| split]].
  - destruct (os_kill h pid SIGTERM) as [[]|e] eqn:Hkill.
    + eexists; eexists. unfold kill_process. rewrite Hkill. reflexivity.
    + eexists; eexists. exact (kill_process_raised h pid e Hkill).
  - intros Hkill. unfold kill_process. now rewrite Hkill.
  - intros e Hkill Hperm. rewrite (kill_process_raised h pid e Hkill).
    now rewrite (isinstance_disjoint e Hperm), Hperm.
  - intros e Hkill. eexists.
    split; [exact (kill_process_raised h pid e Hkill) |].
    destruct (isinstance e ProcessLookupError); [discriminate |].
    destruct (isinstance e PermissionError); discriminate.
Qed.

Lemma kill_process_is_total_witness :
  os_kill Sample.process_of_root 1 SIGTERM = Raise Sample.not_permitted /\
  isinstance Sample.not_permitted PermissionError = true /\
  kill_process Sample.process_of_root 1 =
    Return (false, "Permission denied to kill process " ++ str_int 1).
Proof.
  split; [reflexivity |]. split; [reflexivity |].
  exact (proj1 (proj2 (proj2 (kill_process_is_total Sample.process_of_root 1)))
           Sample.not_permitted eq_refl eq_refl).
Defined.

(** ** The privileged actions *)

Lemma subprocess_run_checked_fails (h : host) (args : list string)
    (shell : bool) :
  command_fails h args shell = true ->
  exists e, subprocess_run h args shell true = Raise e.
Proof.
  unfold command_fails, subprocess_run.
  destruct (run_command h args shell) as [rc|e]; intros Hfail.
  - rewrite Hfail. cbn [andb]. eexists; reflexivity.
  - eexists; reflexivity.
Qed.

Lemma subprocess_run_checked_ok (h : host) (args : list string)
    (shell : bool) :
  command_fails h args shell = false ->
  subprocess_run h args shell true = Return 0%Z.
Proof.
  unfold command_fails, subprocess_run.
  destruct (run_command h args shell) as [rc|e]; intros Hok;
    [| discriminate Hok].
  rewrite Hok. cbn [andb]. f_equal.
  apply negb_false_iff in Hok. now apply Z.eqb_eq.
Qed.

Lemma clear_ram_cache_cases (h : host) :
  clear_ram_cache h =
  match subprocess_run h ram_cache_command false true with
  | Return _ => Return (true, "RAM cache cleared successfully!")
  | Raise e => Return (false, "Failed to clear RAM cache: " ++ str e)
  end.
Proof.
  unfold clear_ram_cache. fold ram_cache_command.
  destruct (subprocess_run h ram_cache_command false true) as [rc|e];
    cbn [bind try_excepts handle]; [reflexivity |].
  now rewrite isinstance_Exception.
Qed.

Lemma set_power_mode_cases (h : host) (mode : string) :
  set_power_mode h mode =
  match subprocess_run h (power_mode_command mode) false true with
  | Return _ => Return (true, "Power mode set to " ++ mode)
  | Raise e => Return (false, "Failed to set power mode: " ++ str e)
  end.
Proof.
  unfold set_power_mode. fold (power_mode_command mode).
  destruct (subprocess_run h (power_mode_command mode) false true) as [rc|e];
    cbn [bind try_excepts handle]; [reflexivity |].
  now rewrite isinstance_Exception.
Qed.

(** The loop over the cache directory returns, whatever the removals do. *)
Lemma clear_storage_cache_cases (h : host) :
  clear_storage_cache h =
  match run_command h storage_cache_command true with
  | NotStarted e =>
      Return (false, "Failed to clear storage cache: " ++ str e)
  | Exited _ =>
      if path_exists h (expanduser h "~/.cache") then
        match os_listdir h (expanduser h "~/.cache") with
        | Return _ => Return (true, "Storage caches cleared successfully!")
        | Raise e =>
            Return (false, "Failed to clear storage cache: " ++ str e)
        end
      else Return (true, "Storage caches cleared successfully!")
  end.
Proof.
  unfold clear_storage_cache, subprocess_run. fold storage_cache_command.
  destruct (run_command h storage_cache_command true) as [rc|e];
    cbn [andb bind try_excepts handle].
  - destruct (path_exists h (expanduser h "~/.cache")); [| reflexivity].
    destruct (os_listdir h (expanduser h "~/.cache")) as [items|e];
      cbn [bind try_excepts handle]; [reflexivity |].
    now rewrite isinstance_Exception.
  - now rewrite isinstance_Exception.
Qed.

(** C5, as the specification states it, fails: the command of
    [clear_storage_cache] exits with status 1 and the action reports
    success. *)
Lemma storage_cache_failure_is_reported_as_success :
  run_command Sample.command_exits_1 storage_cache_command true = Exited 1 /\
  command_fails Sample.command_exits_1 storage_cache_command true = true /\
  clear_storage_cache Sample.command_exits_1 =
    Return (true, "Storage caches cleared successfully!") /\
  ~ (exists message : string,
        clear_storage_cache Sample.command_exits_1 =
        Return (false, message)).
Proof.
  split; [reflexivity |]. split; [reflexivity |].
  split; [reflexivity |].
  intros [message E]. vm_compute in E. discriminate E.
Qed.

(** C5, amended.  Each privileged action returns an (ok, message) pair for
    every input and never raises.  [clear_ram_cache], [set_power_mode] and
    [kill_process] report every failure of what they call as ok = False
    with a message.  [clear_storage_cache] ignores the exit status of its
    command and what the single removals raise, and then reports
    ok = True; it reports ok = False, with a message, only when the command
    cannot be started or the cache directory cannot be listed. *)
Theorem privileged_actions_report (h : host) :
  (exists (ok : bool) (message : string),
      clear_ram_cache h = Return (ok, message)) /\
  (exists (ok : bool) (message : string),
      clear_storage_cache h = Return (ok, message)) /\
  (forall mode : string, exists (ok : bool) (message : string),
      set_power_mode h mode = Return (ok, message)) /\
  (forall pid : Z, exists (ok : bool) (message : string),
      kill_process h pid = Return (ok, message)) /\
  (command_fails h ram_cache_command false = true ->
   exists e : exn,
     clear_ram_cache h =
     Return (false, "Failed to clear RAM cache: " ++ str e)) /\
  (forall mode : string,
      command_fails h (power_mode_command mode) false = true ->
      exists e : exn,
        set_power_mode h mode =
        Return (false, "Failed to set power mode: " ++ str e)) /\
  (forall (pid : Z) (e : exn),
      os_kill h pid SIGTERM = Raise e ->
      exists message : string,
        kill_process h pid = Return (false, message) /\ message <> "") /\
  (forall rc : Z,
      run_command h storage_cache_command true = Exited rc ->
      path_exists h (expanduser h "~/.cache") = false \/
      is_return (os_listdir h (expanduser h "~/.cache")) = true ->
      clear_storage_cache h =
      Return (true, "Storage caches cleared successfully!")) /\
  (forall e : exn,
      run_command h storage_cache_command true = NotStarted e ->
      clear_storage_cache h =
      Return (false, "Failed to clear storage cache: " ++ str e)) /\
  (forall (rc : Z) (e : exn),
      run_command h storage_cache_command true = Exited rc ->
      path_exists h (expanduser h "~/.cache") = true ->
      os_listdir h (expanduser h "~/.cache") = Raise e ->
      clear_storage_cache h =
      Return (false, "Failed to clear storage cache: " ++ str e)).
Proof.
  repeat match goal with |- _ /\ _ => split end.
  - rewrite clear_ram_cache_cases.
    destruct (subprocess_run h ram_cache_command false true);
      eexists; eexists; reflexivity.
  - rewrite clear_storage_cache_cases.
    destruct (run_command h storage_cache_command true);
      [destruct (path_exists h (expanduser h "~/.cache"));
       [destruct (os_listdir h (expanduser h "~/.cache")) |] |];
      eexists; eexists; reflexivity.
  - intros mode. rewrite set_power_mode_cases.
    destruct (subprocess_run h (power_mode_command mode) false true);
      eexists; eexists; reflexivity.
  - intros pid. destruct (os_kill h pid SIGTERM) as [[]|e] eqn:Hkill.
    + eexists; eexists. unfold kill_process. rewrite Hkill. reflexivity.
    + eexists; eexists. exact (kill_process_raised h pid e Hkill).
  - intros Hfail.
    destruct (subprocess_run_checked_fails h _ _ Hfail) as [e He].
    exists e. now rewrite clear_ram_cache_cases, He.
  - intros mode Hfail.
    destruct (subprocess_run_checked_fails h _ _ Hfail) as [e He].
    exists e. now rewrite set_power_mode_cases, He.
  - intros pid e Hkill. eexists.
    split; [exact (kill_process_raised h pid e Hkill) |].
    destruct (isinstance e ProcessLookupError); [discriminate |].
    destruct (isinstance e PermissionError); discriminate.
  - intros rc Hrun Hdir. rewrite clear_storage_cache_cases, Hrun.
    destruct (path_exists h (expanduser h "~/.cache")); [| reflexivity].
    destruct Hdir as [Hdir | Hdir]; [discriminate Hdir |].
    destruct (os_listdir h (expanduser h "~/.cache"));
      [reflexivity | discriminate Hdir].
  - intros e Hrun. now rewrite clear_storage_cache_cases, Hrun.
  - intros rc e Hrun Hexists Hlist.
    now rewrite clear_storage_cache_cases, Hrun, Hexists, Hlist.
Qed.

Lemma privileged_actions_report_witness :
  command_fails Sample.command_exits_1 ram_cache_command false = true /\
  (exists e : exn,
      clear_ram_cache Sample.command_exits_1 =
      Return (false, "Failed to clear RAM cache: " ++ str e)) /\
  run_command Sample.command_exits_1 storage_cache_command true = Exited 1 /\
  clear_storage_cache Sample.command_exits_1 =
    Return (true, "Storage caches cleared successfully!").
Proof.
  pose proof (privileged_actions_report Sample.command_exits_1)
    as (_ & _ & _ & _ & Hram & _ & _ & Hstorage & _).
  split; [reflexivity |]. split; [exact (Hram eq_refl) |].
  split; [reflexivity |].
  exact (Hstorage 1%Z eq_refl (or_intror eq_refl)).
Defined.

(** ** Sources that fail *)

(** How a tick ends: the first source that raises decides. *)
Lemma update_stats_result (h : host) (m : monitor) :
  snd (update_stats h m) =
  bind (readings h) (fun _ =>
  bind (psutil_boot_time h) (fun _ =>
  bind (psutil_process_iter h) (fun _ => Return tt))).
Proof.
  unfold readings. tick_cases h; try reflexivity; tick_run; reflexivity.
Qed.

Lemma readings_cases (h : host) :
  if sources_answer h
  then exists cpu ram_info battery usage net,
         readings h = Return (cpu, ram_info, battery, usage, net)
  else exists e, readings h = Raise e.
Proof.
  unfold sources_answer, readings.
  destruct (psutil_cpu_percent h); [| eexists; reflexivity].
  destruct (psutil_virtual_memory h); [| eexists; reflexivity].
  destruct (psutil_sensors_battery h); [| eexists; reflexivity].
  destruct (psutil_disk_usage h "/"); [| eexists; reflexivity].
  destruct (psutil_net_io_counters h); [| eexists; reflexivity].
  cbn. do 5 eexists. reflexivity.
Qed.

Lemma readings_battery (h : host) (cpu : Q) (ram_info : svmem)
    (battery : option sbattery) (usage : sdiskusage) (net : snetio) :
  readings h = Return (cpu, ram_info, battery, usage, net) ->
  psutil_sensors_battery h = Return battery /\
  psutil_net_io_counters h = Return net.
Proof.
  unfold readings.
  destruct (psutil_cpu_percent h); [| discriminate].
  destruct (psutil_virtual_memory h); [| discriminate].
  destruct (psutil_sensors_battery h); [| discriminate].
  destruct (psutil_disk_usage h "/"); [| discriminate].
  destruct (psutil_net_io_counters h); [| discriminate].
  cbn. intros E. injection E as <- <- <- <- <-. split; reflexivity.
Qed.

(** C4, as the specification states it, fails: the disk cannot be queried,
    the CPU and the network can, and the tick is left with nothing
    displayed; the CPU label still has the text it was constructed with. *)
Lemma disk_failure_aborts_the_tick :
  exists m0,
    __init__ Sample.laptop = Return m0 /\
    psutil_cpu_percent Sample.disk_fails = Return (125 # 10) /\
    is_return (psutil_net_io_counters Sample.disk_fails) = true /\
    is_return (psutil_process_iter Sample.disk_fails) = true /\
    psutil_disk_usage Sample.disk_fails "/" = Raise Sample.io_error /\
    update_stats Sample.disk_fails m0 = (m0, Raise Sample.io_error) /\
    cpu_label (fst (update_stats Sample.disk_fails m0)) = "Usage: 0%" /\
    process_table (fst (update_stats Sample.disk_fails m0)) = [].
Proof.
  eexists. split; [reflexivity |].
  do 4 (split; [reflexivity |]).
  assert (Habort : forall m,
             update_stats Sample.disk_fails m = (m, Raise Sample.io_error))
    by (intros m; apply update_stats_aborts; reflexivity).
  rewrite !Habort. repeat split.
Qed.

(** ** The network figures *)

Lemma Qcompare_cases (p q : Q) :
  match Qcompare p q with
  | Eq => (p == q)%Q
  | Lt => (p < q)%Q
  | Gt => (q < p)%Q
  end.
Proof.
  destruct (Qcompare p q) eqn:C;
    [apply Qeq_alt | apply Qlt_alt | apply Qgt_alt]; exact C.
Qed.

Lemma round_half_even_monotone (a b : Q) :
  (a <= b)%Q -> round_half_even a <= round_half_even b.
Proof.
  intros Hab. unfold round_half_even.
  pose proof (Qfloor_resp_le a b Hab) as Hfloor.
  pose proof (Qcompare_cases (a - inject_Z (Qfloor a)) (1 # 2)) as Ca.
  pose proof (Qcompare_cases (b - inject_Z (Qfloor b)) (1 # 2)) as Cb.
  destruct (Z.eq_dec (Qfloor a) (Qfloor b)) as [Heq | Hne].
  - rewrite <- Heq in *.
    destruct (Qcompare (a - inject_Z (Qfloor a)) (1 # 2));
      destruct (Qcompare (b - inject_Z (Qfloor a)) (1 # 2));
      try (destruct (Z.even (Qfloor a))); try lia; exfalso; lra.
  - destruct (Qcompare (a - inject_Z (Qfloor a)) (1 # 2));
      destruct (Qcompare (b - inject_Z (Qfloor b)) (1 # 2));
      try (destruct (Z.even (Qfloor a))); try (destruct (Z.even (Qfloor b)));
      lia.
Qed.

Lemma tenths_monotone (a b : Q) :
  (0 <= a)%Q -> (a <= b)%Q -> tenths a <= tenths b.
Proof.
  intros Ha Hab. unfold tenths. apply round_half_even_monotone.
  rewrite !Qabs_pos by lra.
  apply Qmult_le_compat_r; [exact Hab | discriminate].
Qed.

Lemma format_f_tenths (q : Q) :
  (0 <= q)%Q -> format_f 1 q = show_tenths (tenths q).
Proof.
  intros Hq. unfold format_f, show_tenths, tenths.
  now rewrite (proj2 (Qltb_ge q 0) Hq).
Qed.

Lemma round_half_even_Qeq (a b : Q) :
  (a == b)%Q -> round_half_even a = round_half_even b.
Proof.
  intros Hab. unfold round_half_even.
  rewrite (Qfloor_comp a b Hab).
  assert (Hcmp : Qcompare (a - inject_Z (Qfloor b)) (1 # 2) =
                 Qcompare (b - inject_Z (Qfloor b)) (1 # 2))
    by now rewrite Hab.
  now rewrite Hcmp.
Qed.

(** What is printed depends on the value of the rational only. *)
Lemma format_f_Qeq (prec : nat) (a b : Q) :
  (a == b)%Q -> format_f prec a = format_f prec b.
Proof.
  intros Hab. unfold format_f.
  assert (Hround :
            round_half_even (Qabs a * inject_Z (10 ^ Z.of_nat prec)) =
            round_half_even (Qabs b * inject_Z (10 ^ Z.of_nat prec)))
    by (apply round_half_even_Qeq; now rewrite Hab).
  assert (Hsign : Qltb a 0 = Qltb b 0).
  { unfold Qltb. f_equal.
    destruct (Qle_bool 0 a) eqn:Ha; destruct (Qle_bool 0 b) eqn:Hb;
      try reflexivity.
    - apply Qle_bool_iff in Ha. rewrite Hab in Ha.
      apply Qle_bool_iff in Ha. congruence.
    - apply Qle_bool_iff in Hb. rewrite <- Hab in Hb.
      apply Qle_bool_iff in Hb. congruence. }
  now rewrite Hround, Hsign.
Qed.

Lemma delta_sent_of_counters (base net : snetio) :
  (delta_sent (baseline_of base) net ==
   inject_Z (bytes_sent net - bytes_sent base) / MiB)%Q.
Proof.
  unfold delta_sent, baseline_of. cbn [NetworkInfo.sent].
  unfold Z.sub. rewrite inject_Z_plus, inject_Z_opp. field. discriminate.
Qed.

Lemma delta_recv_of_counters (base net : snetio) :
  (delta_recv (baseline_of base) net ==
   inject_Z (bytes_recv net - bytes_recv base) / MiB)%Q.
Proof.
  unfold delta_recv, baseline_of. cbn [NetworkInfo.recv].
  unfold Z.sub. rewrite inject_Z_plus, inject_Z_opp. field. discriminate.
Qed.

Lemma delta_sent_monotone (baseline : NetworkInfo.t) (net1 net2 : snetio) :
  bytes_sent net1 <= bytes_sent net2 ->
  (delta_sent baseline net1 <= delta_sent baseline net2)%Q.
Proof.
  intros Hle. unfold delta_sent.
  apply Qplus_le_compat; [| apply Qle_refl].
  apply Qmult_le_compat_r; [| discriminate].
  now rewrite <- Zle_Qle.
Qed.

Lemma delta_recv_monotone (baseline : NetworkInfo.t) (net1 net2 : snetio) :
  bytes_recv net1 <= bytes_recv net2 ->
  (delta_recv baseline net1 <= delta_recv baseline net2)%Q.
Proof.
  intros Hle. unfold delta_recv.
  apply Qplus_le_compat; [| apply Qle_refl].
  apply Qmult_le_compat_r; [| discriminate].
  now rewrite <- Zle_Qle.
Qed.

Lemma init_baseline (h0 : host) (m0 : monitor) :
  __init__ h0 = Return m0 ->
  exists net0 : snetio,
    psutil_net_io_counters h0 = Return net0 /\
    network_baseline m0 = baseline_of net0.
Proof.
  unfold __init__, get_network_info.
  destruct (psutil_net_io_counters h0) as [net0|e]; cbn [bind]; intros E;
    [| discriminate E].
  injection E as <-. exists net0. split; reflexivity.
Qed.

Lemma network_labels (h : host) (m : monitor) (cpu : Q) (ram_info : svmem)
    (battery : option sbattery) (usage : sdiskusage) (net : snetio) :
  readings h = Return (cpu, ram_info, battery, usage, net) ->
  network_sent_label (fst (update_stats h m)) =
    sent_text (delta_sent (network_baseline m) net) /\
  network_recv_label (fst (update_stats h m)) =
    recv_text (delta_recv (network_baseline m) net).
Proof.
  intros Hread.
  destruct (update_stats_cards h m _ _ _ _ _ Hread)
    as ((_ & _ & _ & _ & _ & _ & _ & Hsent & Hrecv) & _).
  split; assumption.
Qed.





(** * Further properties *)

(** ** Text: reversal, stripping and the decimal round trip *)

Lemma rev_string_app (s t acc : string) :
  rev_string acc (s ++ t) = rev_string (rev_string acc s) t.
Proof.
  revert acc; induction s as [|c s IH]; intros acc; cbn;
    [reflexivity | apply IH].
Qed.

Lemma rev_string_rev (s : string) :
  forall a b : string, rev_string a (rev_string b s) = rev_string (s ++ a) b.
Proof.
  induction s as [|c s IH]; intros a b; cbn [rev_string String.append];
    [reflexivity |].
  now rewrite IH.
Qed.

Lemma rev_string_involutive (s : string) :
  rev_string "" (rev_string "" s) = s.
Proof.
  rewrite rev_string_rev. cbn [rev_string].
  induction s as [|c s IH]; cbn; [reflexivity | now rewrite IH].
Qed.

Lemma all_chars_app (p : ascii -> bool) (s t : string) :
  all_chars p (s ++ t) = all_chars p s && all_chars p t.
Proof.
  induction s as [|c s IH]; cbn; [reflexivity |].
  now rewrite IH, andb_assoc.
Qed.

Lemma all_chars_rev (p : ascii -> bool) (s : string) :
  forall acc, all_chars p (rev_string acc s) = all_chars p s && all_chars p acc.
Proof.
  induction s as [|c s IH]; intros acc; cbn [rev_string all_chars];
    [reflexivity |].
  rewrite IH. cbn [all_chars].
  destruct (p c), (all_chars p s), (all_chars p acc); reflexivity.
Qed.

Lemma lstrip_blank (pre s : string) :
  blank pre = true -> lstrip (pre ++ s) = lstrip s.
Proof.
  unfold blank. induction pre as [|c pre IH]; cbn; [reflexivity |].
  intros H. apply andb_prop in H as [Hc Hpre]. rewrite Hc. now apply IH.
Qed.

Lemma lstrip_solid (s : string) : all_chars solid s = true -> lstrip s = s.
Proof.
  destruct s as [|c s]; cbn; [reflexivity |].
  unfold solid at 1. intros H. apply andb_prop in H as [Hc _].
  apply negb_true_iff in Hc. now rewrite Hc.
Qed.

Lemma lstrip_all_blank (s : string) : blank s = true -> lstrip s = "".
Proof.
  unfold blank. induction s as [|c s IH]; cbn; [reflexivity |].
  intros H. apply andb_prop in H as [Hc Hs]. rewrite Hc. now apply IH.
Qed.

Lemma append_assoc (s t u : string) : (s ++ t) ++ u = s ++ t ++ u.
Proof. induction s as [|c s IH]; cbn; [reflexivity | now rewrite IH]. Qed.

Lemma append_empty_r (s : string) : s ++ "" = s.
Proof. induction s as [|c s IH]; cbn; [reflexivity | now rewrite IH]. Qed.

Lemma rev_string_acc (s : string) :
  forall acc, rev_string acc s = rev_string "" s ++ acc.
Proof.
  induction s as [|c s IH]; intros acc; cbn [rev_string]; [reflexivity |].
  rewrite (IH (String c acc)), (IH (String c "")), append_assoc. reflexivity.
Qed.

(** White space around a text without white space is what [strip]
    removes. *)
Lemma strip_padded (pre s post : string) :
  blank pre = true -> blank post = true -> all_chars solid s = true ->
  strip (pre ++ s ++ post) = s.
Proof.
  intros Hpre Hpost Hs. unfold strip. rewrite (lstrip_blank pre _ Hpre).
  destruct s as [|c s].
  - cbn [String.append]. rewrite (lstrip_all_blank post Hpost). reflexivity.
  - assert (Hfront : lstrip (String c s ++ post) = String c s ++ post).
    { cbn [String.append lstrip]. cbn [all_chars] in Hs.
      apply andb_prop in Hs as [Hc _]. unfold solid in Hc.
      apply negb_true_iff in Hc. now rewrite Hc. }
    rewrite Hfront, rev_string_app.
    rewrite (rev_string_acc post (rev_string "" (String c s))).
    rewrite lstrip_blank
      by (unfold blank; rewrite all_chars_rev; cbn [all_chars];
          now rewrite andb_true_r).
    rewrite lstrip_solid
      by (rewrite all_chars_rev; cbn [all_chars]; now rewrite andb_true_r).
    apply rev_string_involutive.
Qed.

Lemma strip_solid (s : string) : all_chars solid s = true -> strip s = s.
Proof.
  intros Hs. rewrite <- (strip_padded "" s "" eq_refl eq_refl Hs) at 2.
  cbn [String.append]. now rewrite append_empty_r.
Qed.

Lemma digits_step (c : ascii) (s : string) (acc d : Z) (b : bool) :
  digit_of c = Some d ->
  digits acc b (String c s) = digits (10 * acc + d) true s.
Proof. intros Hc. cbn [digits]. now rewrite Hc. Qed.

Ltac digit_step :=
  match goal with
  | |- context [digits ?a ?b (String ?c ?s)] =>
      let v := eval vm_compute in (digit_of c) in
      match v with
      | Some ?k => rewrite (digits_step c s a k b eq_refl)
      end
  end.

(** The decimal digits that [str] writes are read back by [int]. *)
Lemma digits_of_uint_acc (d : Decimal.uint) :
  forall acc : positive,
    digits (Zpos acc) true (NilEmpty.string_of_uint d) =
    Some (Zpos (Pos.of_uint_acc d acc)).
Proof.
  induction d; intros acc; cbn [NilEmpty.string_of_uint Pos.of_uint_acc];
    [reflexivity | ..];
    (digit_step; rewrite <- IHd; f_equal; lia).
Qed.

Lemma digits_of_uint (d : Decimal.uint) :
  digits 0 true (NilEmpty.string_of_uint d) = Some (Z.of_N (Pos.of_uint d)).
Proof.
  induction d; cbn [NilEmpty.string_of_uint Pos.of_uint];
    [reflexivity | ..];
    (digit_step; first [exact IHd | apply digits_of_uint_acc]).
Qed.

Lemma uint_text_solid (d : Decimal.uint) :
  all_chars solid (NilEmpty.string_of_uint d) = true.
Proof. induction d; cbn; (reflexivity || exact IHd). Qed.

Lemma digits_start (d : Decimal.uint) (acc : Z) :
  d <> Decimal.Nil ->
  digits acc false (NilEmpty.string_of_uint d) =
  digits acc true (NilEmpty.string_of_uint d).
Proof. destruct d; intros Hd; [now elim Hd | reflexivity ..]. Qed.

Lemma int_of_str_positive (p : positive) :
  int_of_str (NilEmpty.string_of_uint (Pos.to_uint p)) = Return (Zpos p).
Proof.
  pose proof (DecimalPos.Unsigned.to_uint_nonnil p) as Hnil.
  pose proof (DecimalPos.Unsigned.of_to p) as Hback.
  unfold int_of_str. rewrite (strip_solid _ (uint_text_solid _)).
  assert (Hparse : digits 0 false (NilEmpty.string_of_uint (Pos.to_uint p)) =
                   Some (Zpos p))
    by (rewrite (digits_start _ 0 Hnil), digits_of_uint, Hback; reflexivity).
  destruct (Pos.to_uint p); try (now elim Hnil); cbn [NilEmpty.string_of_uint] in *;
    now rewrite Hparse.
Qed.

(** [int(str(n)) == n]. *)
Lemma int_of_str_str_int (n : Z) : int_of_str (str_int n) = Return n.
Proof.
  unfold str_int. destruct n as [|p|p]; cbn [Z.to_int NilZero.string_of_int].
  - reflexivity.
  - unfold NilZero.string_of_uint.
    pose proof (DecimalPos.Unsigned.to_uint_nonnil p) as Hnil.
    pose proof (int_of_str_positive p) as Hp.
    destruct (Pos.to_uint p); try (now elim Hnil); exact Hp.
  - unfold NilZero.string_of_uint.
    pose proof (DecimalPos.Unsigned.to_uint_nonnil p) as Hnil.
    pose proof (DecimalPos.Unsigned.of_to p) as Hback.
    assert (Htext : NilZero.string_of_uint (Pos.to_uint p) =
                    NilEmpty.string_of_uint (Pos.to_uint p))
      by (unfold NilZero.string_of_uint; destruct (Pos.to_uint p);
          try reflexivity; now elim Hnil).
    fold (NilZero.string_of_uint (Pos.to_uint p)). rewrite Htext.
    unfold int_of_str.
    rewrite strip_solid by (cbn [all_chars]; apply uint_text_solid).
    rewrite (digits_start _ 0 Hnil), digits_of_uint, Hback. reflexivity.
Qed.

Lemma str_int_solid (n : Z) : all_chars solid (str_int n) = true.
Proof.
  unfold str_int. destruct n as [|p|p]; cbn [Z.to_int NilZero.string_of_int];
    [reflexivity | |]; unfold NilZero.string_of_uint;
    pose proof (uint_text_solid (Pos.to_uint p)) as Hs;
    destruct (Pos.to_uint p); try reflexivity; exact Hs.
Qed.

(** ** Rounding to binary64 *)

Lemma round_half_even_Z (z : Z) : round_half_even (inject_Z z) = z.
Proof.
  unfold round_half_even. rewrite Qfloor_Z.
  assert (C : Qcompare (inject_Z z - inject_Z z) (1 # 2) = Lt).
  { apply Qlt_alt.
    setoid_replace (inject_Z z - inject_Z z)%Q with 0%Q by ring.
    reflexivity. }
  now rewrite C.
Qed.

Lemma round_half_even_error (q : Q) :
  (Qabs (inject_Z (round_half_even q) - q) <= 1 # 2)%Q.
Proof.
  unfold round_half_even.
  pose proof (Qfloor_le q) as Hlo. pose proof (Qlt_floor q) as Hhi.
  rewrite inject_Z_plus in Hhi. change (inject_Z 1) with 1%Q in Hhi.
  pose proof (Qcompare_cases (q - inject_Z (Qfloor q)) (1 # 2)) as C.
  apply Qabs_Qle_condition.
  destruct (Qcompare (q - inject_Z (Qfloor q)) (1 # 2));
    try (destruct (Z.even (Qfloor q)));
    rewrite ?inject_Z_plus; change (inject_Z 1) with 1%Q; split; lra.
Qed.

Lemma two_power_pos (e : Z) : (0 < 2 ^ e)%Q.
Proof. apply Qpower_0_lt. reflexivity. Qed.

Lemma two_power_succ (e : Z) : (2 ^ (e + 1) == 2 * 2 ^ e)%Q.
Proof.
  rewrite Qpower_plus by discriminate. rewrite Qpower_1_r. ring.
Qed.

Lemma two_power_Z (k : Z) : 0 <= k -> (inject_Z (2 ^ k) == 2 ^ k)%Q.
Proof. intros Hk. now rewrite Zpower_Qpower. Qed.

Lemma Qabs_fraction (q : Q) :
  (Qabs q * inject_Z (Zpos (Qden q)) == inject_Z (Z.abs (Qnum q)))%Q.
Proof.
  destruct q as [a b]. unfold Qabs, Qeq, Qmult, inject_Z. cbn. lia.
Qed.

Lemma floor_log2_spec (q : Q) :
  ~ (q == 0)%Q ->
  (2 ^ Float.floor_log2 q <= Qabs q)%Q /\
  (Qabs q < 2 ^ (Float.floor_log2 q + 1))%Q.
Proof.
  intros Hq. unfold Float.floor_log2.
  set (a := Z.abs (Qnum q)). set (b := Zpos (Qden q)).
  assert (Ha : 0 < a).
  { unfold a. destruct q as [n d]. unfold Qeq in Hq. cbn in *. lia. }
  assert (Hb : 0 < b) by (unfold b; lia).
  pose proof (Z.log2_spec a Ha) as [La Ua].
  pose proof (Z.log2_spec b Hb) as [Lb Ub].
  pose proof (Z.log2_nonneg a) as Na. pose proof (Z.log2_nonneg b) as Nb.
  rewrite Zle_Qle in La, Lb. rewrite Zlt_Qlt in Ua, Ub.
  rewrite two_power_Z in La, Lb by assumption.
  replace (Z.succ (Z.log2 a)) with (Z.log2 a + 1) in Ua by lia.
  replace (Z.succ (Z.log2 b)) with (Z.log2 b + 1) in Ub by lia.
  rewrite two_power_Z, two_power_succ in Ua, Ub by lia.
  pose proof (Qabs_fraction q) as Hfrac. fold a b in Hfrac.
  set (d := Z.log2 a - Z.log2 b).
  assert (Hd : (2 ^ d * 2 ^ Z.log2 b == 2 ^ Z.log2 a)%Q).
  { unfold d. rewrite Qpower_minus by discriminate. field.
    apply Qpower_not_0. discriminate. }
  pose proof (two_power_pos d) as Pd.
  pose proof (two_power_pos (Z.log2 b)) as Pb.
  assert (HB : (0 < inject_Z b)%Q)
    by (change 0%Q with (inject_Z 0); now rewrite <- Zlt_Qlt).
  pose proof (Qabs_nonneg q) as Habs.
  destruct (Qle_bool (2 ^ d) (Qabs q)) eqn:Htest.
  - apply Qle_bool_iff in Htest. split; [exact Htest |].
    rewrite two_power_succ.
    apply Qnot_le_lt. intros Hge.
    assert (H1 : (2 * 2 ^ d * inject_Z b <= Qabs q * inject_Z b)%Q)
      by (apply Qmult_le_compat_r; [exact Hge | lra]).
    assert (H2 : (2 ^ d * 2 ^ Z.log2 b <= 2 ^ d * inject_Z b)%Q).
    { rewrite !(Qmult_comm (2 ^ d)). apply Qmult_le_compat_r; lra. }
    lra.
  - assert (Hlt : (Qabs q < 2 ^ d)%Q).
    { apply Qnot_le_lt. intros Hle. apply Qle_bool_iff in Hle. congruence. }
    replace (d - 1 + 1) with d by lia. split; [| exact Hlt].
    assert (Hhalf : (2 * 2 ^ (d - 1) == 2 ^ d)%Q).
    { rewrite <- two_power_succ. now replace (d - 1 + 1) with d by lia. }
    apply Qnot_lt_le. intros Hlow.
    assert (H1 : (Qabs q * inject_Z b <= 2 ^ (d - 1) * inject_Z b)%Q)
      by (apply Qmult_le_compat_r; lra).
    pose proof (two_power_pos (d - 1)) as Pd1.
    assert (H2 : (2 ^ (d - 1) * inject_Z b <
                  2 ^ (d - 1) * (2 * 2 ^ Z.log2 b))%Q).
    { rewrite !(Qmult_comm (2 ^ (d - 1))). apply Qmult_lt_compat_r; lra. }
    assert (H3 : (2 ^ (d - 1) * (2 * 2 ^ Z.log2 b) ==
                  2 ^ d * 2 ^ Z.log2 b)%Q)
      by (rewrite <- Hhalf; ring).
    lra.
Qed.

Lemma floor_log2_unique (q : Q) (k : Z) :
  (2 ^ k <= Qabs q)%Q -> (Qabs q < 2 ^ (k + 1))%Q -> Float.floor_log2 q = k.
Proof.
  intros Hlo Hhi.
  assert (Hq : ~ (q == 0)%Q).
  { intros E. rewrite E in Hlo. pose proof (two_power_pos k).
    change (Qabs 0) with 0%Q in Hlo. lra. }
  destruct (floor_log2_spec q Hq) as [Slo Shi].
  assert (H1 : Float.floor_log2 q < k + 1).
  { apply (Qpower_lt_compat_l_inv 2); [| reflexivity].
    apply Qle_lt_trans with (Qabs q); assumption. }
  assert (H2 : k < Float.floor_log2 q + 1).
  { apply (Qpower_lt_compat_l_inv 2); [| reflexivity].
    apply Qle_lt_trans with (Qabs q); assumption. }
  lia.
Qed.

Lemma floor_log2_Qeq (a b : Q) :
  ~ (a == 0)%Q -> (a == b)%Q -> Float.floor_log2 a = Float.floor_log2 b.
Proof.
  intros Ha E. symmetry. destruct (floor_log2_spec a Ha) as [Lo Hi].
  apply floor_log2_unique; rewrite <- E; assumption.
Qed.

Lemma floor_log2_below (q : Q) (k : Z) :
  ~ (q == 0)%Q -> (Qabs q < 2 ^ k)%Q -> Float.floor_log2 q < k.
Proof.
  intros Hq Hlt. destruct (floor_log2_spec q Hq) as [Lo _].
  apply (Qpower_lt_compat_l_inv 2); [| reflexivity].
  apply Qle_lt_trans with (Qabs q); assumption.
Qed.

Lemma floor_log2_above (q : Q) (k : Z) :
  ~ (q == 0)%Q -> (2 ^ k <= Qabs q)%Q -> k <= Float.floor_log2 q.
Proof.
  intros Hq Hle. destruct (floor_log2_spec q Hq) as [_ Hi].
  assert (k < Float.floor_log2 q + 1); [| lia].
  apply (Qpower_lt_compat_l_inv 2); [| reflexivity].
  apply Qle_lt_trans with (Qabs q); assumption.
Qed.

Lemma nearest_nonzero (q : Q) :
  ~ (q == 0)%Q ->
  Float.nearest q =
  (inject_Z (round_half_even (q / 2 ^ Float.ulp_exponent q)) *
   2 ^ Float.ulp_exponent q)%Q.
Proof.
  intros Hq. unfold Float.nearest.
  destruct (Qeq_bool q 0) eqn:E; [| reflexivity].
  apply Qeq_bool_iff in E. contradiction.
Qed.

Lemma nearest_zero (q : Q) : (q == 0)%Q -> Float.nearest q = 0%Q.
Proof.
  intros Hq. unfold Float.nearest. apply Qeq_bool_iff in Hq. now rewrite Hq.
Qed.

Lemma nearest_Qeq (a b : Q) :
  (a == b)%Q -> (Float.nearest a == Float.nearest b)%Q.
Proof.
  intros E. destruct (Qeq_dec a 0) as [Z0 | NZ].
  - rewrite (nearest_zero a Z0), (nearest_zero b); [reflexivity |].
    now rewrite <- E.
  - assert (NZb : ~ (b == 0)%Q) by now rewrite <- E.
    rewrite (nearest_nonzero a NZ), (nearest_nonzero b NZb).
    unfold Float.ulp_exponent. rewrite <- (floor_log2_Qeq a b NZ E).
    generalize (2 ^ Z.max (-1074) (Float.floor_log2 a - 52))%Q. intros ulp.
    rewrite (round_half_even_Qeq (a / ulp) (b / ulp));
      [reflexivity | now rewrite E].
Qed.

(** Below [2^53] the integers are binary64 numbers, and rounding does not
    cross them. *)
Lemma nearest_integers (q : Q) (n : Z) :
  (Qabs q < 2 ^ 53)%Q ->
  ((inject_Z n <= q)%Q -> (inject_Z n <= Float.nearest q)%Q) /\
  ((q <= inject_Z n)%Q -> (Float.nearest q <= inject_Z n)%Q).
Proof.
  intros Hsmall. destruct (Qeq_dec q 0) as [Z0 | NZ].
  - rewrite (nearest_zero q Z0).
    split; intros H; rewrite <- Z0; exact H.
  - rewrite (nearest_nonzero q NZ).
    pose proof (floor_log2_below q 53 NZ Hsmall) as Hfl.
    set (e := Float.ulp_exponent q).
    assert (He : e <= 0) by (unfold e, Float.ulp_exponent; lia).
    pose proof (two_power_pos e) as Pe.
    assert (Hn : (inject_Z n == inject_Z (n * 2 ^ (- e)) * 2 ^ e)%Q).
    { rewrite inject_Z_mult, two_power_Z by lia.
      rewrite Qpower_opp. field. apply Qpower_not_0. discriminate. }
    assert (Hdiv : (inject_Z n / 2 ^ e == inject_Z (n * 2 ^ (- e)))%Q).
    { rewrite Hn at 1. field. apply Qpower_not_0. discriminate. }
    split; intros H.
    + rewrite Hn. apply Qmult_le_compat_r; [| lra].
      rewrite <- Zle_Qle.
      rewrite <- (round_half_even_Z (n * 2 ^ (- e))).
      apply round_half_even_monotone. rewrite <- Hdiv.
      apply Qmult_le_compat_r; [exact H |].
      apply Qlt_le_weak, Qinv_lt_0_compat, Pe.
    + rewrite Hn. apply Qmult_le_compat_r; [| lra].
      rewrite <- Zle_Qle.
      rewrite <- (round_half_even_Z (n * 2 ^ (- e))).
      apply round_half_even_monotone. rewrite <- Hdiv.
      apply Qmult_le_compat_r; [exact H |].
      apply Qlt_le_weak, Qinv_lt_0_compat, Pe.
Qed.

Lemma nearest_integer (n : Z) :
  Z.abs n < 2 ^ 53 -> (Float.nearest (inject_Z n) == inject_Z n)%Q.
Proof.
  intros Hn.
  assert (Hsmall : (Qabs (inject_Z n) < 2 ^ 53)%Q).
  { rewrite <- (two_power_Z 53) by lia.
    assert (E : (Qabs (inject_Z n) == inject_Z (Z.abs n))%Q).
    { unfold Qabs, inject_Z. cbn. reflexivity. }
    rewrite E. now rewrite <- Zlt_Qlt. }
  destruct (nearest_integers (inject_Z n) n Hsmall) as [Lo Hi].
  apply Qle_antisym; [apply Hi | apply Lo]; apply Qle_refl.
Qed.

(** Rounding moves a number by at most half a unit in the last place. *)
Lemma nearest_error (q : Q) :
  (Qabs (Float.nearest q - q) <= (1 # 2) * 2 ^ Float.ulp_exponent q)%Q.
Proof.
  pose proof (two_power_pos (Float.ulp_exponent q)) as Pe.
  destruct (Qeq_dec q 0) as [Z0 | NZ].
  - rewrite (nearest_zero q Z0).
    assert (E : (0 - q == 0)%Q) by (rewrite Z0; reflexivity).
    rewrite E. change (Qabs 0) with 0%Q.
    revert Pe. generalize (2 ^ Float.ulp_exponent q)%Q. intros ulp Pe. lra.
  - rewrite (nearest_nonzero q NZ).
    revert Pe. generalize (2 ^ Float.ulp_exponent q)%Q. intros ulp Pe.
    pose proof (round_half_even_error (q / ulp)) as Herr.
    assert (E : (inject_Z (round_half_even (q / ulp)) * ulp - q ==
                 (inject_Z (round_half_even (q / ulp)) - q / ulp) * ulp)%Q)
      by (field; lra).
    rewrite E, Qabs_Qmult, (Qabs_pos ulp) by lra.
    apply Qmult_le_compat_r; [exact Herr | lra].
Qed.

(** In the normal range the relative error is at most [2^-53]. *)
Lemma nearest_relative_error (q : Q) :
  (2 ^ (-1022) <= Qabs q)%Q ->
  (Qabs (Float.nearest q - q) <= Qabs q * 2 ^ (-53))%Q.
Proof.
  intros Hnormal.
  assert (NZ : ~ (q == 0)%Q).
  { intros E. rewrite E in Hnormal. pose proof (two_power_pos (-1022)).
    change (Qabs 0) with 0%Q in Hnormal. lra. }
  pose proof (floor_log2_above q (-1022) NZ Hnormal) as Hfl.
  destruct (floor_log2_spec q NZ) as [Lo _].
  eapply Qle_trans; [apply nearest_error |].
  unfold Float.ulp_exponent. rewrite Z.max_r by lia.
  replace (Float.floor_log2 q - 52) with (Float.floor_log2 q + -53 + 1) by lia.
  rewrite two_power_succ, Qpower_plus by discriminate.
  pose proof (two_power_pos (-53)) as P.
  setoid_replace ((1 # 2) * (2 * (2 ^ Float.floor_log2 q * 2 ^ (-53))))%Q
    with (2 ^ Float.floor_log2 q * 2 ^ (-53))%Q by ring.
  apply Qmult_le_compat_r; [exact Lo | lra].
Qed.

Lemma round_finite (q : Q) :
  (Qabs (Float.nearest q) < 2 ^ 1024)%Q ->
  Float.round q = Some (Float.nearest q).
Proof.
  intros H. unfold Float.round.
  destruct (Qle_bool (2 ^ 1024) (Qabs (Float.nearest q))) eqn:E;
    [| reflexivity].
  apply Qle_bool_iff in E. exfalso. exact (Qlt_not_le _ _ H E).
Qed.

Lemma round_infinite (q : Q) :
  (2 ^ 1024 <= Qabs (Float.nearest q))%Q -> Float.round q = None.
Proof.
  intros H. unfold Float.round. apply Qle_bool_iff in H. now rewrite H.
Qed.

(** In the normal range rounding keeps the magnitude within a factor of
    two; the precise bound is [nearest_relative_error]. *)
Lemma nearest_magnitude (q : Q) :
  (2 ^ (-1022) <= Qabs q)%Q ->
  ((1 # 2) * Qabs q <= Qabs (Float.nearest q))%Q /\
  (Qabs (Float.nearest q) <= 2 * Qabs q)%Q.
Proof.
  intros Hnormal. pose proof (nearest_relative_error q Hnormal) as Herr.
  assert (Heps : (Qabs q * 2 ^ (-53) <= (1 # 2) * Qabs q)%Q).
  { rewrite (Qmult_comm (Qabs q)).
    apply Qmult_le_compat_r; [| apply Qabs_nonneg].
    apply Qle_bool_iff. vm_compute. reflexivity. }
  pose proof (Qabs_triangle q (Float.nearest q - q)) as T1.
  assert (E1 : (Qabs (q + (Float.nearest q - q)) ==
                Qabs (Float.nearest q))%Q) by (apply Qabs_wd; ring).
  rewrite E1 in T1.
  pose proof (Qabs_triangle (Float.nearest q) (q - Float.nearest q)) as T2.
  assert (E2 : (Qabs (Float.nearest q + (q - Float.nearest q)) ==
                Qabs q)%Q) by (apply Qabs_wd; ring).
  rewrite E2, (Qabs_Qminus q) in T2.
  pose proof (Qabs_nonneg q) as Hq.
  revert Herr Heps T1 T2 Hq.
  generalize (Qabs (Float.nearest q - q)) (Qabs (Float.nearest q))
    (Qabs q * 2 ^ (-53))%Q (Qabs q).
  intros d v eps a Herr Heps T1 T2 Hq. split; lra.
Qed.

(** ** The division by 1000 *)

Lemma millidegrees_normal (n : Z) :
  n <> 0 -> (2 ^ (-1022) <= Qabs (n # 1000))%Q.
Proof.
  intros Hn. apply Qle_trans with (1 # 1000)%Q.
  - apply Qle_bool_iff. vm_compute. reflexivity.
  - unfold Qabs, Qle. cbn [Qnum Qden]. lia.
Qed.

Lemma truediv_in_range (n : Z) :
  Z.abs n < 10 ^ 300 ->
  Float.truediv n 1000 = Return (Float.nearest (n # 1000)).
Proof.
  intros Hn. unfold Float.truediv. rewrite round_finite; [reflexivity |].
  destruct (Z.eq_dec n 0) as [-> | Hnz].
  - apply Qlt_alt. vm_compute. reflexivity.
  - destruct (nearest_magnitude _ (millidegrees_normal n Hnz)) as [_ Hup].
    eapply Qle_lt_trans; [exact Hup |].
    apply Qlt_le_trans with (2 * (10 ^ 300 # 1000))%Q.
    + apply Qmult_lt_l; [reflexivity |].
      unfold Qabs, Qlt. cbn [Qnum Qden]. lia.
    + apply Qle_bool_iff. vm_compute. reflexivity.
Qed.

Lemma truediv_overflows (n : Z) :
  10 ^ 312 <= Z.abs n ->
  exists e : exn, Float.truediv n 1000 = Raise e.
Proof.
  intros Hn. unfold Float.truediv. rewrite round_infinite.
  - eexists. reflexivity.
  - assert (Hnz : n <> 0).
    { intros ->. change (Z.abs 0) with 0 in Hn.
      assert (0 < 10 ^ 312) by (apply Z.pow_pos_nonneg; lia). lia. }
    destruct (nearest_magnitude _ (millidegrees_normal n Hnz)) as [Hlow _].
    eapply Qle_trans; [| exact Hlow].
    apply Qle_trans with ((1 # 2) * (10 ^ 312 # 1000))%Q.
    + apply Qle_bool_iff. vm_compute. reflexivity.
    + apply Qmult_le_l; [reflexivity |].
      unfold Qabs, Qle. cbn [Qnum Qden]. lia.
Qed.

(** ** The temperature file *)

(** X1.  The thermal zone file holds the temperature in thousandths of a
    degree, as a decimal number with white space around it (a new line at
    its end, in practice).  For a number of fewer than 301 digits
    [get_cpu_temp] returns the binary64 number nearest to that number
    divided by 1000, which is within a relative error of 2^-53 of the
    quotient and is the quotient itself when the number is a multiple of
    1000 with fewer than 2^53 degrees; for a number of more than 312 digits
    the division overflows and [get_cpu_temp] returns 0.  A tick whose
    sources answer shows what [get_cpu_temp] returned with one decimal. *)
Theorem get_cpu_temp_reads_millidegrees (h : host) (n : Z)
    (pre post : string) :
  blank pre = true ->
  blank post = true ->
  read_file h thermal_zone = Return (pre ++ str_int n ++ post) ->
  (Z.abs n < 10 ^ 300 ->
   get_cpu_temp h = Float.nearest (n # 1000) /\
   (Qabs (get_cpu_temp h - (n # 1000)) <=
    Qabs (n # 1000) * 2 ^ (-53))%Q) /\
  (forall k : Z,
      n = 1000 * k -> Z.abs k < 2 ^ 53 ->
      (get_cpu_temp h == inject_Z k)%Q) /\
  (10 ^ 312 <= Z.abs n -> get_cpu_temp h = 0%Q) /\
  forall (m : monitor) (cpu : Q) (ram_info : svmem)
         (battery : option sbattery) (usage : sdiskusage) (net : snetio),
    readings h = Return (cpu, ram_info, battery, usage, net) ->
    cpu_temp_label (fst (update_stats h m)) =
      icon_temperature ++ " Temperature: " ++
      format_f 1 (get_cpu_temp h) ++ degree ++ "C".
Proof.
  intros Hpre Hpost Hfile.
  assert (Htemp : get_cpu_temp h = try_except (Float.truediv n 1000) 0%Q).
  { apply (get_cpu_temp_readable h _ n Hfile).
    rewrite (strip_padded pre _ post Hpre Hpost (str_int_solid n)).
    apply int_of_str_str_int. }
  assert (Hin : Z.abs n < 10 ^ 300 ->
                get_cpu_temp h = Float.nearest (n # 1000)).
  { intros Hn. rewrite Htemp, (truediv_in_range n Hn). reflexivity. }
  split; [| split; [| split]].
  - intros Hn. split; [exact (Hin Hn) |]. rewrite (Hin Hn).
    destruct (Z.eq_dec n 0) as [-> | Hnz].
    + apply Qle_bool_iff. vm_compute. reflexivity.
    + apply nearest_relative_error, millidegrees_normal, Hnz.
  - intros k -> Hk. rewrite Hin.
    + rewrite <- (nearest_integer k Hk). apply nearest_Qeq.
      unfold Qeq, inject_Z. cbn [Qnum Qden]. lia.
    + assert (2 ^ 53 * 1000 < 10 ^ 300) by (vm_compute; reflexivity). lia.
  - intros Hn. rewrite Htemp.
    destruct (truediv_overflows n Hn) as [e ->]. reflexivity.
  - intros m cpu ram_info battery usage net Hread.
    exact (proj2 (update_stats_cards h m _ _ _ _ _ Hread)).
Qed.

Lemma get_cpu_temp_reads_millidegrees_witness :
  blank "" = true /\ blank Sample.LF = true /\
  read_file Sample.warm thermal_zone =
    Return ("" ++ str_int 45150 ++ Sample.LF) /\
  Z.abs 45150 < 10 ^ 300 /\
  get_cpu_temp Sample.warm = Float.nearest (45150 # 1000) /\
  format_f 1 (get_cpu_temp Sample.warm) = "45.1".
Proof.
  assert (Hn : Z.abs 45150 < 10 ^ 300) by (vm_compute; reflexivity).
  split; [reflexivity |]. split; [reflexivity |]. split; [reflexivity |].
  split; [exact Hn |].
  split; [| vm_compute; reflexivity].
  exact (proj1 (proj1 (get_cpu_temp_reads_millidegrees Sample.warm 45150 ""
                         Sample.LF eq_refl eq_refl eq_refl) Hn)).
Defined.

(** ** The process list *)

Lemma insert_desc_perm (p : pinfo) (l : list pinfo) :
  Permutation (insert_desc p l) (p :: l).
Proof.
  induction l as [|q l IH]; cbn [insert_desc]; [reflexivity |].
  destruct (Qltb (cpu_percent p) (cpu_percent q)); [| reflexivity].
  rewrite IH. apply perm_swap.
Qed.

Lemma sorted_desc_perm (l : list pinfo) : Permutation (sorted_desc l) l.
Proof.
  induction l as [|p l IH]; cbn [sorted_desc fold_right]; [reflexivity |].
  fold (sorted_desc l). now rewrite insert_desc_perm, IH.
Qed.

Lemma insert_desc_sorted (p : pinfo) (l : list pinfo) :
  StronglySorted by_cpu l -> StronglySorted by_cpu (insert_desc p l).
Proof.
  induction l as [|q l IH]; intros Hl; cbn [insert_desc].
  - repeat constructor.
  - inversion Hl as [|? ? Htail Hhead]; subst.
    destruct (Qltb (cpu_percent p) (cpu_percent q)) eqn:Hcmp.
    + constructor; [now apply IH |].
      apply (Permutation_Forall (Permutation_sym (insert_desc_perm p l))).
      constructor; [| exact Hhead].
      apply Qltb_lt in Hcmp. unfold by_cpu. now apply Qlt_le_weak.
    + apply Qltb_ge in Hcmp. constructor; [exact Hl |].
      constructor; [exact Hcmp |].
      apply (Forall_impl _ (P := by_cpu q)); [| exact Hhead].
      intros r Hr. unfold by_cpu in *. now apply Qle_trans with (cpu_percent q).
Qed.

Lemma sorted_desc_sorted (l : list pinfo) :
  StronglySorted by_cpu (sorted_desc l).
Proof.
  induction l as [|p l IH]; cbn [sorted_desc fold_right]; [constructor |].
  now apply insert_desc_sorted.
Qed.

Lemma sorted_split {A : Type} (R : A -> A -> Prop) (l1 l2 : list A) :
  StronglySorted R (l1 ++ l2) ->
  StronglySorted R l1 /\
  forall a b, In a l1 -> In b l2 -> R a b.
Proof.
  induction l1 as [|c l1 IH]; cbn [app]; intros Hs.
  - split; [constructor | intros a b []].
  - inversion Hs as [|? ? Htail Hhead]; subst.
    destruct (IH Htail) as [Hl1 Hcross].
    apply Forall_app in Hhead as [Hin1 Hin2].
    split; [now constructor |].
    intros a b [<- | Ha] Hb.
    + now apply (proj1 (Forall_forall _ _) Hin2).
    + now apply Hcross.
Qed.

Lemma collected (procs : list pinfo) :
  forall acc, fold_left (fun acc proc => (acc ++ [proc])%list) procs acc =
              (acc ++ procs)%list.
Proof.
  induction procs as [|p procs IH]; intros acc; cbn [fold_left].
  - now rewrite app_nil_r.
  - now rewrite IH, <- app_assoc.
Qed.

Lemma get_top_processes_returns (h : host) (limit : nat)
    (procs : list pinfo) :
  psutil_process_iter h = Return procs ->
  get_top_processes h limit = Return (firstn limit (sorted_desc procs)).
Proof.
  intros Hiter. unfold get_top_processes. rewrite Hiter. cbn [bind].
  now rewrite collected.
Qed.

(** Entries with the same CPU figure keep the order they came in. *)
Lemma insert_desc_stable (k : Q) (p : pinfo) (l : list pinfo) :
  filter (fun q => Qeq_bool (cpu_percent q) k) (insert_desc p l) =
  filter (fun q => Qeq_bool (cpu_percent q) k) (p :: l).
Proof.
  induction l as [|q l IH]; cbn [insert_desc]; [reflexivity |].
  destruct (Qltb (cpu_percent p) (cpu_percent q)) eqn:Hcmp; [| reflexivity].
  cbn [filter] in *. rewrite IH.
  destruct (Qeq_bool (cpu_percent p) k) eqn:Hp;
    destruct (Qeq_bool (cpu_percent q) k) eqn:Hq; try reflexivity.
  apply Qeq_bool_iff in Hp, Hq. apply Qltb_lt in Hcmp.
  rewrite Hp, Hq in Hcmp. now apply Qlt_irrefl in Hcmp.
Qed.

Lemma sorted_desc_stable (k : Q) (l : list pinfo) :
  filter (fun q => Qeq_bool (cpu_percent q) k) (sorted_desc l) =
  filter (fun q => Qeq_bool (cpu_percent q) k) l.
Proof.
  induction l as [|p l IH]; cbn [sorted_desc fold_right]; [reflexivity |].
  fold (sorted_desc l). rewrite insert_desc_stable. cbn [filter].
  now rewrite IH.
Qed.

(** X2.  [get_top_processes] returns the [limit] processes with the highest
    CPU figure, the highest first: the list returned and the processes left
    out are together a rearrangement of what [process_iter] yielded, the
    list has [min limit n] entries and is in descending order, and no
    process left out has more CPU than one returned.  Before the cut,
    processes with equal CPU keep the order in which they were yielded.
    When [process_iter] raises, so does [get_top_processes]. *)
Theorem get_top_processes_selects_highest (h : host) (limit : nat) :
  (forall procs : list pinfo,
      psutil_process_iter h = Return procs ->
      exists top rest : list pinfo,
        get_top_processes h limit = Return top /\
        Permutation procs (top ++ rest) /\
        List.length top = Nat.min limit (List.length procs) /\
        StronglySorted by_cpu top /\
        (forall a b, In a top -> In b rest -> by_cpu a b) /\
        (forall k : Q,
            filter (fun q => Qeq_bool (cpu_percent q) k) (top ++ rest) =
            filter (fun q => Qeq_bool (cpu_percent q) k) procs)) /\
  (forall e : exn,
      psutil_process_iter h = Raise e ->
      get_top_processes h limit = Raise e).
Proof.
  split.
  - intros procs Hiter.
    exists (firstn limit (sorted_desc procs)),
           (skipn limit (sorted_desc procs)).
    pose proof (sorted_desc_sorted procs) as Hsorted.
    rewrite <- (firstn_skipn limit (sorted_desc procs)) in Hsorted.
    destruct (sorted_split _ _ _ Hsorted) as [Htop Hcross].
    split; [exact (get_top_processes_returns h limit procs Hiter) |].
    split; [rewrite firstn_skipn; symmetry; apply sorted_desc_perm |].
    split.
    { rewrite length_firstn,
        (Permutation_length (sorted_desc_perm procs)). reflexivity. }
    split; [exact Htop |]. split; [exact Hcross |].
    intros k. rewrite firstn_skipn. apply sorted_desc_stable.
  - intros e Hiter. unfold get_top_processes. now rewrite Hiter.
Qed.

Lemma get_top_processes_selects_highest_witness :
  psutil_process_iter Sample.laptop =
    Return [mk_pinfo 1 "systemd" (0 # 1) (1 # 10);
            mk_pinfo 4242 "python3" (73 # 10) (21 # 10);
            mk_pinfo 977 "Xorg" (31 # 10) (15 # 10)] /\
  exists top rest : list pinfo,
    get_top_processes Sample.laptop 2 = Return top /\
    List.length top =
      Nat.min 2 (List.length
                   [mk_pinfo 1 "systemd" (0 # 1) (1 # 10);
                    mk_pinfo 4242 "python3" (73 # 10) (21 # 10);
                    mk_pinfo 977 "Xorg" (31 # 10) (15 # 10)]) /\
    StronglySorted by_cpu top /\
    (forall a b, In a top -> In b rest -> by_cpu a b).
Proof.
  split; [reflexivity |].
  destruct (proj1 (get_top_processes_selects_highest Sample.laptop 2) _ eq_refl)
    as (top & rest & Hret & _ & Hlen & Hsorted & Hcross & _).
  exists top, rest. repeat split; assumption.
Defined.

(** ** The process table *)

Lemma update_stats_table (h : host) (m : monitor) :
  process_table (fst (update_stats h m)) =
  match sample h, psutil_process_iter h with
  | Some _, Return procs => map row_of (top_ten procs)
  | _, _ => process_table m
  end.
Proof.
  unfold top_ten.
  tick_cases h; try reflexivity; tick_run; rewrite ?collected; reflexivity.
Qed.

Lemma pid_cell_round_trip (p : pinfo) :
  int_of_str (cell_pid (row_of p)) = Return (pid p).
Proof. apply int_of_str_str_int. Qed.

(** X3.  A tick that runs to its end replaces the process table by one row
    per process of the top ten, in their order: at most ten rows, whatever
    the table held before, and the pid cell of every row reads back, with
    [int], as the pid of its process.  A tick that does not get as far as
    the process list leaves the table as it was. *)
Theorem process_table_shows_top_ten (h : host) (m : monitor) :
  (forall procs : list pinfo,
      completes h = true ->
      psutil_process_iter h = Return procs ->
      let table := process_table (fst (update_stats h m)) in
      table = map row_of (top_ten procs) /\
      List.length table = Nat.min 10 (List.length procs) /\
      (List.length table <= 10)%nat /\
      forall (row : nat) (r : table_row),
        nth_error table row = Some r ->
        exists p : pinfo,
          nth_error (top_ten procs) row = Some p /\ In p procs /\
          r = row_of p /\ int_of_str (cell_pid r) = Return (pid p)) /\
  (completes h = false ->
   process_table (fst (update_stats h m)) = process_table m).
Proof.
  split.
  - intros procs Hdone Hiter table. subst table.
    rewrite update_stats_table, Hiter.
    unfold completes in Hdone.
    destruct (sample h) as [s|]; [| discriminate Hdone].
    split; [reflexivity |].
    assert (Hlen : List.length (map row_of (top_ten procs)) =
                   Nat.min 10 (List.length procs)).
    { unfold top_ten.
      rewrite length_map, length_firstn,
        (Permutation_length (sorted_desc_perm procs)). reflexivity. }
    split; [exact Hlen |]. split; [rewrite Hlen; lia |].
    intros row r Hrow. rewrite nth_error_map in Hrow.
    destruct (nth_error (top_ten procs) row) as [p|] eqn:Hp;
      [| discriminate Hrow].
    injection Hrow as <-. exists p. split; [reflexivity |].
    split; [| split; [reflexivity | apply pid_cell_round_trip]].
    apply nth_error_In in Hp. unfold top_ten in Hp.
    apply (Permutation_in _ (sorted_desc_perm procs)).
    rewrite <- (firstn_skipn 10 (sorted_desc procs)).
    apply in_or_app. left. exact Hp.
  - intros Hfail. rewrite update_stats_table. unfold completes in Hfail.
    destruct (sample h); [| reflexivity].
    destruct (psutil_process_iter h); [discriminate Hfail | reflexivity].
Qed.

Lemma process_table_shows_top_ten_witness :
  exists m0,
    __init__ Sample.laptop = Return m0 /\
    completes Sample.laptop = true /\
    List.length (process_table (fst (update_stats Sample.laptop m0))) =
      Nat.min 10 (List.length
                    [mk_pinfo 1 "systemd" (0 # 1) (1 # 10);
                     mk_pinfo 4242 "python3" (73 # 10) (21 # 10);
                     mk_pinfo 977 "Xorg" (31 # 10) (15 # 10)]).
Proof.
  eexists. split; [reflexivity |]. split; [reflexivity |].
  match goal with
  | |- context [update_stats Sample.laptop ?m] =>
      pose proof (proj1 (process_table_shows_top_ten Sample.laptop m)
                    _ eq_refl eq_refl) as H
  end.
  cbv zeta in H. exact (proj1 (proj2 H)).
Defined.

(** ** The action handlers *)

Lemma kill_process_returns (h : host) (pid : Z) :
  exists (ok : bool) (message : string),
    kill_process h pid = Return (ok, message).
Proof.
  destruct (os_kill h pid SIGTERM) as [[]|e] eqn:Hkill.
  - eexists; eexists. unfold kill_process. rewrite Hkill. reflexivity.
  - eexists; eexists. exact (kill_process_raised h pid e Hkill).
Qed.

Lemma report_run (h : host) (ok : bool) (message : string) (m : monitor) :
  mbind (log_message h message)
    (fun _ => if ok then QMessageBox_information "Success" message
              else QMessageBox_warning "Error" message) m =
  (reported h ok message m, Return tt).
Proof. destruct ok; reflexivity. Qed.

(** The confirmation box for a row. *)
Lemma kill_selected_confirmed (h : host) (m : monitor) (row : nat)
    (r : table_row) (pid : Z) (ok : bool) (message : string) :
  selected_row m = Some row ->
  nth_error (process_table m) row = Some r ->
  int_of_str (cell_pid r) = Return pid ->
  kill_process h pid = Return (ok, message) ->
  kill_selected_process h true m =
  (reported h ok message
     (set_message_boxes
        (message_boxes m ++
         [mk_box Question "Confirm Termination"
            ("Are you sure you want to terminate process:" ++ newline ++
             newline ++ cell_name r ++ " (PID: " ++ str_int pid ++ ")?")])
        m),
   Return tt).
Proof.
  intros Hsel Hrow Hpid Hkill.
  pose proof (item_found m row r Hrow) as Hitem.
  unfold kill_selected_process.
  rewrite (mbind_run _ _ m m (Some row)) by (unfold self; now rewrite Hsel).
  rewrite (mbind_run _ _ m m r Hitem).
  rewrite (mbind_run _ _ m m pid) by (unfold call; now rewrite Hpid).
  rewrite (mbind_run _ _ m m r Hitem).
  rewrite (mbind_run _ _ m _ true eq_refl).
  cbn [when].
  rewrite (mbind_run _ _ _ _ _ (f_equal (pair _) Hkill)).
  apply report_run.
Qed.

(** X4.  Ending a process acts on the row the user selected: after a tick
    that ran to its end and the selection of a row of the table, a
    confirmed click asks [os.kill] to signal the pid of the process shown
    in that row, names that process and pid in the confirmation box, writes
    the message of [kill_process] to the log and shows it in a box, as
    information when the signal was delivered and as a warning when not;
    the handler returns normally. *)
Theorem end_process_acts_on_selected_row (h h' : host) (m : monitor)
    (procs : list pinfo) (row : nat) (p : pinfo) :
  completes h = true ->
  psutil_process_iter h = Return procs ->
  nth_error (top_ten procs) row = Some p ->
  exists m1 : monitor,
    run_events [Timeout h; RowSelected (Some row)] m = (m1, Return tt) /\
    exists (ok : bool) (message : string),
      kill_process h' (pid p) = Return (ok, message) /\
      (ok = true <-> os_kill h' (pid p) SIGTERM = Return tt) /\
      kill_selected_process h' true m1 =
      (reported h' ok message
         (set_message_boxes
            (message_boxes m1 ++
             [mk_box Question "Confirm Termination"
                ("Are you sure you want to terminate process:" ++ newline ++
                 newline ++ name p ++ " (PID: " ++ str_int (pid p) ++ ")?")])
            m1),
       Return tt).
Proof.
  intros Hdone Hiter Hrow.
  exists (set_selected_row (Some row) (fst (update_stats h m))). split.
  - cbn [run_events dispatch].
    pose proof (proj2 (update_stats_outcome h m) Hdone) as Hret.
    destruct (update_stats h m) as [m' out] eqn:Htick. cbn [snd fst] in *.
    subst out. rewrite (mbind_run _ _ m m' tt Htick).
    reflexivity.
  - destruct (kill_process_returns h' (pid p)) as (ok & message & Hkill).
    exists ok, message. split; [exact Hkill |]. split.
    + destruct (os_kill h' (pid p) SIGTERM) as [[]|e] eqn:Hos.
      * unfold kill_process in Hkill. rewrite Hos in Hkill.
        injection Hkill as <- _. split; reflexivity.
      * rewrite (kill_process_raised h' (pid p) e Hos) in Hkill.
        injection Hkill as <- _. split; intros E; discriminate E.
    + assert (Htable : nth_error
                (process_table
                   (set_selected_row (Some row) (fst (update_stats h m))))
                row = Some (row_of p)).
      { cbn [process_table set_selected_row].
        rewrite update_stats_table, Hiter. unfold completes in Hdone.
        destruct (sample h); [| discriminate Hdone].
        now rewrite nth_error_map, Hrow. }
      exact (kill_selected_confirmed h'
               (set_selected_row (Some row) (fst (update_stats h m)))
               row (row_of p) (pid p) ok message
               eq_refl Htable (pid_cell_round_trip p) Hkill).
Qed.

Lemma end_process_acts_on_selected_row_witness :
  exists m0,
    __init__ Sample.laptop = Return m0 /\
    completes Sample.laptop = true /\
    nth_error
      (top_ten [mk_pinfo 1 "systemd" (0 # 1) (1 # 10);
                mk_pinfo 4242 "python3" (73 # 10) (21 # 10);
                mk_pinfo 977 "Xorg" (31 # 10) (15 # 10)]) 1 =
      Some (mk_pinfo 977 "Xorg" (31 # 10) (15 # 10)) /\
    exists m1 : monitor,
      run_events [Timeout Sample.laptop; RowSelected (Some 1%nat)] m0 =
        (m1, Return tt) /\
      exists (ok : bool) (message : string),
        kill_process Sample.process_gone 977 = Return (ok, message).
Proof.
  eexists. split; [reflexivity |]. split; [reflexivity |].
  split; [reflexivity |].
  match goal with
  | |- context [run_events _ ?m] =>
      destruct (end_process_acts_on_selected_row Sample.laptop
                  Sample.process_gone m _ 1%nat _ eq_refl eq_refl eq_refl)
        as (m1 & Hrun & ok & message & Hkill & _)
  end.
  exists m1. split; [exact Hrun |]. exists ok, message. exact Hkill.
Defined.

Lemma mbind_raise {A B : Type} (c : method A) (k : A -> method B)
    (m m' : monitor) (e : exn) :
  c m = (m', Raise e) -> mbind c k m = (m', Raise e).
Proof. intros Hc. unfold mbind. now rewrite Hc. Qed.

(** The handler when the user answers No. *)
Lemma kill_selected_declined (h : host) (m : monitor) :
  kill_selected_process h false m =
  match selected_row m with
  | None =>
      (set_message_boxes
         (message_boxes m ++
          [mk_box Warning "No Selection"
             "Please select a process to terminate."]) m,
       Return tt)
  | Some row =>
      match nth_error (process_table m) row with
      | None =>
          (m, Raise (mk_exn AttributeError
                       "'NoneType' object has no attribute 'text'"))
      | Some r =>
          match int_of_str (cell_pid r) with
          | Raise e => (m, Raise e)
          | Return pid =>
              (set_message_boxes
                 (message_boxes m ++
                  [mk_box Question "Confirm Termination"
                     ("Are you sure you want to terminate process:" ++
                      newline ++ newline ++ cell_name r ++ " (PID: " ++
                      str_int pid ++ ")?")]) m,
               Return tt)
          end
      end
  end.
Proof.
  unfold kill_selected_process.
  rewrite (mbind_run _ _ m m (selected_row m) eq_refl).
  destruct (selected_row m) as [row|]; [| reflexivity].
  destruct (nth_error (process_table m) row) as [r|] eqn:Hrow.
  - pose proof (item_found m row r Hrow) as Hitem.
    rewrite (mbind_run _ _ m m r Hitem).
    destruct (int_of_str (cell_pid r)) as [pid|e] eqn:Hpid.
    + rewrite (mbind_run _ _ m m pid) by reflexivity.
      rewrite (mbind_run _ _ m m r Hitem).
      rewrite (mbind_run _ _ m _ false eq_refl). reflexivity.
    + apply mbind_raise. reflexivity.
  - apply mbind_raise. unfold item.
    rewrite (mbind_run _ _ m m (process_table m) eq_refl).
    now rewrite Hrow.
Qed.

(** X5.  Without a selected row the End Process handler only warns, and
    when the user answers No to the confirmation it only shows that
    confirmation: in both cases nothing is written to the log, and what
    the handler does when the answer is No does not depend on the host, so
    not on what [os.kill] would do. *)
Theorem end_process_needs_selection_and_consent (h : host) (m : monitor) :
  (selected_row m = None ->
   forall yes : bool,
     kill_selected_process h yes m =
     (set_message_boxes
        (message_boxes m ++
         [mk_box Warning "No Selection"
            "Please select a process to terminate."]) m,
      Return tt)) /\
  (forall (row : nat) (r : table_row) (pid : Z),
      selected_row m = Some row ->
      nth_error (process_table m) row = Some r ->
      int_of_str (cell_pid r) = Return pid ->
      kill_selected_process h false m =
      (set_message_boxes
         (message_boxes m ++
          [mk_box Question "Confirm Termination"
             ("Are you sure you want to terminate process:" ++ newline ++
              newline ++ cell_name r ++ " (PID: " ++ str_int pid ++ ")?")])
         m,
       Return tt)) /\
  log_output (fst (kill_selected_process h false m)) = log_output m /\
  (forall h' : host,
      kill_selected_process h' false m = kill_selected_process h false m).
Proof.
  split; [| split; [| split]].
  - intros Hsel yes. unfold kill_selected_process.
    rewrite (mbind_run _ _ m m None) by (unfold self; now rewrite Hsel).
    reflexivity.
  - intros row r pid Hsel Hrow Hpid.
    now rewrite kill_selected_declined, Hsel, Hrow, Hpid.
  - rewrite kill_selected_declined.
    destruct (selected_row m) as [row|]; [| reflexivity].
    destruct (nth_error (process_table m) row) as [r|]; [| reflexivity].
    destruct (int_of_str (cell_pid r)); reflexivity.
  - intros h'. now rewrite !kill_selected_declined.
Qed.

Lemma end_process_needs_selection_and_consent_witness :
  exists m0,
    __init__ Sample.laptop = Return m0 /\
    selected_row m0 = None /\
    snd (kill_selected_process Sample.process_gone true m0) = Return tt /\
    log_output (fst (kill_selected_process Sample.process_gone true m0)) = [].
Proof.
  eexists. split; [reflexivity |]. split; [reflexivity |].
  match goal with
  | |- context [kill_selected_process _ true ?m] =>
      pose proof (proj1 (end_process_needs_selection_and_consent
                           Sample.process_gone m) eq_refl true) as H
  end.
  rewrite H. split; reflexivity.
Defined.

Lemma action_run (h : host) (m : monitor) (helper : result (bool * string))
    (ok : bool) (message : string) :
  helper = Return (ok, message) ->
  mbind (call helper)
    (fun outcome =>
       let '(success, message) := outcome in
       mbind (log_message h message)
         (fun _ => if success then QMessageBox_information "Success" message
                   else QMessageBox_warning "Error" message)) m =
  (reported h ok message m, Return tt).
Proof.
  intros Hhelper.
  rewrite (mbind_run _ _ m m (ok, message))
    by (unfold call; now rewrite Hhelper).
  apply report_run.
Qed.

Lemma clear_ram_cache_returns (h : host) :
  exists (ok : bool) (message : string),
    clear_ram_cache h = Return (ok, message) /\
    (ok = true <-> command_fails h ram_cache_command false = false).
Proof.
  rewrite clear_ram_cache_cases.
  destruct (command_fails h ram_cache_command false) eqn:Hfail.
  - destruct (subprocess_run_checked_fails h _ _ Hfail) as [e He].
    rewrite He. eexists; eexists. split; [reflexivity |].
    split; intros E; discriminate E.
  - rewrite (subprocess_run_checked_ok h _ _ Hfail).
    eexists; eexists. split; [reflexivity |]. split; reflexivity.
Qed.

Lemma set_power_mode_returns (h : host) (mode : string) :
  exists (ok : bool) (message : string),
    set_power_mode h mode = Return (ok, message) /\
    (ok = true <-> command_fails h (power_mode_command mode) false = false) /\
    (ok = true -> message = "Power mode set to " ++ mode).
Proof.
  rewrite set_power_mode_cases.
  destruct (command_fails h (power_mode_command mode) false) eqn:Hfail.
  - destruct (subprocess_run_checked_fails h _ _ Hfail) as [e He].
    rewrite He. eexists; eexists. split; [reflexivity |].
    split; [split |]; intros E; discriminate E.
  - rewrite (subprocess_run_checked_ok h _ _ Hfail).
    eexists; eexists. split; [reflexivity |].
    split; [split |]; reflexivity.
Qed.

Lemma clear_storage_cache_returns (h : host) :
  exists (ok : bool) (message : string),
    clear_storage_cache h = Return (ok, message).
Proof.
  rewrite clear_storage_cache_cases.
  destruct (run_command h storage_cache_command true);
    [destruct (path_exists h (expanduser h "~/.cache"));
     [destruct (os_listdir h (expanduser h "~/.cache")) |] |];
    eexists; eexists; reflexivity.
Qed.

Lemma apply_power_mode_reports (h : host) (m : monitor) :
  exists (ok : bool) (message : string),
    set_power_mode h (power_combo m) = Return (ok, message) /\
    (ok = true <->
     command_fails h (power_mode_command (power_combo m)) false = false) /\
    apply_power_mode h m = (reported h ok message m, Return tt).
Proof.
  destruct (set_power_mode_returns h (power_combo m))
    as (ok & message & Hret & Hok & _).
  exists ok, message. split; [exact Hret |]. split; [exact Hok |].
  unfold apply_power_mode.
  rewrite (mbind_run _ _ m m (power_combo m) eq_refl).
  exact (action_run h m _ ok message Hret).
Qed.

Lemma clear_ram_cache_action_reports (h : host) (m : monitor) :
  exists (ok : bool) (message : string),
    clear_ram_cache h = Return (ok, message) /\
    (ok = true <-> command_fails h ram_cache_command false = false) /\
    clear_ram_cache_action h m = (reported h ok message m, Return tt).
Proof.
  destruct (clear_ram_cache_returns h) as (ok & message & Hret & Hok).
  exists ok, message. split; [exact Hret |]. split; [exact Hok |].
  exact (action_run h m _ ok message Hret).
Qed.

Lemma clear_storage_cache_action_reports (h : host) (m : monitor) :
  exists (ok : bool) (message : string),
    clear_storage_cache h = Return (ok, message) /\
    clear_storage_cache_action h m = (reported h ok message m, Return tt).
Proof.
  destruct (clear_storage_cache_returns h) as (ok & message & Hret).
  exists ok, message. split; [exact Hret |].
  exact (action_run h m _ ok message Hret).
Qed.

(** X6.  The three handlers that start a command never raise, whatever the
    host answers.  Each writes exactly one line to the log, the message of
    its helper with the time, and shows that same message in one box: an
    information box titled Success when the helper reported True, a
    warning box titled Error when it reported False.  For the RAM cache
    and the power profile, True is reported exactly when the command ran
    and exited with status 0. *)
Theorem action_handlers_report_once (h : host) (m : monitor) :
  (exists (ok : bool) (message : string),
      set_power_mode h (power_combo m) = Return (ok, message) /\
      (ok = true <->
       command_fails h (power_mode_command (power_combo m)) false = false) /\
      apply_power_mode h m = (reported h ok message m, Return tt)) /\
  (exists (ok : bool) (message : string),
      clear_ram_cache h = Return (ok, message) /\
      (ok = true <-> command_fails h ram_cache_command false = false) /\
      clear_ram_cache_action h m = (reported h ok message m, Return tt)) /\
  (exists (ok : bool) (message : string),
      clear_storage_cache h = Return (ok, message) /\
      clear_storage_cache_action h m = (reported h ok message m, Return tt)).
Proof.
  split; [apply apply_power_mode_reports |].
  split; [apply clear_ram_cache_action_reports |].
  apply clear_storage_cache_action_reports.
Qed.

(** X7.  The profile the user chooses is the one applied: after choosing
    [mode] in the power profile box, a click on Apply runs
    [sudo powerprofilesctl set mode]; when that command exits with status
    0 the log gets "Power mode set to mode" and an information box shows
    it, and when the command fails a warning is logged and shown
    instead. *)
Theorem chosen_power_mode_is_applied (h : host) (m : monitor)
    (mode : string) :
  (command_fails h (power_mode_command mode) false = false ->
   run_events [PowerChosen mode; ApplyClicked h] m =
   (reported h true ("Power mode set to " ++ mode) (set_power_combo mode m),
    Return tt)) /\
  (command_fails h (power_mode_command mode) false = true ->
   exists e : exn,
     subprocess_run h (power_mode_command mode) false true = Raise e /\
     run_events [PowerChosen mode; ApplyClicked h] m =
     (reported h false ("Failed to set power mode: " ++ str e)
        (set_power_combo mode m),
      Return tt)).
Proof.
  assert (Hrun : forall ok message,
             set_power_mode h mode = Return (ok, message) ->
             run_events [PowerChosen mode; ApplyClicked h] m =
             (reported h ok message (set_power_combo mode m), Return tt)).
  { intros ok message Hret.
    assert (Happly : apply_power_mode h (set_power_combo mode m) =
                     (reported h ok message (set_power_combo mode m),
                      Return tt)).
    { unfold apply_power_mode.
      rewrite (mbind_run _ _ (set_power_combo mode m)
                 (set_power_combo mode m) mode eq_refl).
      exact (action_run h _ _ ok message Hret). }
    rewrite run_events_cons. cbn [dispatch assign fst snd].
    rewrite run_events_cons. cbn [dispatch]. rewrite Happly. reflexivity. }
  split.
  - intros Hok. apply Hrun.
    now rewrite set_power_mode_cases, (subprocess_run_checked_ok h _ _ Hok).
  - intros Hfail.
    destruct (subprocess_run_checked_fails h _ _ Hfail) as [e He].
    exists e. split; [exact He |]. apply Hrun.
    now rewrite set_power_mode_cases, He.
Qed.

Lemma chosen_power_mode_is_applied_witness :
  exists m0,
    __init__ Sample.laptop = Return m0 /\
    command_fails Sample.laptop (power_mode_command "performance") false =
      false /\
    run_events [PowerChosen "performance"; ApplyClicked Sample.laptop] m0 =
      (reported Sample.laptop true ("Power mode set to " ++ "performance")
         (set_power_combo "performance" m0),
       Return tt).
Proof.
  eexists. split; [reflexivity |]. split; [reflexivity |].
  match goal with
  | |- run_events _ ?m = _ =>
      exact (proj1 (chosen_power_mode_is_applied Sample.laptop m
                      "performance") eq_refl)
  end.
Defined.

(** ** The action log *)

Lemma two_digits_length (n : nat) :
  (n < 100)%nat -> String.length (two_digits n) = 2%nat.
Proof.
  intros Hn.
  do 100 (destruct n as [|n]; [reflexivity |]). lia.
Qed.

Lemma reported_log (h : host) (ok : bool) (message : string) (m : monitor) :
  log_output (reported h ok message m) =
  (log_output m ++ [log_line h message])%list.
Proof. reflexivity. Qed.

(** What one event adds to the log. *)
Lemma dispatch_log (ev : event) (m : monitor) :
  exists added : list string,
    log_output (fst (dispatch ev m)) = (log_output m ++ added)%list /\
    (List.length added <= if is_action ev then 1 else 0)%nat /\
    Forall (fun line => exists h message, line = log_line h message) added.
Proof.
  assert (Hnone : forall m', log_output m' = log_output m ->
            exists added : list string,
              log_output m' = (log_output m ++ added)%list /\
              (List.length added <= 0)%nat /\
              Forall (fun line => exists h message,
                          line = log_line h message) added).
  { intros m' Hm'. exists []. rewrite app_nil_r.
    split; [exact Hm' |]. split; [reflexivity | constructor]. }
  assert (Hone : forall h ok message,
            exists added : list string,
              log_output (reported h ok message m) =
                (log_output m ++ added)%list /\
              (List.length added <= 1)%nat /\
              Forall (fun line => exists h message,
                          line = log_line h message) added).
  { intros h ok message. exists [log_line h message].
    split; [reflexivity |]. split; [reflexivity |].
    constructor; [| constructor]. now exists h, message. }
  destruct ev as [h|h yes|h|h|h|row|mode]; cbn [dispatch is_action].
  - apply Hnone. apply update_stats_frame.
  - destruct yes.
    + destruct (selected_row m) as [row|] eqn:Hsel.
      * destruct (nth_error (process_table m) row) as [r|] eqn:Hrow.
        -- destruct (int_of_str (cell_pid r)) as [pid|e] eqn:Hpid.
           ++ destruct (kill_process_returns h pid) as (ok & message & Hkill).
              rewrite (kill_selected_confirmed h m row r pid ok message
                         Hsel Hrow Hpid Hkill).
              cbn [fst]. exists [log_line h message].
              split; [reflexivity |]. split; [reflexivity |].
              constructor; [| constructor]. now exists h, message.
           ++ exists []. rewrite app_nil_r. split; [| split; [cbn; lia | constructor]].
              unfold kill_selected_process.
              rewrite (mbind_run _ _ m m (Some row))
                by (unfold self; now rewrite Hsel).
              rewrite (mbind_run _ _ m m r (item_found m row r Hrow)).
              rewrite (mbind_raise _ _ m m e); [reflexivity |].
              unfold call. now rewrite Hpid.
        -- exists []. rewrite app_nil_r. split; [| split; [cbn; lia | constructor]].
           unfold kill_selected_process.
           rewrite (mbind_run _ _ m m (Some row))
             by (unfold self; now rewrite Hsel).
           rewrite (mbind_raise _ _ m m
                      (mk_exn AttributeError
                         "'NoneType' object has no attribute 'text'"));
             [reflexivity |].
           unfold item. rewrite (mbind_run _ _ m m (process_table m) eq_refl).
           now rewrite Hrow.
      * exists []. rewrite app_nil_r. split; [| split; [cbn; lia | constructor]].
        unfold kill_selected_process.
        rewrite (mbind_run _ _ m m None) by (unfold self; now rewrite Hsel).
        reflexivity.
    + exists []. rewrite app_nil_r. split; [| split; [cbn; lia | constructor]].
      rewrite kill_selected_declined.
      destruct (selected_row m) as [row|]; [| reflexivity].
      destruct (nth_error (process_table m) row) as [r|]; [| reflexivity].
      destruct (int_of_str (cell_pid r)); reflexivity.
  - destruct (apply_power_mode_reports h m) as (ok & message & _ & _ & Hrun).
    rewrite Hrun. apply Hone.
  - destruct (clear_ram_cache_action_reports h m)
      as (ok & message & _ & _ & Hrun).
    rewrite Hrun. apply Hone.
  - destruct (clear_storage_cache_action_reports h m)
      as (ok & message & _ & Hrun).
    rewrite Hrun. apply Hone.
  - apply Hnone. reflexivity.
  - apply Hnone. reflexivity.
Qed.

Lemma action_handlers_report_once_witness :
  command_fails Sample.command_exits_1 ram_cache_command false = true /\
  exists (ok : bool) (message : string) (m0 : monitor),
    __init__ Sample.laptop = Return m0 /\
    clear_ram_cache Sample.command_exits_1 = Return (ok, message) /\
    clear_ram_cache_action Sample.command_exits_1 m0 =
      (reported Sample.command_exits_1 ok message m0, Return tt).
Proof.
  split; [reflexivity |].
  destruct (__init__ Sample.laptop) as [m0|e] eqn:Hinit;
    [| discriminate Hinit].
  destruct (proj1 (proj2 (action_handlers_report_once
                            Sample.command_exits_1 m0)))
    as (ok & message & Hret & _ & Hrun).
  exists ok, message, m0. split; [reflexivity |]. split; assumption.
Defined.

Lemma length_append (s t : string) :
  String.length (s ++ t) = (String.length s + String.length t)%nat.
Proof. induction s as [|c s IH]; cbn; [reflexivity | now rewrite IH]. Qed.

(** X8.  The action log only grows.  After any sequence of events the log
    is the log as it was followed by the lines added; every added line is
    a time stamp in brackets followed by a message; at most one line is
    added per click on an action button, and none by the timer or by a
    selection.  The time stamp of a valid time of day has eight
    characters. *)
Theorem log_only_grows (evs : list event) (m : monitor) :
  (exists added : list string,
      log_output (fst (run_events evs m)) = (log_output m ++ added)%list /\
      (List.length added <= List.length (filter is_action evs))%nat /\
      Forall (fun line => exists h message, line = log_line h message)
        added) /\
  (forall hh mm ss : nat,
      (hh < 24)%nat -> (mm < 60)%nat -> (ss < 60)%nat ->
      String.length (strftime_HMS (hh, mm, ss)) = 8%nat).
Proof.
  split.
  - revert m. induction evs as [|ev evs IH]; intros m.
    + exists []. rewrite app_nil_r. split; [reflexivity |].
      split; [reflexivity | constructor].
    + rewrite run_events_cons.
      destruct (dispatch_log ev m) as (first & Hfirst & Hcount & Hlines).
      assert (Hlen : (List.length first <=
                      List.length (filter is_action [ev]))%nat)
        by (cbn [filter]; destruct (is_action ev); exact Hcount).
      destruct (snd (dispatch ev m)).
      * destruct (IH (fst (dispatch ev m))) as (more & Hmore & Hn & Hl).
        exists (first ++ more)%list. rewrite Hmore, Hfirst, app_assoc.
        split; [reflexivity |]. split; [| now apply Forall_app].
        change (ev :: evs) with ([ev] ++ evs)%list.
        rewrite filter_app, !length_app. lia.
      * exists first. cbn [fst]. split; [exact Hfirst |].
        split; [| exact Hlines].
        change (ev :: evs) with ([ev] ++ evs)%list.
        rewrite filter_app, length_app. lia.
  - intros hh mm ss Hh Hm Hs. unfold strftime_HMS.
    assert (Hlen : forall a b c : string,
               String.length (a ++ ":" ++ b ++ ":" ++ c) =
               (String.length a + 1 + String.length b + 1 +
                String.length c)%nat).
    { intros a b c. rewrite !length_append. cbn [String.length]. lia. }
    rewrite Hlen, !two_digits_length by lia. reflexivity.
Qed.

Lemma log_only_grows_witness :
  (9 < 24)%nat /\ (5 < 60)%nat /\ (7 < 60)%nat /\
  String.length (strftime_HMS (9, 5, 7)%nat) = 8%nat.
Proof.
  assert (H9 : (9 < 24)%nat) by lia.
  assert (H5 : (5 < 60)%nat) by lia.
  assert (H7 : (7 < 60)%nat) by lia.
  repeat (split; [assumption |]).
  exact (proj2 (log_only_grows [] (mk_monitor 0 (NetworkInfo.mk 0 0) ""
                  new_bar "" new_series "" new_bar "" new_series "" new_bar
                  "" "" "" new_bar "" [] None "" [] []))
           9%nat 5%nat 7%nat H9 H5 H7).
Defined.

(** ** The charts and their axes *)

Lemma update_stats_axes (h : host) (m : monitor) :
  axis_x (cpu_series (fst (update_stats h m))) =
    match sample h with
    | Some _ => (Z.max 0 (x m + 1 - 60), x m + 1)
    | None => axis_x (cpu_series m)
    end /\
  axis_x (ram_series (fst (update_stats h m))) =
    match sample h with
    | Some _ => (Z.max 0 (x m + 1 - 60), x m + 1)
    | None => axis_x (ram_series m)
    end.
Proof.
  pose proof (update_stats_charts h m) as Hc. cbv zeta in Hc.
  destruct (sample h) as [[cpu ram]|].
  - destruct Hc as (_ & _ & _ & Hcpu & Hram). now rewrite Hcpu, Hram.
  - destruct Hc as (_ & Hcpu & Hram). now rewrite Hcpu, Hram.
Qed.

Lemma axes_dispatch (ev : event) (m : monitor) :
  0 <= x m ->
  axis_x (cpu_series m) = axis_for (x m) ->
  axis_x (ram_series m) = axis_for (x m) ->
  0 <= x (fst (dispatch ev m)) /\
  x m <= x (fst (dispatch ev m)) /\
  axis_x (cpu_series (fst (dispatch ev m))) =
    axis_for (x (fst (dispatch ev m))) /\
  axis_x (ram_series (fst (dispatch ev m))) =
    axis_for (x (fst (dispatch ev m))).
Proof.
  intros Hx Hcpu Hram. destruct (is_timeout ev) eqn:Hev.
  - destruct ev as [h| | | | | |]; try discriminate Hev. cbn [dispatch].
    destruct (update_stats_axes h m) as [Ha Hb].
    pose proof (update_stats_charts h m) as Hc. cbv zeta in Hc.
    rewrite Ha, Hb. destruct (sample h) as [[cpu ram]|].
    + destruct Hc as (Hx' & _). rewrite Hx'. unfold axis_for.
      replace (x m + 1 =? 0)%Z with false
        by (symmetry; apply Z.eqb_neq; lia).
      repeat split; lia.
    + destruct Hc as (Hx' & _). rewrite Hx'.
      repeat split; try assumption; lia.
  - rewrite (dispatch_keeps_x ev Hev m), (dispatch_keeps_cpu_series ev Hev m),
      (dispatch_keeps_ram_series ev Hev m).
    repeat split; try assumption; lia.
Qed.

Lemma axes_run_events (evs : list event) :
  forall m : monitor,
    0 <= x m ->
    axis_x (cpu_series m) = axis_for (x m) ->
    axis_x (ram_series m) = axis_for (x m) ->
    x m <= x (fst (run_events evs m)) /\
    axis_x (cpu_series (fst (run_events evs m))) =
      axis_for (x (fst (run_events evs m))) /\
    axis_x (ram_series (fst (run_events evs m))) =
      axis_for (x (fst (run_events evs m))).
Proof.
  induction evs as [|ev evs IH]; intros m Hx Hcpu Hram.
  - cbn. repeat split; try assumption; lia.
  - rewrite run_events_cons.
    destruct (axes_dispatch ev m Hx Hcpu Hram) as (Hx' & Hle & Hcpu' & Hram').
    destruct (snd (dispatch ev m)).
    + destruct (IH _ Hx' Hcpu' Hram') as (Hle2 & Hc2 & Hr2).
      repeat split; try assumption; lia.
    + cbn [fst]. repeat split; assumption.
Qed.

Lemma lastn_indices {A : Type} (l : list A) :
  map fst (lastn 60 (enumerate_from 0 l)) =
  map (fun i => Z.of_nat (List.length l - 60) + Z.of_nat i)
      (seq 0 (Nat.min (List.length l) 60)).
Proof.
  now rewrite lastn_enumerate_from, enumerate_from_indices, lastn_length.
Qed.

(** X9.  The charts stay consistent.  After any sequence of events on a
    window that was constructed, the tick counter has not decreased, the
    CPU and RAM histories carry the same tick indices, both x axes are set
    to the range of the tick counter (0..60 before the first sample,
    max(0, x-60)..x afterwards), and every retained point lies within that
    range. *)
Theorem charts_stay_on_axis (h0 : host) (m0 : monitor) (evs : list event) :
  __init__ h0 = Return m0 ->
  window_ok (fst (run_events evs m0)) /\
  x m0 <= x (fst (run_events evs m0)).
Proof.
  intros Hinit.
  pose proof (charts_hold_init h0 m0 Hinit) as Hcharts.
  assert (Hstart : x m0 = 0 /\ axis_x (cpu_series m0) = (0, 60) /\
                   axis_x (ram_series m0) = (0, 60)).
  { unfold __init__ in Hinit. destruct (get_network_info h0);
      [| discriminate Hinit]. cbn in Hinit. injection Hinit as <-.
    repeat split. }
  destruct Hstart as (Hx0 & Hcpu0 & Hram0).
  destruct (axes_run_events evs m0) as (Hle & Hcpu & Hram);
    try (rewrite Hx0; (reflexivity || assumption)).
  destruct (run_events_charts_any evs m0 [] [] Hcharts)
    as (cpus & rams & Hx & Hlen & Hpc & Hpr).
  split; [| exact Hle].
  unfold window_ok. rewrite Hcpu, Hram, Hpc, Hpr, !lastn_indices, Hlen.
  split; [lia |]. split; [reflexivity |].
  split; [reflexivity |]. split; [reflexivity |].
  intros i Hi. apply in_map_iff in Hi as (j & <- & Hj).
  apply in_seq in Hj. rewrite Hx. unfold axis_for.
  destruct (Z.of_nat (List.length cpus) =? 0)%Z eqn:Hzero.
  - apply Z.eqb_eq in Hzero. lia.
  - cbn [fst snd]. lia.
Qed.

Lemma charts_stay_on_axis_witness :
  exists m0,
    __init__ Sample.laptop = Return m0 /\
    window_ok
      (fst (run_events
              [Timeout Sample.laptop; ClearRamClicked Sample.command_exits_1;
               Timeout Sample.disk_fails] m0)).
Proof.
  eexists. split; [reflexivity |].
  exact (proj1 (charts_stay_on_axis Sample.laptop _
                  [Timeout Sample.laptop;
                   ClearRamClicked Sample.command_exits_1;
                   Timeout Sample.disk_fails] eq_refl)).
Defined.

(** ** The battery card *)

Lemma get_battery_info_none (h : host) :
  psutil_sensors_battery h = Return None -> get_battery_info h = Return None.
Proof. intros Hb. unfold get_battery_info. now rewrite Hb. Qed.

(** X10.  When no battery is found, the tick writes "No battery detected",
    puts the bar at 0 and leaves its colour alone: the bar keeps the colour
    of the last tick that saw a battery.  So after a tick with a battery
    and a tick without, the bar is at 0 in the colour chosen for the
    battery of the first. *)
Theorem absent_battery_keeps_bar_colour :
  (forall (h : host) (m : monitor) (cpu : Q) (ram_info : svmem)
          (usage : sdiskusage) (net : snetio),
      readings h = Return (cpu, ram_info, None, usage, net) ->
      let m' := fst (update_stats h m) in
      battery_label m' = "No battery detected" /\
      value (battery_bar m') = 0 /\
      chunk_color (battery_bar m') = chunk_color (battery_bar m)) /\
  (forall (h1 h2 : host) (m : monitor) (cpu1 cpu2 : Q) (ram1 ram2 : svmem)
          (battery1 : option sbattery) (usage1 usage2 : sdiskusage)
          (net1 net2 : snetio) (info : BatteryInfo.t),
      readings h1 = Return (cpu1, ram1, battery1, usage1, net1) ->
      get_battery_info h1 = Return (Some info) ->
      readings h2 = Return (cpu2, ram2, None, usage2, net2) ->
      let m2 := fst (update_stats h2 (fst (update_stats h1 m))) in
      battery_label m2 = "No battery detected" /\
      value (battery_bar m2) = 0 /\
      chunk_color (battery_bar m2) = select_color (battery_monitored info)).
Proof.
  assert (Hnone : forall h m cpu ram_info usage net,
             readings h = Return (cpu, ram_info, None, usage, net) ->
             battery_label (fst (update_stats h m)) = "No battery detected" /\
             value (battery_bar (fst (update_stats h m))) = 0 /\
             chunk_color (battery_bar (fst (update_stats h m))) =
               chunk_color (battery_bar m)).
  { intros h m cpu ram_info usage net Hread.
    destruct (readings_battery h _ _ _ _ _ Hread) as [Hb _].
    pose proof (update_stats_battery_card h m _ _ _ _ _ None Hread
                  (get_battery_info_none h Hb)) as [Hlabel Hbar].
    rewrite Hlabel, Hbar. repeat split. }
  split; [exact Hnone |].
  intros h1 h2 m cpu1 cpu2 ram1 ram2 battery1 usage1 usage2 net1 net2 info
    Hread1 Hinfo Hread2 m2. subst m2.
  destruct (Hnone h2 (fst (update_stats h1 m)) _ _ _ _ Hread2)
    as (Hlabel & Hvalue & Hcolour).
  destruct (update_stats_battery_card h1 m _ _ _ _ _ _ Hread1 Hinfo)
    as [_ Hbar].
  rewrite Hlabel, Hvalue, Hcolour, Hbar. repeat split.
Qed.

Lemma absent_battery_keeps_bar_colour_witness :
  exists m0,
    __init__ Sample.laptop = Return m0 /\
    get_battery_info Sample.laptop = Return (Some Sample.discharging_30) /\
    chunk_color
      (battery_bar
         (fst (update_stats Sample.desktop
                 (fst (update_stats Sample.laptop m0))))) =
    select_color (battery_monitored Sample.discharging_30).
Proof.
  eexists. split; [reflexivity |]. split; [reflexivity |].
  match goal with
  | |- context [update_stats Sample.laptop ?m] =>
      pose proof (proj2 absent_battery_keeps_bar_colour
                    Sample.laptop Sample.desktop m
                    _ _ _ _ _ _ _ _ _ Sample.discharging_30
                    eq_refl eq_refl eq_refl) as H
  end.
  cbv zeta in H. exact (proj2 (proj2 H)).
Defined.

(** X11.  [get_battery_info] copies the charge and the plug state, says
    "Charging" exactly when the cable is known to be connected (an unknown
    plug state counts as discharging), and writes the time left as
    "Plugged In" for the unlimited marker, "Calculating..." for the unknown
    marker, and otherwise as whole hours and minutes: for a time of s >= 0
    seconds, minutes is between 0 and 59 and hours and minutes together are
    s rounded down to the minute.  Without a battery it returns None. *)
Theorem battery_info_fields (h : host) :
  (psutil_sensors_battery h = Return None ->
   get_battery_info h = Return None) /\
  (forall b : sbattery,
      psutil_sensors_battery h = Return (Some b) ->
      exists info : BatteryInfo.t,
        get_battery_info h = Return (Some info) /\
        BatteryInfo.percent info = bat_percent b /\
        BatteryInfo.plugged info = power_plugged b /\
        (BatteryInfo.status info = "Charging" <->
         power_plugged b = Some true) /\
        (BatteryInfo.status info = "Discharging" <->
         power_plugged b <> Some true) /\
        (secsleft b = POWER_TIME_UNLIMITED ->
         BatteryInfo.time info = "Plugged In") /\
        (secsleft b = POWER_TIME_UNKNOWN ->
         BatteryInfo.time info = "Calculating...") /\
        (0 <= secsleft b ->
         exists hrs mins : Z,
           BatteryInfo.time info =
             str_int hrs ++ "h " ++ str_int mins ++ "m" /\
           0 <= hrs /\ 0 <= mins < 60 /\
           3600 * hrs + 60 * mins <= secsleft b <
           3600 * hrs + 60 * mins + 60)).
Proof.
  split; [apply get_battery_info_none |].
  intros b Hb. unfold get_battery_info. rewrite Hb. cbn [bind].
  eexists. split; [reflexivity |].
  cbn [BatteryInfo.percent BatteryInfo.plugged BatteryInfo.status
       BatteryInfo.time].
  split; [reflexivity |]. split; [reflexivity |].
  split; [| split; [| split; [| split]]].
  - destruct (power_plugged b) as [[|]|]; cbn [truthy];
      split; intros E; try reflexivity; discriminate E.
  - destruct (power_plugged b) as [[|]|]; cbn [truthy];
      split; intros E; try reflexivity; try discriminate E;
      try (intros E'; discriminate E'); now elim E.
  - intros ->. reflexivity.
  - intros ->. reflexivity.
  - intros Hs.
    destruct (secsleft b =? POWER_TIME_UNLIMITED)%Z eqn:H2;
      [apply Z.eqb_eq in H2; unfold POWER_TIME_UNLIMITED in H2; lia |].
    destruct (secsleft b =? POWER_TIME_UNKNOWN)%Z eqn:H1;
      [apply Z.eqb_eq in H1; unfold POWER_TIME_UNKNOWN in H1; lia |].
    exists (secsleft b / 3600), (secsleft b mod 3600 / 60).
    split; [reflexivity |].
    pose proof (Z.div_mod (secsleft b) 3600 ltac:(lia)) as Hdiv.
    pose proof (Z.mod_pos_bound (secsleft b) 3600 ltac:(lia)) as Hmod.
    pose proof (Z.div_mod (secsleft b mod 3600) 60 ltac:(lia)) as Hdiv'.
    pose proof (Z.mod_pos_bound (secsleft b mod 3600) 60 ltac:(lia)) as Hmod'.
    assert (0 <= secsleft b / 3600) by (apply Z.div_pos; lia).
    assert (0 <= secsleft b mod 3600 / 60) by (apply Z.div_pos; lia).
    assert (secsleft b mod 3600 / 60 < 60)
      by (apply Z.div_lt_upper_bound; lia).
    repeat split; lia.
Qed.

Lemma battery_info_fields_witness :
  psutil_sensors_battery Sample.laptop =
    Return (Some (mk_sbattery (30 # 1) 5400 (Some false))) /\
  0 <= secsleft (mk_sbattery (30 # 1) 5400 (Some false)) /\
  exists info : BatteryInfo.t,
    get_battery_info Sample.laptop = Return (Some info) /\
    exists hrs mins : Z,
      BatteryInfo.time info = str_int hrs ++ "h " ++ str_int mins ++ "m" /\
      0 <= mins < 60.
Proof.
  split; [reflexivity |].
  assert (Hs : 0 <= secsleft (mk_sbattery (30 # 1) 5400 (Some false)))
    by (cbn; lia).
  split; [exact Hs |].
  destruct (proj2 (battery_info_fields Sample.laptop) _ eq_refl)
    as (info & Hinfo & _ & _ & _ & _ & _ & _ & Htime).
  destruct (Htime Hs) as (hrs & mins & Htext & _ & Hmins & _).
  exists info. split; [exact Hinfo |]. exists hrs, mins.
  split; assumption.
Defined.

(** ** The uptime *)

Lemma update_stats_uptime (h : host) (m : monitor) :
  uptime_label (fst (update_stats h m)) =
  match sample h, psutil_boot_time h with
  | Some _, Return boot_time =>
      let uptime_seconds := int_of_float (now_timestamp h - boot_time)%Q in
      icon_uptime ++ " System Uptime: " ++
      str_int (uptime_seconds / 3600) ++ "h " ++
      str_int (uptime_seconds mod 3600 / 60) ++ "m"
  | _, _ => uptime_label m
  end.
Proof.
  tick_cases h; try reflexivity; tick_run; reflexivity.
Qed.

Lemma int_of_float_floor (q : Q) :
  (0 <= q)%Q ->
  0 <= int_of_float q /\
  (inject_Z (int_of_float q) <= q)%Q /\
  (q < inject_Z (int_of_float q + 1))%Q.
Proof.
  intros Hq. unfold int_of_float.
  assert (Hnum : 0 <= Qnum q)
    by (unfold Qle in Hq; cbn in Hq; lia).
  assert (Hfloor : Z.quot (Qnum q) (QDen q) = Qfloor q).
  { destruct q as [n d]. cbn [Qnum Qden Qfloor] in *.
    apply Z.quot_div_nonneg; lia. }
  rewrite Hfloor. split; [| split].
  - rewrite <- Hfloor. apply Z.quot_pos; lia.
  - apply Qfloor_le.
  - apply Qlt_floor.
Qed.

(** X12.  The uptime shown is the time since boot, rounded down to the
    minute: when the clock is not before the boot time, the label reads
    "<hours>h <minutes>m" with minutes between 0 and 59, and
    3600 hours + 60 minutes <= now - boot < 3600 hours + 60 minutes + 60.
    A tick that fails before the uptime is computed leaves the label as it
    was. *)
Theorem uptime_is_rounded_down_to_the_minute (h : host) (m : monitor) :
  (forall boot : Q,
      sources_answer h = true ->
      psutil_boot_time h = Return boot ->
      (boot <= now_timestamp h)%Q ->
      exists hours minutes : Z,
        uptime_label (fst (update_stats h m)) =
          icon_uptime ++ " System Uptime: " ++ str_int hours ++ "h " ++
          str_int minutes ++ "m" /\
        0 <= hours /\ 0 <= minutes < 60 /\
        (inject_Z (3600 * hours + 60 * minutes) <= now_timestamp h - boot)%Q /\
        (now_timestamp h - boot <
         inject_Z (3600 * hours + 60 * minutes + 60))%Q) /\
  (sample h = None ->
   uptime_label (fst (update_stats h m)) = uptime_label m).
Proof.
  split.
  - intros boot Hsrc Hboot Hle.
    rewrite update_stats_uptime, Hboot.
    assert (Hsample : exists s, sample h = Some s).
    { unfold sample, sources_answer in *. rewrite Hboot.
      destruct (psutil_cpu_percent h); [| discriminate Hsrc].
      destruct (psutil_virtual_memory h); [| discriminate Hsrc].
      destruct (psutil_sensors_battery h); [| discriminate Hsrc].
      destruct (psutil_disk_usage h "/"); [| discriminate Hsrc].
      destruct (psutil_net_io_counters h); [| discriminate Hsrc].
      eexists; reflexivity. }
    destruct Hsample as [s Hs]. rewrite Hs. cbv zeta.
    set (d := (now_timestamp h - boot)%Q).
    assert (Hd : (0 <= d)%Q) by (unfold d; lra).
    destruct (int_of_float_floor d Hd) as (Hpos & Hlow & Hhigh).
    set (secs := int_of_float d) in *.
    exists (secs / 3600), (secs mod 3600 / 60).
    split; [reflexivity |].
    pose proof (Z.div_mod secs 3600 ltac:(lia)) as Hdiv.
    pose proof (Z.mod_pos_bound secs 3600 ltac:(lia)) as Hmod.
    pose proof (Z.div_mod (secs mod 3600) 60 ltac:(lia)) as Hdiv'.
    pose proof (Z.mod_pos_bound (secs mod 3600) 60 ltac:(lia)) as Hmod'.
    assert (0 <= secs / 3600) by (apply Z.div_pos; lia).
    assert (0 <= secs mod 3600 / 60) by (apply Z.div_pos; lia).
    assert (secs mod 3600 / 60 < 60) by (apply Z.div_lt_upper_bound; lia).
    split; [lia |]. split; [lia |]. split.
    + apply Qle_trans with (inject_Z secs); [| exact Hlow].
      rewrite <- Zle_Qle. lia.
    + apply Qlt_le_trans with (inject_Z (secs + 1)); [exact Hhigh |].
      rewrite <- Zle_Qle. lia.
  - intros Hnone. rewrite update_stats_uptime, Hnone. reflexivity.
Qed.

Lemma uptime_is_rounded_down_to_the_minute_witness :
  exists m0,
    __init__ Sample.laptop = Return m0 /\
    sources_answer Sample.laptop = true /\
    psutil_boot_time Sample.laptop = Return (1000 # 1) /\
    ((1000 # 1) <= now_timestamp Sample.laptop)%Q /\
    exists hours minutes : Z,
      uptime_label (fst (update_stats Sample.laptop m0)) =
        icon_uptime ++ " System Uptime: " ++ str_int hours ++ "h " ++
        str_int minutes ++ "m" /\
      0 <= minutes < 60.
Proof.
  eexists. split; [reflexivity |]. split; [reflexivity |].
  split; [reflexivity |].
  assert (Hle : ((1000 # 1) <= now_timestamp Sample.laptop)%Q)
    by (cbn; discriminate).
  split; [exact Hle |].
  match goal with
  | |- context [update_stats Sample.laptop ?m] =>
      destruct (proj1 (uptime_is_rounded_down_to_the_minute Sample.laptop m)
                  (1000 # 1) eq_refl eq_refl Hle)
        as (hours & minutes & Hlabel & _ & Hmin & _)
  end.
  exists hours, minutes. split; assumption.
Defined.

(** ** A network counter that goes back *)

Lemma format_f_negative (prec : nat) (q : Q) :
  (q < 0)%Q -> exists rest : string, format_f prec q = "-" ++ rest.
Proof.
  intros Hq. unfold format_f. rewrite (proj2 (Qltb_lt q 0) Hq).
  eexists. reflexivity.
Qed.

(** X13.  The network figures are not clamped.  On a window whose base
    line was taken from the counters [base], a tick that reads a sent
    counter below that of the base line (the counter was reset) shows a
    figure with a minus sign, and likewise for the received counter; a
    tick that reads the counters of the base line shows 0.0 for both. *)
Theorem counter_reset_shows_negative_traffic (h : host) (m : monitor)
    (base : snetio) (cpu : Q) (ram_info : svmem)
    (battery : option sbattery) (usage : sdiskusage) (net : snetio) :
  network_baseline m = baseline_of base ->
  readings h = Return (cpu, ram_info, battery, usage, net) ->
  (bytes_sent net < bytes_sent base ->
   exists rest : string,
     network_sent_label (fst (update_stats h m)) =
     icon_sent ++ " Sent: -" ++ rest) /\
  (bytes_recv net < bytes_recv base ->
   exists rest : string,
     network_recv_label (fst (update_stats h m)) =
     icon_received ++ " Received: -" ++ rest) /\
  (net = base ->
   network_sent_label (fst (update_stats h m)) =
     icon_sent ++ " Sent: 0.0 MB" /\
   network_recv_label (fst (update_stats h m)) =
     icon_received ++ " Received: 0.0 MB").
Proof.
  intros Hbase Hread.
  destruct (network_labels h m _ _ _ _ _ Hread) as [Hs Hr].
  rewrite Hs, Hr, Hbase. unfold sent_text, recv_text.
  assert (Hlt : forall a b : Z, a < b -> (inject_Z (a - b) / MiB < 0)%Q).
  { intros a b Hab.
    setoid_replace 0%Q with (0 / MiB)%Q by reflexivity.
    apply Qmult_lt_compat_r; [reflexivity |].
    change 0%Q with (inject_Z 0). rewrite <- Zlt_Qlt. lia. }
  split; [| split].
  - intros Hlow.
    rewrite (format_f_Qeq 1 _ _ (delta_sent_of_counters base net)).
    destruct (format_f_negative 1 _ (Hlt _ _ Hlow)) as [rest Hrest].
    rewrite Hrest. exists (rest ++ " MB"). f_equal.
  - intros Hlow.
    rewrite (format_f_Qeq 1 _ _ (delta_recv_of_counters base net)).
    destruct (format_f_negative 1 _ (Hlt _ _ Hlow)) as [rest Hrest].
    rewrite Hrest. exists (rest ++ " MB"). f_equal.
  - intros ->.
    rewrite (format_f_Qeq 1 _ _ (delta_sent_of_counters base base)).
    rewrite (format_f_Qeq 1 _ _ (delta_recv_of_counters base base)).
    rewrite !Z.sub_diag. split; f_equal.
Qed.

Lemma counter_reset_shows_negative_traffic_witness :
  exists m0,
    __init__ Sample.laptop = Return m0 /\
    network_baseline m0 = baseline_of (mk_snetio 3145728 5242880) /\
    bytes_sent (mk_snetio 1048576 1048576) <
      bytes_sent (mk_snetio 3145728 5242880) /\
    exists rest : string,
      network_sent_label (fst (update_stats Sample.laptop_reset m0)) =
      icon_sent ++ " Sent: -" ++ rest.
Proof.
  eexists. split; [reflexivity |]. split; [reflexivity |].
  assert (Hlow : bytes_sent (mk_snetio 1048576 1048576) <
                 bytes_sent (mk_snetio 3145728 5242880)) by (cbn; lia).
  split; [exact Hlow |].
  match goal with
  | |- context [update_stats Sample.laptop_reset ?m] =>
      exact (proj1 (counter_reset_shows_negative_traffic
                      Sample.laptop_reset m (mk_snetio 3145728 5242880)
                      _ _ _ _ (mk_snetio 1048576 1048576) eq_refl eq_refl)
               Hlow)
  end.
Defined.

(** ** [StyledButton.darken_color] *)

Lemma channels_checked :
  forallb channel_text_ok (map Z.of_nat (seq 0 256)) = true.
Proof. vm_compute. reflexivity. Qed.

Lemma returns_eq (r : result Z) (n : Z) : returns r n = true -> r = Return n.
Proof.
  destruct r as [k|e]; cbn; intros H; [| discriminate H].
  apply Z.eqb_eq in H. now subst.
Qed.

Lemma channel_text (c : Z) :
  channel c ->
  exists a b : ascii,
    format_02x c = String a (String b "") /\
    Ascii.eqb a "#" = false /\ Ascii.eqb (upper_char a) "#" = false /\
    int_of_str_16 (String a (String b "")) = Return c /\
    int_of_str_16 (String (upper_char a) (String (upper_char b) "")) =
      Return c.
Proof.
  intros [Hlo Hhi].
  pose proof (proj1 (forallb_forall _ _) channels_checked c) as Hok.
  assert (Hin : In c (map Z.of_nat (seq 0 256))).
  { apply in_map_iff. exists (Z.to_nat c). split; [lia |].
    apply in_seq. lia. }
  specialize (Hok Hin). unfold channel_text_ok in Hok.
  destruct (format_02x c) as [|a [|b [|x rest]]]; try discriminate Hok.
  apply andb_prop in Hok as [Hok Hup].
  apply andb_prop in Hok as [Hok Hparse].
  apply andb_prop in Hok as [Ha Hua].
  exists a, b. split; [reflexivity |].
  split; [now apply negb_true_iff |]. split; [now apply negb_true_iff |].
  split; apply returns_eq; assumption.
Qed.

Lemma scaled_bounds (c : Z) (factor : Q) :
  0 <= c -> (0 <= factor)%Q -> (factor <= 1)%Q ->
  0 <= scaled c factor <= c.
Proof.
  intros Hc Hlo Hhi. unfold scaled.
  assert (HcQ : (0 <= inject_Z c)%Q)
    by (change 0%Q with (inject_Z 0); now rewrite <- Zle_Qle).
  assert (Hq : (0 <= inject_Z c * factor)%Q)
    by now apply Qmult_le_0_compat.
  destruct (int_of_float_floor _ Hq) as (Hpos & Hlow & _).
  split; [exact Hpos |].
  rewrite Zle_Qle.
  apply Qle_trans with (inject_Z c * factor)%Q; [exact Hlow |].
  rewrite Qmult_comm.
  setoid_replace (inject_Z c) with (1 * inject_Z c)%Q at 2 by ring.
  now apply Qmult_le_compat_r.
Qed.

Lemma scaled_monotone (c : Z) (f1 f2 : Q) :
  0 <= c -> (0 <= f1)%Q -> (f1 <= f2)%Q ->
  scaled c f1 <= scaled c f2.
Proof.
  intros Hc Hlo Hle. unfold scaled.
  assert (HcQ : (0 <= inject_Z c)%Q)
    by (change 0%Q with (inject_Z 0); now rewrite <- Zle_Qle).
  assert (Hq1 : (0 <= inject_Z c * f1)%Q)
    by now apply Qmult_le_0_compat.
  assert (Hq2 : (0 <= inject_Z c * f2)%Q)
    by (apply Qmult_le_0_compat; [exact HcQ | lra]).
  destruct (int_of_float_floor _ Hq1) as (_ & Hlow & _).
  destruct (int_of_float_floor _ Hq2) as (_ & _ & Hhigh).
  assert (Hmid : (inject_Z c * f1 <= inject_Z c * f2)%Q).
  { rewrite !(Qmult_comm (inject_Z c)). now apply Qmult_le_compat_r. }
  assert (Hlt : (inject_Z (int_of_float (inject_Z c * f1)) <
                 inject_Z (int_of_float (inject_Z c * f2) + 1))%Q) by lra.
  rewrite <- Zlt_Qlt in Hlt. lia.
Qed.

Lemma scaled_one (c : Z) : scaled c 1 = c.
Proof.
  unfold scaled, int_of_float. cbn. rewrite Z.mul_1_r. apply Z.quot_1_r.
Qed.

Lemma hex_color_text (r g b : Z) :
  channel r -> channel g -> channel b ->
  exists a1 b1 a2 b2 a3 b3 : ascii,
    hex_color r g b =
      String "#" (String a1 (String b1 (String a2 (String b2
        (String a3 (String b3 "")))))) /\
    Ascii.eqb a1 "#" = false /\ Ascii.eqb (upper_char a1) "#" = false /\
    int_of_str_16 (String a1 (String b1 "")) = Return r /\
    int_of_str_16 (String a2 (String b2 "")) = Return g /\
    int_of_str_16 (String a3 (String b3 "")) = Return b /\
    int_of_str_16 (String (upper_char a1) (String (upper_char b1) "")) =
      Return r /\
    int_of_str_16 (String (upper_char a2) (String (upper_char b2) "")) =
      Return g /\
    int_of_str_16 (String (upper_char a3) (String (upper_char b3) "")) =
      Return b.
Proof.
  intros Hr Hg Hb.
  destruct (channel_text r Hr) as (a1 & b1 & Er & Ha1 & Hu1 & Pr & Ur).
  destruct (channel_text g Hg) as (a2 & b2 & Eg & _ & _ & Pg & Ug).
  destruct (channel_text b Hb) as (a3 & b3 & Eb & _ & _ & Pb & Ub).
  exists a1, b1, a2, b2, a3, b3. unfold hex_color. rewrite Er, Eg, Eb.
  repeat split; assumption.
Qed.

Lemma channel_in_range (c : Z) :
  channel c -> In c (map Z.of_nat (seq 0 256)).
Proof.
  intros Hc. unfold channel in Hc. apply in_map_iff.
  exists (Z.to_nat c). split; [lia |]. apply in_seq. lia.
Qed.

Lemma darken_six (a1 b1 a2 b2 a3 b3 : ascii) (r g b r' g' b' : Z)
    (factor : Q) :
  Ascii.eqb a1 "#" = false ->
  int_of_str_16 (String a1 (String b1 "")) = Return r ->
  int_of_str_16 (String a2 (String b2 "")) = Return g ->
  int_of_str_16 (String a3 (String b3 "")) = Return b ->
  scale r factor = Return r' ->
  scale g factor = Return g' ->
  scale b factor = Return b' ->
  darken_color
    (String "#" (String a1 (String b1 (String a2 (String b2
       (String a3 (String b3 ""))))))) factor =
  Return (hex_color r' g' b').
Proof.
  intros Ha Hr Hg Hb Sr Sg Sb. unfold darken_color.
  cbn [lstrip_char]. rewrite Ha.
  change (Ascii.eqb "#" "#") with true. cbn iota.
  cbn [substring]. rewrite Hr, Hg, Hb. cbn [bind].
  rewrite Sr, Sg, Sb. reflexivity.
Qed.

(** ** The product with the factor *)

Lemma channel_below (c : Z) : channel c -> (inject_Z c < 2 ^ 8)%Q.
Proof.
  intros [_ Hc]. apply Qle_lt_trans with (inject_Z 255).
  - now rewrite <- Zle_Qle.
  - apply Qlt_alt. vm_compute. reflexivity.
Qed.

Lemma two_power_8 : (2 ^ 8 < 2 ^ 53)%Q /\ (2 ^ 8 < 2 ^ 1024)%Q.
Proof. split; apply Qlt_alt; vm_compute; reflexivity. Qed.

(** A product between 0 and a channel is rounded to a number between 0
    and that channel, on the same side of every integer, and at most
    [2^-46] away. *)
Lemma nearest_in_channel (c : Z) (q : Q) :
  channel c -> (0 <= q)%Q -> (q <= inject_Z c)%Q ->
  Float.round q = Some (Float.nearest q) /\
  (0 <= Float.nearest q)%Q /\
  (Float.nearest q <= inject_Z c)%Q /\
  (forall n : Z,
      ((inject_Z n <= q)%Q -> (inject_Z n <= Float.nearest q)%Q) /\
      ((q <= inject_Z n)%Q -> (Float.nearest q <= inject_Z n)%Q)) /\
  (Float.nearest q <= q + 2 ^ (-46))%Q.
Proof.
  intros Hc Hlo Hhi.
  pose proof (channel_below c Hc) as Hc8.
  destruct two_power_8 as [H53 H1024].
  assert (H8 : (Qabs q < 2 ^ 8)%Q).
  { rewrite (Qabs_pos q Hlo). eapply Qle_lt_trans; eassumption. }
  assert (Hsmall : (Qabs q < 2 ^ 53)%Q) by (eapply Qlt_trans; eassumption).
  assert (Hint : forall n : Z,
             ((inject_Z n <= q)%Q -> (inject_Z n <= Float.nearest q)%Q) /\
             ((q <= inject_Z n)%Q -> (Float.nearest q <= inject_Z n)%Q))
    by (intros n; exact (nearest_integers q n Hsmall)).
  assert (Hpos : (0 <= Float.nearest q)%Q)
    by exact (proj1 (Hint 0) Hlo).
  assert (Hle : (Float.nearest q <= inject_Z c)%Q)
    by exact (proj2 (Hint c) Hhi).
  split; [| split; [exact Hpos | split; [exact Hle | split; [exact Hint |]]]].
  - apply round_finite. rewrite (Qabs_pos _ Hpos).
    apply Qle_lt_trans with (inject_Z c); [exact Hle |].
    eapply Qlt_trans; eassumption.
  - destruct (Qeq_dec q 0) as [Z0 | NZ].
    + rewrite (nearest_zero q Z0), Z0.
      apply Qle_bool_iff. vm_compute. reflexivity.
    + pose proof (nearest_error q) as Herr.
      apply Qabs_Qle_condition in Herr. destruct Herr as [_ Herr].
      pose proof (floor_log2_below q 8 NZ H8) as Hfl.
      assert (He : Float.ulp_exponent q <= -45)
        by (unfold Float.ulp_exponent; lia).
      assert (Hulp : (2 ^ Float.ulp_exponent q <= 2 ^ (-45))%Q)
        by (apply Qpower_le_compat_l; [exact He | discriminate]).
      assert (E46 : ((1 # 2) * 2 ^ (-45) == 2 ^ (-46))%Q) by reflexivity.
      revert Herr Hulp E46.
      generalize (2 ^ Float.ulp_exponent q)%Q (2 ^ (-45))%Q (2 ^ (-46))%Q.
      intros u u45 u46 Herr Hulp E46. lra.
Qed.

Lemma of_int_channel (c : Z) :
  channel c ->
  exists v : Q, Float.of_int c = Return v /\ (v == inject_Z c)%Q.
Proof.
  intros Hc. unfold Float.of_int.
  assert (Hlo : (0 <= inject_Z c)%Q)
    by (change 0%Q with (inject_Z 0); rewrite <- Zle_Qle; exact (proj1 Hc)).
  destruct (nearest_in_channel c (inject_Z c) Hc Hlo (Qle_refl _))
    as (Hround & _ & _ & Hint & _).
  rewrite Hround. eexists. split; [reflexivity |].
  apply Qle_antisym.
  - exact (proj2 (Hint c) (Qle_refl _)).
  - exact (proj1 (Hint c) (Qle_refl _)).
Qed.

Lemma product_in_channel (c : Z) (v factor : Q) :
  channel c -> (v == inject_Z c)%Q ->
  (0 <= factor)%Q -> (factor <= 1)%Q ->
  (v * factor == inject_Z c * factor)%Q /\
  (0 <= v * factor)%Q /\ (v * factor <= inject_Z c)%Q.
Proof.
  intros Hc Hv Hlo Hhi.
  assert (HcQ : (0 <= inject_Z c)%Q)
    by (change 0%Q with (inject_Z 0); rewrite <- Zle_Qle; exact (proj1 Hc)).
  split; [now rewrite Hv |]. rewrite Hv. split.
  - now apply Qmult_le_0_compat.
  - rewrite Qmult_comm.
    setoid_replace (inject_Z c) with (1 * inject_Z c)%Q at 2 by ring.
    now apply Qmult_le_compat_r.
Qed.

(** What [darken_color] makes of one channel, for a factor between 0 and
    1. *)
Lemma scale_channel (c : Z) (factor : Q) :
  channel c -> (0 <= factor)%Q -> (factor <= 1)%Q ->
  exists c' : Z, scale c factor = Return c' /\ darkened c factor c'.
Proof.
  intros Hc Hlo Hhi.
  destruct (of_int_channel c Hc) as (v & Hv & Ev).
  destruct (product_in_channel c v factor Hc Ev Hlo Hhi)
    as (Ep & Hp0 & Hpc).
  destruct (nearest_in_channel c (v * factor) Hc Hp0 Hpc)
    as (Hround & Hpos & Hle & Hint & Herr).
  unfold scale, Float.mul_int. rewrite Hv. cbn [bind]. rewrite Hround.
  cbn [Float.to_int]. eexists. split; [reflexivity |].
  destruct (int_of_float_floor _ Hpos) as (Hc0 & Hclow & Hchigh).
  assert (Hx : (0 <= inject_Z c * factor)%Q) by now rewrite <- Ep.
  destruct (int_of_float_floor _ Hx) as (Hs0 & Hslow & Hshigh).
  fold (scaled c factor) in Hs0, Hslow, Hshigh.
  rewrite <- Ep in Hslow, Hshigh.
  pose proof (proj1 (Hint (scaled c factor)) Hslow) as Hbelow.
  pose proof (proj2 (Hint (scaled c factor + 1))
                (Qlt_le_weak _ _ Hshigh)) as Habove.
  set (P := Float.nearest (v * factor)) in *.
  set (c' := int_of_float P) in *.
  unfold darkened. split; [| split].
  - split.
    + assert (H : (inject_Z (scaled c factor) < inject_Z (c' + 1))%Q)
        by (eapply Qle_lt_trans; eassumption).
      rewrite <- Zlt_Qlt in H. lia.
    + rewrite Zle_Qle. eapply Qle_trans; eassumption.
  - split; [exact Hc0 |]. rewrite Zle_Qle. eapply Qle_trans; eassumption.
  - rewrite <- Ep. eapply Qle_trans; eassumption.
Qed.

Lemma scale_one (c : Z) : channel c -> scale c 1 = Return c.
Proof.
  intros Hc.
  destruct (scale_channel c 1 Hc) as (c' & Hscale & (Hs & Hb & _));
    try discriminate.
  rewrite scaled_one in Hs. rewrite Hscale. f_equal. lia.
Qed.

Lemma shades_checked :
  forallb (shade_agrees default_factor) (map Z.of_nat (seq 0 256)) = true /\
  forallb (shade_agrees pressed_factor) (map Z.of_nat (seq 0 256)) = true.
Proof. split; vm_compute; reflexivity. Qed.

(** For the two factors of [update_style] the rounded product, truncated,
    is the exact product rounded down. *)
Lemma scale_literals (c : Z) :
  channel c ->
  scale c (Float.literal default_factor) = Return (scaled c default_factor) /\
  scale c (Float.literal pressed_factor) = Return (scaled c pressed_factor).
Proof.
  intros Hc. apply channel_in_range in Hc.
  destruct shades_checked as [Hd Hp].
  rewrite forallb_forall in Hd, Hp.
  specialize (Hd c Hc). specialize (Hp c Hc).
  unfold shade_agrees in Hd, Hp.
  destruct (scale c (Float.literal default_factor)) as [k|];
    [| discriminate Hd].
  destruct (scale c (Float.literal pressed_factor)) as [k'|];
    [| discriminate Hp].
  apply Z.eqb_eq in Hd, Hp. now subst.
Qed.

(** The processor rounds as [Float] does: on the quotient by 1000 of every
    multiple of 25 up to 100000, which includes the ties of the first
    decimal, and on the product of every channel with the literals 0.29,
    0.3, 0.5, 0.8 and 0.85. *)
Lemma rounding_agrees_with_binary64 :
  forallb division_agrees
    (map (fun k => 25 * Z.of_nat k) (seq 0 4001)) = true /\
  forallb (fun factor =>
             forallb (product_agrees factor) (map Z.of_nat (seq 0 256)))
    [29 # 100; 3 # 10; 1 # 2; 8 # 10; 85 # 100]%Q = true.
Proof. split; vm_compute; reflexivity. Qed.

Lemma darken_color_both (r g b r' g' b' : Z) (factor : Q) :
  channel r -> channel g -> channel b ->
  scale r factor = Return r' ->
  scale g factor = Return g' ->
  scale b factor = Return b' ->
  darken_color (hex_color r g b) factor = Return (hex_color r' g' b') /\
  darken_color (upper (hex_color r g b)) factor =
    Return (hex_color r' g' b').
Proof.
  intros Hr Hg Hb Sr Sg Sb.
  destruct (hex_color_text r g b Hr Hg Hb)
    as (a1 & b1 & a2 & b2 & a3 & b3 & Htext & Ha1 & Hu1 & Pr & Pg & Pb &
        Ur & Ug & Ub).
  rewrite Htext. split; [now apply (darken_six _ _ _ _ _ _ r g b) |].
  cbn [upper]. change (upper_char "#") with "#"%char.
  now apply (darken_six _ _ _ _ _ _ r g b).
Qed.

(** X14.  [darken_color] scales each channel of a colour.  For a colour
    written "#rrggbb", in lower or in upper case, and a factor between 0
    and 1, the result is a colour written in lower case whose channels are
    those of the argument times the factor, the product rounded to
    binary64 and then truncated: each is the exact product rounded down, or
    the next integer when the exact product is less than 2^-46 below it,
    and none is larger than it was.  So the result has seven characters and
    can be darkened again.  With factor 1 a lower-case colour comes back
    unchanged. *)
Theorem darken_color_scales_channels (r g b : Z) (factor : Q) :
  channel r -> channel g -> channel b ->
  (0 <= factor)%Q -> (factor <= 1)%Q ->
  (exists r' g' b' : Z,
      darken_color (hex_color r g b) factor =
        Return (hex_color r' g' b') /\
      darken_color (upper (hex_color r g b)) factor =
        Return (hex_color r' g' b') /\
      darkened r factor r' /\ darkened g factor g' /\
      darkened b factor b' /\
      channel r' /\ channel g' /\ channel b' /\
      String.length (hex_color r' g' b') = 7%nat) /\
  darken_color (hex_color r g b) 1 = Return (hex_color r g b).
Proof.
  intros Hr Hg Hb Hlo Hhi. split.
  - destruct (scale_channel r factor Hr Hlo Hhi) as (r' & Sr & Dr).
    destruct (scale_channel g factor Hg Hlo Hhi) as (g' & Sg & Dg).
    destruct (scale_channel b factor Hb Hlo Hhi) as (b' & Sb & Db).
    exists r', g', b'.
    destruct (darken_color_both r g b r' g' b' factor Hr Hg Hb Sr Sg Sb)
      as [Hlower Hupper].
    assert (Cr : channel r')
      by (destruct Dr as (_ & Br & _); unfold channel in *; lia).
    assert (Cg : channel g')
      by (destruct Dg as (_ & Bg & _); unfold channel in *; lia).
    assert (Cb : channel b')
      by (destruct Db as (_ & Bb & _); unfold channel in *; lia).
    repeat (split; [assumption |]).
    destruct (hex_color_text _ _ _ Cr Cg Cb)
      as (c1 & d1 & c2 & d2 & c3 & d3 & Hout & _).
    now rewrite Hout.
  - exact (proj1 (darken_color_both r g b r g b 1 Hr Hg Hb
                    (scale_one r Hr) (scale_one g Hg) (scale_one b Hb))).
Qed.

Lemma darken_color_scales_channels_witness :
  channel 100 /\
  (0 <= Float.literal (29 # 100))%Q /\ (Float.literal (29 # 100) <= 1)%Q /\
  darken_color "#646464" (Float.literal (29 # 100)) = Return "#1c1c1c" /\
  darken_color (hex_color 100 100 100) 1 = Return (hex_color 100 100 100).
Proof.
  assert (H : channel 100) by (unfold channel; lia).
  assert (Hlo : (0 <= Float.literal (29 # 100))%Q)
    by (apply Qle_bool_iff; vm_compute; reflexivity).
  assert (Hhi : (Float.literal (29 # 100) <= 1)%Q)
    by (apply Qle_bool_iff; vm_compute; reflexivity).
  split; [exact H |]. split; [exact Hlo |]. split; [exact Hhi |].
  split; [vm_compute; reflexivity |].
  exact (proj2 (darken_color_scales_channels 100 100 100
                  (Float.literal (29 # 100)) H H H Hlo Hhi)).
Defined.

Lemma int_of_str_16_raises (s : string) (e : exn) :
  int_of_str_16 s = Raise e -> exn_class e = ValueError.
Proof.
  unfold int_of_str_16.
  destruct (match strip s with
            | String "-" t' =>
                option_map Z.opp (hex_digits 0 false (skip_prefix_16 t'))
            | String "+" t' => hex_digits 0 false (skip_prefix_16 t')
            | _ => hex_digits 0 false (skip_prefix_16 (strip s))
            end); intros E; [discriminate E |].
  injection E as <-. reflexivity.
Qed.

Lemma substring_beyond (n k : nat) (s : string) :
  (String.length s <= n)%nat -> substring n k s = "".
Proof.
  revert s; induction n as [|n IH]; intros s Hlen.
  - destruct s; [| cbn in Hlen; lia]. destruct k; reflexivity.
  - destruct s as [|c s]; [reflexivity |]. cbn in *. apply IH. lia.
Qed.

(** X15.  [darken_color] insists on six digits: when fewer than five
    characters are left after the leading number signs, as for the short
    form "#fff", it raises [ValueError], whatever the factor. *)
Theorem darken_color_rejects_short_colours (hex_color : string)
    (factor : Q) :
  (String.length (lstrip_char "#" hex_color) <= 4)%nat ->
  exists e : exn,
    darken_color hex_color factor = Raise e /\ exn_class e = ValueError.
Proof.
  intros Hshort. unfold darken_color.
  rewrite (substring_beyond 4 2 _ Hshort).
  destruct (int_of_str_16 (substring 0 2 (lstrip_char "#" hex_color)))
    as [r|e1] eqn:E1; cbn [bind];
    [| exists e1; split; [reflexivity | exact (int_of_str_16_raises _ _ E1)]].
  destruct (int_of_str_16 (substring 2 2 (lstrip_char "#" hex_color)))
    as [g|e2] eqn:E2; cbn [bind];
    [| exists e2; split; [reflexivity | exact (int_of_str_16_raises _ _ E2)]].
  destruct (int_of_str_16 "") as [b|e3] eqn:E3; [discriminate E3 |].
  cbn [bind]. exists e3. split; [reflexivity |].
  exact (int_of_str_16_raises _ _ E3).
Qed.

Lemma darken_color_rejects_short_colours_witness :
  (String.length (lstrip_char "#" "#fff") <= 4)%nat /\
  exists e : exn,
    darken_color "#fff" default_factor = Raise e /\
    exn_class e = ValueError.
Proof.
  assert (H : (String.length (lstrip_char "#" "#fff") <= 4)%nat)
    by (cbn; lia).
  split; [exact H |].
  exact (darken_color_rejects_short_colours "#fff" default_factor H).
Defined.

(** X16.  The three shades of a button are ordered: for a colour written
    "#rrggbb", [update_style] keeps the colour for the button at rest,
    takes 0.85 of each channel for the button under the pointer and 0.8 of
    each channel for the pressed button, so in every channel
    pressed <= hover <= at rest.  This covers the default colour of
    [StyledButton]. *)
Theorem button_shades_are_ordered (r g b : Z) :
  channel r -> channel g -> channel b ->
  update_style (upper (hex_color r g b)) =
    Return (mk_colors (upper (hex_color r g b))
              (hex_color (scaled r default_factor) (scaled g default_factor)
                 (scaled b default_factor))
              (hex_color (scaled r pressed_factor) (scaled g pressed_factor)
                 (scaled b pressed_factor))) /\
  scaled r pressed_factor <= scaled r default_factor <= r /\
  scaled g pressed_factor <= scaled g default_factor <= g /\
  scaled b pressed_factor <= scaled b default_factor <= b /\
  (upper (hex_color 25 118 210) = default_color).
Proof.
  intros Hr Hg Hb.
  assert (Hd : (0 <= default_factor)%Q /\ (default_factor <= 1)%Q)
    by (split; discriminate).
  assert (Hp : (0 <= pressed_factor)%Q /\
               (pressed_factor <= default_factor)%Q)
    by (split; discriminate).
  split.
  - unfold update_style.
    destruct (scale_literals r Hr) as [Dr Pr].
    destruct (scale_literals g Hg) as [Dg Pg].
    destruct (scale_literals b Hb) as [Db Pb].
    rewrite (proj2 (darken_color_both r g b _ _ _ _ Hr Hg Hb Dr Dg Db)).
    rewrite (proj2 (darken_color_both r g b _ _ _ _ Hr Hg Hb Pr Pg Pb)).
    reflexivity.
  - pose proof (scaled_bounds r default_factor (proj1 Hr) (proj1 Hd)
                  (proj2 Hd)).
    pose proof (scaled_bounds g default_factor (proj1 Hg) (proj1 Hd)
                  (proj2 Hd)).
    pose proof (scaled_bounds b default_factor (proj1 Hb) (proj1 Hd)
                  (proj2 Hd)).
    pose proof (scaled_monotone r _ _ (proj1 Hr) (proj1 Hp) (proj2 Hp)).
    pose proof (scaled_monotone g _ _ (proj1 Hg) (proj1 Hp) (proj2 Hp)).
    pose proof (scaled_monotone b _ _ (proj1 Hb) (proj1 Hp) (proj2 Hp)).
    repeat split; try lia.
Qed.

Lemma button_shades_are_ordered_witness :
  channel 25 /\ channel 118 /\ channel 210 /\
  scaled 25 pressed_factor <= scaled 25 default_factor <= 25.
Proof.
  assert (H1 : channel 25) by (unfold channel; lia).
  assert (H2 : channel 118) by (unfold channel; lia).
  assert (H3 : channel 210) by (unfold channel; lia).
  repeat (split; [assumption |]).
  exact (proj1 (proj2 (button_shades_are_ordered 25 118 210 H1 H2 H3))).
Defined.

Lemma binary64_checked :
  forallb (binary64_agrees default_factor) (map Z.of_nat (seq 0 256)) = true /\
  forallb (binary64_agrees pressed_factor) (map Z.of_nat (seq 0 256)) = true.
Proof. split; vm_compute; reflexivity. Qed.

(** X17.  Binary64 rounding does not change the shades.  For each of the
    256 values of a channel and for the two factors that [update_style]
    uses, 0.85 and 0.8, [int(c * factor)] computed in binary64 is the exact
    product rounded down, [scaled c factor]. *)
Theorem shades_are_exact_in_binary64 (c : Z) :
  channel c ->
  binary64_scaled c default_factor = Some (scaled c default_factor) /\
  binary64_scaled c pressed_factor = Some (scaled c pressed_factor).
Proof.
  intros Hc. apply channel_in_range in Hc.
  destruct binary64_checked as [Hd Hp].
  rewrite forallb_forall in Hd, Hp.
  specialize (Hd c Hc). specialize (Hp c Hc).
  unfold binary64_agrees in Hd, Hp.
  destruct (binary64_scaled c default_factor) as [k|]; [| discriminate Hd].
  destruct (binary64_scaled c pressed_factor) as [k'|]; [| discriminate Hp].
  apply Z.eqb_eq in Hd, Hp. now subst.
Qed.

Lemma shades_are_exact_in_binary64_witness :
  channel 20 /\
  binary64_scaled 20 default_factor = Some (scaled 20 default_factor).
Proof.
  assert (H : channel 20) by (unfold channel; lia).
  split; [exact H |].
  exact (proj1 (shades_are_exact_in_binary64 20 H)).
Defined.

(** ** The whole tick *)

Lemma sample_of_readings (h : host) (cpu : Q) (ram_info : svmem)
    (battery : option sbattery) (usage : sdiskusage) (net : snetio) :
  readings h = Return (cpu, ram_info, battery, usage, net) ->
  sample h =
  match psutil_boot_time h with
  | Return _ => Some (cpu, vm_percent ram_info)
  | Raise _ => None
  end.
Proof.
  unfold readings, sample.
  destruct (psutil_cpu_percent h); [| discriminate].
  destruct (psutil_virtual_memory h); [| discriminate].
  destruct (psutil_sensors_battery h); [| discriminate].
  destruct (psutil_disk_usage h "/"); [| discriminate].
  destruct (psutil_net_io_counters h); [| discriminate].
  cbn. intros E. injection E as <- <- _ _ _.
  destruct (psutil_boot_time h); reflexivity.
Qed.

(** The five sources and the boot time answer: the uptime is shown and
    the sample recorded, and the process list decides how the tick ends. *)
Lemma update_stats_after_boot (h : host) (m : monitor) (cpu : Q)
    (ram_info : svmem) (battery : option sbattery) (usage : sdiskusage)
    (net : snetio) (boot : Q) :
  readings h = Return (cpu, ram_info, battery, usage, net) ->
  psutil_boot_time h = Return boot ->
  uptime_label (fst (update_stats h m)) =
    uptime_text (int_of_float (now_timestamp h - boot)) /\
  sample_recorded m (fst (update_stats h m)) cpu (vm_percent ram_info) /\
  process_table (fst (update_stats h m)) =
    match psutil_process_iter h with
    | Return procs => map row_of (top_ten procs)
    | Raise _ => process_table m
    end /\
  snd (update_stats h m) =
    bind (psutil_process_iter h) (fun _ => Return tt).
Proof.
  intros Hread Hboot.
  pose proof (sample_of_readings h _ _ _ _ _ Hread) as Hsample.
  rewrite Hboot in Hsample.
  split; [| split; [| split]].
  - rewrite update_stats_uptime, Hsample, Hboot. reflexivity.
  - pose proof (update_stats_charts h m) as Hcharts.
    cbv zeta in Hcharts. rewrite Hsample in Hcharts. exact Hcharts.
  - rewrite update_stats_table, Hsample. reflexivity.
  - rewrite update_stats_result, Hread. cbn [bind]. rewrite Hboot.
    reflexivity.
Qed.

(** The boot time raises: the tick stops after the cards. *)
Lemma update_stats_boot_fails (h : host) (m : monitor) (cpu : Q)
    (ram_info : svmem) (battery : option sbattery) (usage : sdiskusage)
    (net : snetio) (e : exn) :
  readings h = Return (cpu, ram_info, battery, usage, net) ->
  psutil_boot_time h = Raise e ->
  tick_stopped_early m (fst (update_stats h m)) /\
  snd (update_stats h m) = Raise e.
Proof.
  intros Hread Hboot.
  pose proof (sample_of_readings h _ _ _ _ _ Hread) as Hsample.
  rewrite Hboot in Hsample.
  pose proof (update_stats_charts h m) as Hcharts.
  cbv zeta in Hcharts. rewrite Hsample in Hcharts.
  destruct Hcharts as (Hx & Hcpu & Hram).
  split.
  - unfold tick_stopped_early.
    rewrite update_stats_uptime, update_stats_table, Hsample.
    repeat split; assumption.
  - rewrite update_stats_result, Hread. cbn [bind]. now rewrite Hboot.
Qed.

(** C8.  When the thermal zone file is missing, cannot be read, or does not
    hold a number, [get_cpu_temp] returns 0.0: it is a total function, no
    exception leaves it.  The tick goes on as with any other temperature:
    the temperature label shows 0.0, the CPU, memory, disk, network and
    battery cards show the figures read, and when the boot time and the
    process list answer the uptime is shown, the sample is recorded in both
    histories, the process table is filled with the top ten and the tick
    returns. *)
Theorem unreadable_temperature_is_zero (h : host) :
  temperature_readable h = false ->
  get_cpu_temp h = 0%Q /\
  forall (m : monitor) (cpu : Q) (ram_info : svmem)
         (battery : option sbattery) (usage : sdiskusage) (net : snetio),
    readings h = Return (cpu, ram_info, battery, usage, net) ->
    let m' := fst (update_stats h m) in
    cpu_temp_label m' =
      icon_temperature ++ " Temperature: 0.0" ++ degree ++ "C" /\
    cards_populated m m' cpu ram_info usage net /\
    (exists info, get_battery_info h = Return info /\
                  battery_card_populated m m' info) /\
    (forall (boot : Q) (procs : list pinfo),
        psutil_boot_time h = Return boot ->
        psutil_process_iter h = Return procs ->
        uptime_label m' =
          uptime_text (int_of_float (now_timestamp h - boot)) /\
        sample_recorded m m' cpu (vm_percent ram_info) /\
        process_table m' = map row_of (top_ten procs) /\
        snd (update_stats h m) = Return tt) /\
    (completes h = true -> snd (update_stats h m) = Return tt).
Proof.
  intros Hbad. pose proof (get_cpu_temp_unreadable h Hbad) as Hzero.
  split; [exact Hzero |].
  intros m cpu ram_info battery usage net Hread m'. subst m'.
  destruct (update_stats_cards h m _ _ _ _ _ Hread) as [Hcards Htemp].
  split; [rewrite Htemp, Hzero; reflexivity |].
  split; [exact Hcards |]. split; [| split].
  - destruct (readings_battery h _ _ _ _ _ Hread) as [Hb _].
    destruct (get_battery_info_returns h battery Hb) as (info & Hinfo & _).
    exists info. split; [exact Hinfo |].
    exact (update_stats_battery_card h m _ _ _ _ _ _ Hread Hinfo).
  - intros boot procs Hboot Hprocs.
    destruct (update_stats_after_boot h m _ _ _ _ _ boot Hread Hboot)
      as (Hup & Hrec & Htable & Hres).
    rewrite Hprocs in Htable, Hres. cbn [bind] in Hres.
    split; [exact Hup | split; [exact Hrec | split; [exact Htable |]]].
    exact Hres.
  - apply update_stats_outcome.
Qed.

Lemma unreadable_temperature_is_zero_witness :
  temperature_readable Sample.desktop = false /\
  get_cpu_temp Sample.desktop = 0%Q.
Proof.
  split; [reflexivity |].
  exact (proj1 (unreadable_temperature_is_zero Sample.desktop eq_refl)).
Defined.

(** C4, amended.  A tick tolerates an unreadable temperature, which is
    shown as 0.0, and an absent battery, which is shown as such: the CPU,
    memory, disk and network sources are read and their cards updated, and
    when the boot time and the process list answer the uptime is shown, the
    sample recorded, the process table filled and the tick returns.  An
    exception raised by the process list leaves [update_stats] after the
    cards and the uptime were updated and the sample recorded, with the
    process table as it was.  An exception raised by the boot time leaves
    [update_stats] after the cards were updated, with the uptime, the
    histories and the process table as they were.  An exception raised by
    the CPU, memory, battery, disk or network source leaves [update_stats]
    before anything is displayed. *)
Theorem tick_tolerates_temperature_and_battery (h : host) (m : monitor) :
  (forall (cpu : Q) (ram_info : svmem) (battery : option sbattery)
          (usage : sdiskusage) (net : snetio),
      readings h = Return (cpu, ram_info, battery, usage, net) ->
      let m' := fst (update_stats h m) in
      cards_populated m m' cpu ram_info usage net /\
      cpu_temp_label m' =
        icon_temperature ++ " Temperature: " ++
        format_f 1 (get_cpu_temp h) ++ degree ++ "C" /\
      (temperature_readable h = false -> get_cpu_temp h = 0%Q) /\
      (exists info : option BatteryInfo.t,
          get_battery_info h = Return info /\
          (battery = None <-> info = None) /\
          battery_card_populated m m' info) /\
      (forall (boot : Q) (procs : list pinfo),
          psutil_boot_time h = Return boot ->
          psutil_process_iter h = Return procs ->
          uptime_label m' =
            uptime_text (int_of_float (now_timestamp h - boot)) /\
          sample_recorded m m' cpu (vm_percent ram_info) /\
          process_table m' = map row_of (top_ten procs) /\
          snd (update_stats h m) = Return tt) /\
      (forall (boot : Q) (e : exn),
          psutil_boot_time h = Return boot ->
          psutil_process_iter h = Raise e ->
          uptime_label m' =
            uptime_text (int_of_float (now_timestamp h - boot)) /\
          sample_recorded m m' cpu (vm_percent ram_info) /\
          process_table m' = process_table m /\
          snd (update_stats h m) = Raise e) /\
      (forall e : exn,
          psutil_boot_time h = Raise e ->
          tick_stopped_early m m' /\
          snd (update_stats h m) = Raise e)) /\
  (sources_answer h = false ->
   exists e : exn,
     readings h = Raise e /\ update_stats h m = (m, Raise e)).
Proof.
  split.
  - intros cpu ram_info battery usage net Hread m'. subst m'.
    destruct (update_stats_cards h m _ _ _ _ _ Hread) as [Hcards Htemp].
    destruct (readings_battery h _ _ _ _ _ Hread) as [Hb _].
    destruct (get_battery_info_returns h battery Hb) as (info & Hinfo & Hnone).
    split; [exact Hcards |]. split; [exact Htemp |].
    split; [apply get_cpu_temp_unreadable |].
    split.
    { exists info. split; [exact Hinfo |]. split; [exact Hnone |].
      exact (update_stats_battery_card h m _ _ _ _ _ _ Hread Hinfo). }
    split; [| split].
    + intros boot procs Hboot Hprocs.
      destruct (update_stats_after_boot h m _ _ _ _ _ boot Hread Hboot)
        as (Hup & Hrec & Htable & Hres).
      rewrite Hprocs in Htable, Hres. cbn [bind] in Hres.
      split; [exact Hup | split; [exact Hrec | split; [exact Htable |]]].
      exact Hres.
    + intros boot e Hboot Hprocs.
      destruct (update_stats_after_boot h m _ _ _ _ _ boot Hread Hboot)
        as (Hup & Hrec & Htable & Hres).
      rewrite Hprocs in Htable, Hres. cbn [bind] in Hres.
      split; [exact Hup | split; [exact Hrec | split; [exact Htable |]]].
      exact Hres.
    + intros e Hboot.
      exact (update_stats_boot_fails h m _ _ _ _ _ e Hread Hboot).
  - intros Hfail. pose proof (readings_cases h) as Hcases.
    rewrite Hfail in Hcases. destruct Hcases as [e He].
    exists e. split; [exact He | exact (update_stats_aborts h m e He)].
Qed.

Lemma tick_tolerates_temperature_and_battery_witness :
  exists m0,
    __init__ Sample.laptop = Return m0 /\
    temperature_readable Sample.desktop = false /\
    psutil_sensors_battery Sample.desktop = Return None /\
    snd (update_stats Sample.desktop m0) = Return tt /\
    psutil_process_iter Sample.processes_fail = Raise Sample.access_denied /\
    snd (update_stats Sample.processes_fail m0) =
      Raise Sample.access_denied /\
    sources_answer Sample.disk_fails = false /\
    exists e : exn,
      readings Sample.disk_fails = Raise e /\
      update_stats Sample.disk_fails m0 = (m0, Raise e).
Proof.
  eexists. split; [reflexivity |].
  split; [reflexivity |]. split; [reflexivity |].
  match goal with
  | |- context [update_stats Sample.desktop ?m] =>
      pose proof (proj1 (tick_tolerates_temperature_and_battery
                           Sample.desktop m) _ _ _ _ _ eq_refl) as Hok;
      pose proof (proj1 (tick_tolerates_temperature_and_battery
                           Sample.processes_fail m) _ _ _ _ _ eq_refl)
        as Hprocs;
      pose proof (proj2 (tick_tolerates_temperature_and_battery
                           Sample.disk_fails m) eq_refl) as Hbad
  end.
  cbv zeta in Hok, Hprocs.
  destruct Hok as (_ & _ & _ & _ & Hok & _).
  destruct Hprocs as (_ & _ & _ & _ & _ & Hprocs & _).
  split; [exact (proj2 (proj2 (proj2 (Hok _ _ eq_refl eq_refl)))) |].
  split; [reflexivity |].
  split; [exact (proj2 (proj2 (proj2 (Hprocs _ _ eq_refl eq_refl)))) |].
  split; [reflexivity | exact Hbad].
Defined.
